(** * Scripts/analyze_results.py: metrics calculator, history store and
      prompt-version comparator

    A shallow embedding of the three core functions of the analysis script,
    [calculate_metrics], [add_to_history] and [compare_prompt_versions],
    together with the theorems that settle the specification's claims about
    them.

    Conventions of the embedding.
    - A CSV row (a [dict] produced by [csv.DictReader]) is a
      [gmap string string]: every field it has is a string; [r.get(k)] is
      [r !! k] and [r.get(k, d)] is [default d (r !! k)].  The [None] that
      [csv.DictReader] stores for the cells a short line lacks has no
      counterpart: the rows of the development are those of files whose
      lines are as long as the header.  Theorems about what follows a
      calculation take the returned document as a hypothesis and say which
      of its values they need to be strings.
    - The dictionaries the script builds and serialises (the metrics
      document, the history records, the per-class tables) are association
      lists in insertion order, read with [dict_get].
    - A Python [float] is a rational number of [Q]: arithmetic is exact,
      binary rounding is not modelled, and the non-finite values [nan] and
      [inf] have no counterpart.  Equations between floats are therefore
      stated with [==].  [int] values are [Z] or [nat].  The latency
      percentiles, which only sort and index the sample, are modelled a
      second time on binary64 floats ([latency_percentiles64]), where [nan]
      exists and compares false with everything.
    - The builtin [float(s)] is a parameter [py_float] of the development
      ([None] stands for [ValueError]); [str.lower], [str.isdigit] and
      [int(s)] are defined on ASCII (a theorem that depends on it asks for
      ASCII cells with [isascii]).
    - Exceptions are values of [exn]; code that may raise lives in the
      [result] monad.  The clock read by [datetime.now()] is the explicit
      argument [now]; the history file is an explicit store that is passed
      in and returned; printed lines are returned as data. *)

From Stdlib Require Import Ascii QArith Qabs Qround Sorted Floats Lia Lqa.
From stdpp Require Import base option list strings gmap.

Local Open Scope string_scope.
Local Open Scope list_scope.

(** ** Python builtins *)

Inductive exn : Type :=
| ZeroDivisionError
| IndexError
| KeyError
| TypeError
| ValueError.

Inductive result (A : Type) : Type :=
| Ok (a : A)
| Raise (e : exn).
Arguments Ok {A} a.
Arguments Raise {A} e.

Definition rbind {A B : Type} (m : result A) (k : A -> result B) : result B :=
  match m with
  | Ok a => k a
  | Raise e => Raise e
  end.

Notation "'let*' x ':=' m 'in' k" := (rbind m (fun x => k))
  (at level 10, x name, m at level 100, k at level 200).

(** [len(xs)] used as an operand of a float operation. *)
Definition Qnat (n : nat) : Q := inject_Z (Z.of_nat n).

(** [a < b] on floats. *)
Definition Qlt_bool (a b : Q) : bool := negb (Qle_bool b a).

(** [a / b] on numbers seen as floats. *)
Definition py_div (a b : Q) : result Q :=
  if Qeq_bool b 0 then Raise ZeroDivisionError else Ok (a / b)%Q.

(** [sum(xs)]: the accumulator starts at 0 and the items are added from
    the left. *)
Definition py_sum (xs : list Q) : Q := fold_left Qplus xs 0%Q.

(** [xs[i]] for [0 <= i]. *)
Definition py_index {A : Type} (xs : list A) (i : nat) : result A :=
  match xs !! i with
  | Some x => Ok x
  | None => Raise IndexError
  end.

Definition lower_ascii (c : ascii) : ascii :=
  let n := nat_of_ascii c in
  if Nat.leb 65 n && Nat.leb n 90 then ascii_of_nat (n + 32) else c.

(** [s.lower()] *)
Fixpoint lower (s : string) : string :=
  match s with
  | EmptyString => EmptyString
  | String c s' => String (lower_ascii c) (lower s')
  end.

Definition digit_of_ascii (c : ascii) : option nat :=
  let n := nat_of_ascii c in
  if Nat.leb 48 n && Nat.leb n 57 then Some (n - 48)%nat else None.

Fixpoint digits_value (acc : nat) (s : string) : option nat :=
  match s with
  | EmptyString => Some acc
  | String c s' =>
      match digit_of_ascii c with
      | Some d => digits_value (10 * acc + d) s'
      | None => None
      end
  end.

(** [s.isdigit()]: a non-empty string of decimal digits. *)
Definition isdigit (s : string) : bool :=
  match s with
  | EmptyString => false
  | _ => bool_decide (is_Some (digits_value 0 s))
  end.

(** [int(s)] on a string for which [isdigit] holds. *)
Definition py_int (s : string) : nat := default 0%nat (digits_value 0 s).

(** [sorted(xs)] on floats: the stable sort by [<=]. *)
Fixpoint insert_sorted (x : Q) (l : list Q) : list Q :=
  match l with
  | [] => [x]
  | y :: l' => if Qle_bool x y then x :: y :: l' else y :: insert_sorted x l'
  end.

Fixpoint sorted (l : list Q) : list Q :=
  match l with
  | [] => []
  | x :: l' => insert_sorted x (sorted l')
  end.

(** [int(n * c)] for a non-negative float: truncation is the floor. *)
Definition int_of_scaled (n : nat) (c : Q) : nat :=
  Z.to_nat (Qfloor (inject_Z (Z.of_nat n) * c)).

(** ** Dictionaries in insertion order *)

Definition dict (V : Type) : Type := list (string * V).

Fixpoint dict_get {V : Type} (k : string) (d : dict V) : option V :=
  match d with
  | [] => None
  | (k', v) :: d' => if String.eqb k' k then Some v else dict_get k d'
  end.

(** [d[k] = v]: an existing key keeps its position, a new one goes last. *)
Fixpoint dict_set {V : Type} (k : string) (v : V) (d : dict V) : dict V :=
  match d with
  | [] => [(k, v)]
  | (k', v') :: d' =>
      if String.eqb k' k then (k', v) :: d' else (k', v') :: dict_set k v d'
  end.

(** An in-place update of the entry [d[k]]; [KeyError] when [k] is not a
    key of [d]. *)
Fixpoint dict_update {V : Type} (f : V -> V) (k : string) (d : dict V)
  : result (dict V) :=
  match d with
  | [] => Raise KeyError
  | (k', v) :: d' =>
      if String.eqb k' k then Ok ((k', f v) :: d')
      else let* d'' := dict_update f k d' in Ok ((k', v) :: d'')
  end.

(** ** Documents *)

(** The scalar values a JSON document of this program holds. *)
Inductive scalar : Type :=
| SNone
| SInt (z : Z)
| SFloat (q : Q)
| SStr (s : string).

(** One entry of [entity_metrics]. *)
Record class_metrics : Type := ClassMetrics {
  precision : Q;
  recall : Q;
  f1 : Q;
  support : nat;
  predicted_count : nat
}.

(** One entry of [confidence_bins]. *)
Record bin : Type := Bin {
  count : nat;
  correct : nat
}.

(** The dictionary [calculate_metrics] returns.  [fields] holds the entries
    whose value is a scalar, in the order of the dictionary literal; the
    four structured entries are [None] when the key is absent. *)
Record MetricsDocument : Type := {
  fields : dict scalar;
  entity_type_metrics : option (dict class_metrics);
  confusion_matrix : option (dict (dict nat));
  confidence_bins : option (dict bin);
  latencies : option (list Q)
}.

(** [metrics.get(k)] for a key with a scalar value. *)
Definition metrics_get (metrics : MetricsDocument) (k : string) : scalar :=
  default SNone (dict_get k (fields metrics)).

Abbreviation row := (gmap string string).

(** ** Metrics calculation *)

Section Calculator.

(** [float(s)]; [None] when it raises [ValueError]. *)
Variable py_float : string -> option Q.

(** The configured label list, [CONFIG["entity_types"]]. *)
Variable ENTITY_TYPES : list string.

Definition parse_float (val : string) (default_ : Q) : Q :=
  match val with
  | "" => default_
  | _ => match py_float val with
         | Some x => x
         | None => default_
         end
  end.

Definition parse_bool (val : string) : bool :=
  match val with
  | "" => false
  | _ => bool_decide (lower val = "true")
  end.

(** [r.get("status") == s] *)
Definition has_status (s : string) (r : row) : Prop := r !! "status" = Some s.

#[global] Instance has_status_dec s r : Decision (has_status s r).
Proof. unfold has_status. apply _. Defined.

(** [r.get(k, "").lower() == s] *)
Definition lower_is (k s : string) (r : row) : Prop :=
  lower (default "" (r !! k)) = s.

#[global] Instance lower_is_dec k s r : Decision (lower_is k s r).
Proof. unfold lower_is. apply _. Defined.

(** [parse_bool(r.get(k, ""))] *)
Definition flag_set (k : string) (r : row) : Prop :=
  parse_bool (default "" (r !! k)) = true.

#[global] Instance flag_set_dec k r : Decision (flag_set k r).
Proof. unfold flag_set. apply _. Defined.

Definition completed_rows (results : list row) : list row :=
  filter (has_status "COMPLETED") results.

(** The body of the loop over [ENTITY_TYPES]. *)
Definition class_entry (completed : list row) (entity_type : string)
  : result class_metrics :=
  let predicted := filter (lower_is "actual_entity_type" entity_type) completed in
  let actual := filter (lower_is "expected_entity_type" entity_type) completed in
  let true_positives := filter (lower_is "entity_type_correct" "true") predicted in
  let* precision :=
    match predicted with
    | [] => Ok 0%Q
    | _ => py_div (Qnat (length true_positives)) (Qnat (length predicted))
    end in
  let* recall :=
    match actual with
    | [] => Ok 0%Q
    | _ => py_div (Qnat (length true_positives)) (Qnat (length actual))
    end in
  let* f1 :=
    if Qlt_bool 0 (precision + recall)
    then py_div (2 * (precision * recall)) (precision + recall)
    else Ok 0%Q in
  Ok {| precision := precision; recall := recall; f1 := f1;
        support := length actual; predicted_count := length predicted |}.

Fixpoint entity_metrics_loop (completed : list row) (types : list string)
    (entity_metrics : dict class_metrics) : result (dict class_metrics) :=
  match types with
  | [] => Ok entity_metrics
  | entity_type :: rest =>
      let* m := class_entry completed entity_type in
      entity_metrics_loop completed rest (dict_set entity_type m entity_metrics)
  end.

(** [confusion_matrix[expected][actual] += 1] on nested [defaultdict]s. *)
Definition confusion_add (cm : dict (dict nat)) (r : row) : dict (dict nat) :=
  let expected := lower (default "unknown" (r !! "expected_entity_type")) in
  let actual := lower (default "unknown" (r !! "actual_entity_type")) in
  let inner := default [] (dict_get expected cm) in
  dict_set expected
    (dict_set actual (S (default 0%nat (dict_get actual inner))) inner) cm.

Definition confusion_of (completed : list row) : dict (dict nat) :=
  fold_left confusion_add completed [].

(** [sum(1 for r in completed if parse_bool(r.get(k, "")))] *)
Definition flag_count (k : string) (completed : list row) : nat :=
  length (filter (flag_set k) completed).

Definition hour_errors_of (completed : list row) : list nat :=
  omap (fun r : row =>
          let err := default "" (r !! "start_hour_error") in
          if negb (String.eqb err "") && isdigit err
          then Some (py_int err) else None) completed.

Definition bin_key_of (conf : Q) : string :=
  if Qlt_bool conf 0.5 then "0.0-0.5"
  else if Qlt_bool conf 0.7 then "0.5-0.7"
  else if Qlt_bool conf 0.9 then "0.7-0.9"
  else "0.9-1.0".

Definition initial_bins : dict bin :=
  [("0.0-0.5", Bin 0 0); ("0.5-0.7", Bin 0 0);
   ("0.7-0.9", Bin 0 0); ("0.9-1.0", Bin 0 0)].

(** The two increments on the selected bin. *)
Definition bin_hit (is_correct : bool) (b : bin) : bin :=
  {| count := S (count b);
     correct := if is_correct then S (correct b) else correct b |}.

Definition bins_add (bins : dict bin) (r : row) : result (dict bin) :=
  let conf := parse_float (default "0" (r !! "confidence")) 0 in
  let is_correct := parse_bool (default "" (r !! "entity_type_correct")) in
  dict_update (bin_hit is_correct) (bin_key_of conf) bins.

Fixpoint bins_loop (completed : list row) (bins : dict bin)
  : result (dict bin) :=
  match completed with
  | [] => Ok bins
  | r :: rest => let* bins' := bins_add bins r in bins_loop rest bins'
  end.

(** Midpoint of the bin, chosen by its key. *)
Definition expected_conf (bin_key : string) : Q :=
  if String.eqb bin_key "0.0-0.5" then 0.25
  else if String.eqb bin_key "0.5-0.7" then 0.6
  else if String.eqb bin_key "0.7-0.9" then 0.8
  else 0.95.

Fixpoint ece_loop (items : dict bin) (n_completed : nat) (ece : Q)
  : result Q :=
  match items with
  | [] => Ok ece
  | (bin_key, bin_data) :: rest =>
      if Nat.ltb 0 (count bin_data) then
        let* bin_acc :=
          py_div (Qnat (correct bin_data)) (Qnat (count bin_data)) in
        let* weight := py_div (Qnat (count bin_data)) (Qnat n_completed) in
        ece_loop rest n_completed
          (ece + Qabs (bin_acc - expected_conf bin_key) * weight)
      else ece_loop rest n_completed ece
  end.

(** The confidence of a row as the binning loop reads it, and the bin the
    loop selects for it. *)
Definition conf_of (r : row) : Q :=
  parse_float (default "0" (r !! "confidence")) 0.

Definition in_bin (key : string) (r : row) : Prop :=
  bin_key_of (conf_of r) = key.

#[global] Instance in_bin_dec key r : Decision (in_bin key r).
Proof. unfold in_bin. apply _. Defined.

Definition in_bin_correct (key : string) (r : row) : Prop :=
  in_bin key r /\ flag_set "entity_type_correct" r.

#[global] Instance in_bin_correct_dec key r : Decision (in_bin_correct key r).
Proof. unfold in_bin_correct. apply _. Defined.

(** The bin [key] after the rows of [completed] have been counted into
    [b]. *)
Definition bin_after (key : string) (completed : list row) (b : bin) : bin :=
  {| count := count b + length (filter (in_bin key) completed);
     correct := correct b + length (filter (in_bin_correct key) completed) |}.


Definition latencies_of (completed : list row) : list Q :=
  map (fun r : row => parse_float (default "0" (r !! "latency_ms")) 0) completed.

Definition p50_index (n : nat) : nat := n / 2.
Definition p95_index (n : nat) : nat := Nat.min (int_of_scaled n 0.95) (n - 1).
Definition p99_index (n : nat) : nat := Nat.min (int_of_scaled n 0.99) (n - 1).

Definition calculate_metrics (now : string) (results : list row)
  : result MetricsDocument :=
  let completed := completed_rows results in
  let total := length results in
  let n_completed := length completed in
  let n_skipped := length (filter (has_status "SKIPPED") results) in
  let n_errors := length (filter (has_status "ERROR") results) in
  if Nat.eqb n_completed 0 then
    Ok {| fields :=
            [("total_tests", SInt (Z.of_nat total));
             ("completed_tests", SInt 0);
             ("skipped_tests", SInt (Z.of_nat n_skipped));
             ("error_tests", SInt (Z.of_nat n_errors));
             ("error", SStr "No completed tests to analyze")];
          entity_type_metrics := None;
          confusion_matrix := None;
          confidence_bins := None;
          latencies := None |}
  else
    let entity_correct :=
      length (filter (lower_is "entity_type_correct" "true") completed) in
    let* entity_type_accuracy :=
      py_div (Qnat entity_correct) (Qnat n_completed) in
    let* entity_metrics := entity_metrics_loop completed ENTITY_TYPES [] in
    let confusion := confusion_of completed in
    let title_overlaps :=
      map (fun r : row =>
             parse_float (default "0" (r !! "title_keyword_overlap")) 0)
          completed in
    let* title_overlap_avg :=
      py_div (py_sum title_overlaps) (Qnat (length title_overlaps)) in
    let* start_time_accuracy :=
      py_div (Qnat (flag_count "start_time_presence_correct" completed))
             (Qnat n_completed) in
    let* start_hour_accuracy :=
      py_div (Qnat (flag_count "start_hour_correct" completed))
             (Qnat n_completed) in
    let hour_errors := hour_errors_of completed in
    let* avg_hour_error :=
      match hour_errors with
      | [] => Ok SNone
      | _ => let* avg := py_div (py_sum (map Qnat hour_errors))
                                (Qnat (length hour_errors)) in
             Ok (SFloat avg)
      end in
    let* end_time_accuracy :=
      py_div (Qnat (flag_count "end_time_presence_correct" completed))
             (Qnat n_completed) in
    let* recurrence_accuracy :=
      py_div (Qnat (flag_count "recurrence_presence_correct" completed))
             (Qnat n_completed) in
    let* time_pref_accuracy :=
      py_div (Qnat (flag_count "time_preference_presence_correct" completed))
             (Qnat n_completed) in
    let confidences :=
      map (fun r : row => parse_float (default "0" (r !! "confidence")) 0)
          completed in
    let* avg_confidence :=
      py_div (py_sum confidences) (Qnat (length confidences)) in
    let* calibration_rate :=
      py_div (Qnat (flag_count "confidence_calibrated" completed))
             (Qnat n_completed) in
    let* bins := bins_loop completed initial_bins in
    let* ece := ece_loop bins n_completed 0 in
    let lats := latencies_of completed in
    let latencies_sorted := sorted lats in
    let* avg_latency := py_div (py_sum lats) (Qnat (length lats)) in
    let* p50_latency := py_index latencies_sorted (p50_index (length lats)) in
    let* p95_latency := py_index latencies_sorted (p95_index (length lats)) in
    let* p99_latency := py_index latencies_sorted (p99_index (length lats)) in
    let first_result : row := default ∅ (head results) in
    let run_id := default "unknown" (first_result !! "run_id") in
    let timestamp := default now (first_result !! "timestamp") in
    let prompt_version := default "unknown" (first_result !! "prompt_version") in
    let* completion_rate :=
      if Nat.ltb 0 total
      then let* c := py_div (Qnat n_completed) (Qnat total) in Ok (SFloat c)
      else Ok (SInt 0) in
    Ok {| fields :=
            [("run_id", SStr run_id);
             ("timestamp", SStr timestamp);
             ("prompt_version", SStr prompt_version);
             ("total_tests", SInt (Z.of_nat total));
             ("completed_tests", SInt (Z.of_nat n_completed));
             ("skipped_tests", SInt (Z.of_nat n_skipped));
             ("error_tests", SInt (Z.of_nat n_errors));
             ("completion_rate", completion_rate);
             ("entity_type_accuracy", SFloat entity_type_accuracy);
             ("title_keyword_overlap_avg", SFloat title_overlap_avg);
             ("start_time_presence_accuracy", SFloat start_time_accuracy);
             ("start_hour_accuracy", SFloat start_hour_accuracy);
             ("avg_hour_error", avg_hour_error);
             ("end_time_presence_accuracy", SFloat end_time_accuracy);
             ("recurrence_presence_accuracy", SFloat recurrence_accuracy);
             ("time_preference_presence_accuracy", SFloat time_pref_accuracy);
             ("avg_confidence", SFloat avg_confidence);
             ("confidence_calibration_rate", SFloat calibration_rate);
             ("expected_calibration_error", SFloat ece);
             ("avg_latency_ms", SFloat avg_latency);
             ("p50_latency_ms", SFloat p50_latency);
             ("p95_latency_ms", SFloat p95_latency);
             ("p99_latency_ms", SFloat p99_latency)];
          entity_type_metrics := Some entity_metrics;
          confusion_matrix := Some confusion;
          confidence_bins := Some bins;
          latencies := Some lats |}.

End Calculator.

(** The calibration error as the specification words it: the sum, over the
    bins with a non-zero count taken in order with the fixed midpoints, of
    [|accuracy - midpoint| * (count / n)]. *)
Definition bin_midpoints : list Q := [0.25; 0.6; 0.8; 0.95]%Q.

Definition bin_accuracy (b : bin) : Q := (Qnat (correct b) / Qnat (count b))%Q.

Definition calibration_gap (n : nat) (p : bin * Q) : Q :=
  (Qabs (bin_accuracy p.1 - p.2) * (Qnat (count p.1) / Qnat n))%Q.

Definition weighted_calibration_gaps (bins : list bin) (n : nat) : Q :=
  py_sum (map (calibration_gap n)
              (filter (fun p : bin * Q => (0 < count p.1)%nat)
                      (zip bins bin_midpoints))).

(** One term of the calibration error in binary64, the arithmetic Python's
    [float] has, for a cross-check of the scenario of the specification. *)
Definition calibration_gap_binary64 (correct count n mid : float) : float :=
  (PrimFloat.abs (correct / count - mid) * (count / n))%float.

(** ** Historical tracking *)

(** The history file: [None] while it does not exist, otherwise the list of
    records it holds. *)
Definition load_metrics_history (file : option (list (dict scalar)))
  : list (dict scalar) :=
  default [] file.

(** The file is rewritten in full. *)
Definition save_metrics_history (history : list (dict scalar))
  : option (list (dict scalar)) :=
  Some history.

(** [a == b] on scalars, which is also the equality of set membership. *)
Definition py_eqb (a b : scalar) : bool :=
  match a, b with
  | SNone, SNone => true
  | SInt x, SInt y => Z.eqb x y
  | SFloat x, SFloat y => Qeq_bool x y
  | SInt x, SFloat y => Qeq_bool (inject_Z x) y
  | SFloat x, SInt y => Qeq_bool x (inject_Z y)
  | SStr x, SStr y => String.eqb x y
  | _, _ => false
  end.

(** [h.get(k)] on a history record. *)
Definition record_get (k : string) (h : dict scalar) : scalar :=
  default SNone (dict_get k h).

(** [v[:8]]: only a string can be sliced. *)
Definition py_prefix8 (v : scalar) : result string :=
  match v with
  | SStr s => Ok (String.substring 0 8 s)
  | _ => Raise TypeError
  end.

(** The line [add_to_history] prints. *)
Inductive report : Type :=
| AddedRun (run : string) (total_runs : nat)
| RunAlreadyInHistory (run : string).

Definition history_record_of (metrics : MetricsDocument) : dict scalar :=
  [("run_id", metrics_get metrics "run_id");
   ("timestamp", metrics_get metrics "timestamp");
   ("prompt_version", metrics_get metrics "prompt_version");
   ("total_tests", metrics_get metrics "total_tests");
   ("completed_tests", metrics_get metrics "completed_tests");
   ("completion_rate", metrics_get metrics "completion_rate");
   ("entity_type_accuracy", metrics_get metrics "entity_type_accuracy");
   ("title_keyword_overlap_avg", metrics_get metrics "title_keyword_overlap_avg");
   ("start_time_presence_accuracy",
      metrics_get metrics "start_time_presence_accuracy");
   ("start_hour_accuracy", metrics_get metrics "start_hour_accuracy");
   ("avg_confidence", metrics_get metrics "avg_confidence");
   ("expected_calibration_error",
      metrics_get metrics "expected_calibration_error");
   ("avg_latency_ms", metrics_get metrics "avg_latency_ms");
   ("p95_latency_ms", metrics_get metrics "p95_latency_ms")].

(** [x in existing_ids], the set being read only through membership. *)
Definition in_ids (x : scalar) (existing_ids : list scalar) : bool :=
  existsb (py_eqb x) existing_ids.

(** Returns the history file after the call and what the call printed, or
    the exception that ended it. *)
Definition add_to_history (metrics : MetricsDocument)
    (file : option (list (dict scalar)))
  : option (list (dict scalar)) * result report :=
  let history_record := history_record_of metrics in
  let history := load_metrics_history file in
  let existing_ids := map (record_get "run_id") history in
  if negb (in_ids (record_get "run_id" history_record) existing_ids) then
    let history' := history ++ [history_record] in
    let file' := save_metrics_history history' in
    (file',
     let* run := py_prefix8 (record_get "run_id" history_record) in
     Ok (AddedRun run (length history')))
  else
    (file,
     let* run := py_prefix8 (record_get "run_id" history_record) in
     Ok (RunAlreadyInHistory run)).

(** ** Prompt-version comparison *)

(** [a > b] on scalars. *)
Definition py_gt (a b : scalar) : result bool :=
  match a, b with
  | SStr x, SStr y => Ok (String.ltb y x)
  | SInt x, SInt y => Ok (Z.ltb y x)
  | SFloat x, SFloat y => Ok (Qlt_bool y x)
  | SInt x, SFloat y => Ok (Qlt_bool y (inject_Z x))
  | SFloat x, SInt y => Ok (Qlt_bool (inject_Z y) x)
  | _, _ => Raise TypeError
  end.

(** [max(xs, key=key)]: the first of the greatest items. *)
Fixpoint max_loop {A : Type} (key : A -> scalar) (best : A) (xs : list A)
  : result A :=
  match xs with
  | [] => Ok best
  | x :: xs' =>
      let* gt := py_gt (key x) (key best) in
      max_loop key (if gt then x else best) xs'
  end.

Definition py_max {A : Type} (key : A -> scalar) (xs : list A) : result A :=
  match xs with
  | [] => Raise ValueError
  | x :: xs' => max_loop key x xs'
  end.

(** [h.get("prompt_version") == v] *)
Definition has_version (v : string) (h : dict scalar) : Prop :=
  py_eqb (record_get "prompt_version" h) (SStr v) = true.

#[global] Instance has_version_dec v h : Decision (has_version v h).
Proof. unfold has_version. apply _. Defined.

(** [x.get("timestamp", "")] *)
Definition timestamp_key (x : dict scalar) : scalar :=
  default (SStr "") (dict_get "timestamp" x).

Inductive verdict : Type :=
| Improved
| Regressed
| Unchanged.

(** One line of the comparison table: the two values and the change as they
    are handed to the [.1f] format, and the indicator. *)
Record metric_line : Type := MetricRow {
  line_label : string;
  as_percentage : bool;
  display1 : Q;
  display2 : Q;
  change : Q;
  indicator : verdict
}.

Inductive line : Type :=
| NoRunsFound (v : string)
| Rule (width : nat)
| Title (v1 v2 : string)
| ColumnHeads (v1 v2 : string)
| MetricLine (m : metric_line).

(** The value a [.1f] format (or the arithmetic before it) accepts. *)
Definition as_number (v : scalar) : result Q :=
  match v with
  | SInt z => Ok (inject_Z z)
  | SFloat q => Ok q
  | SNone => Raise TypeError
  | SStr _ => Raise ValueError
  end.

(** [isinstance(val1, float) and val1 <= 1] *)
Definition shown_as_percentage (val1 : scalar) : bool :=
  match val1 with
  | SFloat q => Qle_bool q 1
  | _ => false
  end.

Definition indicator_of (higher_is_better : bool) (change : Q) : verdict :=
  if higher_is_better then
    if Qlt_bool 0 change then Improved
    else if Qlt_bool change 0 then Regressed else Unchanged
  else
    if Qlt_bool change 0 then Improved
    else if Qlt_bool 0 change then Regressed else Unchanged.

Definition compare_metric (label : string) (higher_is_better : bool)
    (val1 val2 : scalar) : result metric_line :=
  if shown_as_percentage val1 then
    let* x1 := as_number val1 in
    let* x2 := as_number val2 in
    let change := ((x2 - x1) * 100)%Q in
    Ok {| line_label := label; as_percentage := true;
          display1 := (x1 * 100)%Q; display2 := (x2 * 100)%Q;
          change := change;
          indicator := indicator_of higher_is_better change |}
  else
    let* x1 := as_number val1 in
    let* x2 := as_number val2 in
    let change := (x2 - x1)%Q in
    Ok {| line_label := label; as_percentage := false;
          display1 := x1; display2 := x2;
          change := change;
          indicator := indicator_of higher_is_better change |}.

(** [latest.get(key, 0)] *)
Definition metric_value (key : string) (latest : dict scalar) : scalar :=
  default (SInt 0) (dict_get key latest).

Definition metrics_to_compare : list (string * string * bool) :=
  [("entity_type_accuracy", "Entity Type Accuracy", true);
   ("title_keyword_overlap_avg", "Title Keyword Overlap", true);
   ("start_hour_accuracy", "Start Hour Accuracy", true);
   ("expected_calibration_error", "Calibration Error", false);
   ("avg_latency_ms", "Avg Latency (ms)", false)].

(** The loop over the metrics: the lines printed so far, and how it ended. *)
Fixpoint compare_loop (metrics : list (string * string * bool))
    (latest_v1 latest_v2 : dict scalar) (out : list line)
  : list line * result unit :=
  match metrics with
  | [] => (out, Ok tt)
  | (key, label, higher_is_better) :: rest =>
      let val1 := metric_value key latest_v1 in
      let val2 := metric_value key latest_v2 in
      match compare_metric label higher_is_better val1 val2 with
      | Ok m => compare_loop rest latest_v1 latest_v2 (out ++ [MetricLine m])
      | Raise e => (out, Raise e)
      end
  end.

(** Returns the printed lines and how the call ended. *)
Definition compare_prompt_versions (v1 v2 : string)
    (history : list (dict scalar)) : list line * result unit :=
  let runs_v1 := filter (has_version v1) history in
  let runs_v2 := filter (has_version v2) history in
  match runs_v1 with
  | [] => ([NoRunsFound v1], Ok tt)
  | _ =>
  match runs_v2 with
  | [] => ([NoRunsFound v2], Ok tt)
  | _ =>
  match py_max timestamp_key runs_v1 with
  | Raise e => ([], Raise e)
  | Ok latest_v1 =>
  match py_max timestamp_key runs_v2 with
  | Raise e => ([], Raise e)
  | Ok latest_v2 =>
      let header :=
        [Rule 60; Title v1 v2; Rule 60; ColumnHeads v1 v2; Rule 70] in
      match compare_loop metrics_to_compare latest_v1 latest_v2 header with
      | (out, Ok _) => (out ++ [Rule 60], Ok tt)
      | (out, Raise e) => (out, Raise e)
      end
  end end end end.

(** The table lines among the printed lines, and the verdict seen from the
    other side. *)
Definition metric_lines (out : list line) : list metric_line :=
  omap (fun l => match l with MetricLine m => Some m | _ => None end) out.

Definition flip (v : verdict) : verdict :=
  match v with
  | Improved => Regressed
  | Regressed => Improved
  | Unchanged => Unchanged
  end.

(** How the table lines [m12] of [compare(v1, v2)] and [m21] of
    [compare(v2, v1)] for one metric relate, [val1] and [val2] being the
    values of the metric in the latest records of [v1] and [v2]: each
    change is the difference of the two values, times 100 when the line is
    shown as a percentage; the verdicts are opposite; and the changes are
    opposite when both lines are shown the same way. *)
Definition mirrored (higher_is_better : bool) (val1 val2 : scalar)
    (m12 m21 : metric_line) : Prop :=
  exists x1 x2 : Q,
    as_number val1 = Ok x1 /\ as_number val2 = Ok x2 /\
    as_percentage m12 = shown_as_percentage val1 /\
    as_percentage m21 = shown_as_percentage val2 /\
    change m12 = (if as_percentage m12 then (x2 - x1) * 100 else x2 - x1)%Q /\
    change m21 = (if as_percentage m21 then (x1 - x2) * 100 else x1 - x2)%Q /\
    indicator m12 = indicator_of higher_is_better (change m12) /\
    indicator m21 = flip (indicator m12) /\
    (as_percentage m12 = as_percentage m21 -> (change m21 == - change m12)%Q).

(** ** Sample data

    A reader of plain decimal numerals ([12], [0.85], [-3.5]) that stands
    for [float] in the concrete runs below, and the rows and histories those
    runs use. *)

Fixpoint split_at_dot (s : string) : string * option string :=
  match s with
  | EmptyString => (EmptyString, None)
  | String c s' =>
      if Ascii.eqb c "."%char then (EmptyString, Some s')
      else let (a, b) := split_at_dot s' in (String c a, b)
  end.

Definition decimal_float (s : string) : option Q :=
  let (negative, body) :=
    match s with
    | String "-"%char s' => (true, s')
    | _ => (false, s)
    end in
  let (ip, fp) := split_at_dot body in
  let fp := default "" fp in
  if Nat.eqb (String.length ip + String.length fp) 0 then None
  else
    match digits_value 0 ip, digits_value 0 fp with
    | Some i, Some f =>
        let den := Pos.of_nat (10 ^ String.length fp) in
        let q := Qred ((Z.of_nat i * Zpos den + Z.of_nat f) # den) in
        Some (if negative then (- q)%Q else q)
    | _, _ => None
    end.

Definition default_entity_types : list string :=
  ["task"; "event"; "habit"; "override"; "unknown"].

(** A completed row with the given labels, correctness flag, confidence and
    latency; it carries no run metadata. *)
Definition sample_row (expected actual is_correct confidence latency : string)
  : row :=
  list_to_map
    [("status", "COMPLETED");
     ("expected_entity_type", expected);
     ("actual_entity_type", actual);
     ("entity_type_correct", is_correct);
     ("confidence", confidence);
     ("latency_ms", latency)].

Definition skipped_row : row := list_to_map [("status", "SKIPPED")].

(** The calibration scenario: confidences 0.2, 0.6, 0.85, 0.95 with
    correctness false, true, true, true. *)
Definition calibration_rows : list row :=
  [sample_row "task" "event" "false" "0.2" "10";
   sample_row "event" "event" "true" "0.6" "20";
   sample_row "task" "task" "true" "0.85" "30";
   sample_row "habit" "habit" "true" "0.95" "40"].



(** A completed row that carries the run metadata. *)
Definition stamped_row : row :=
  list_to_map
    [("status", "COMPLETED");
     ("run_id", "a1b2c3d4e5f6");
     ("timestamp", "2024-04-30T09:00:00");
     ("prompt_version", "v1");
     ("expected_entity_type", "task");
     ("actual_entity_type", "task");
     ("entity_type_correct", "true");
     ("confidence", "0.9");
     ("latency_ms", "12")].

(** A history record as [add_to_history] writes it. *)
Definition history_entry (run_id timestamp prompt_version : string)
    (accuracy latency : Q) : dict scalar :=
  [("run_id", SStr run_id);
   ("timestamp", SStr timestamp);
   ("prompt_version", SStr prompt_version);
   ("total_tests", SInt 10);
   ("completed_tests", SInt 10);
   ("completion_rate", SFloat 1);
   ("entity_type_accuracy", SFloat accuracy);
   ("title_keyword_overlap_avg", SFloat 0.5);
   ("start_time_presence_accuracy", SFloat 0.5);
   ("start_hour_accuracy", SFloat 0.5);
   ("avg_confidence", SFloat 0.8);
   ("expected_calibration_error", SFloat 0.1);
   ("avg_latency_ms", SFloat latency);
   ("p95_latency_ms", SFloat latency)].

(** One run of prompt version [v1] with an average latency of half a
    millisecond and one of [v2] with 120 ms. *)
Definition sample_history : list (dict scalar) :=
  [history_entry "run-0001-aaaa" "2024-04-01T08:00:00" "v1" 0.8 0.5;
   history_entry "run-0002-bbbb" "2024-04-02T08:00:00" "v2" 0.9 120].

(** The history file after the documents of [docs] have been appended in
    turn. *)
Definition add_all (docs : list MetricsDocument)
    (file : option (list (dict scalar))) : option (list (dict scalar)) :=
  fold_left (fun f d => (add_to_history d f).1) docs file.

(** A metrics document of the run [run-0001-aaaa], already in
    [sample_history], and the document of a run without completed rows. *)
Definition sample_metrics : MetricsDocument :=
  {| fields :=
       [("run_id", SStr "run-0001-aaaa");
        ("timestamp", SStr "2024-04-01T08:00:00");
        ("prompt_version", SStr "v1");
        ("total_tests", SInt 10);
        ("completed_tests", SInt 10);
        ("entity_type_accuracy", SFloat 0.8)];
     entity_type_metrics := None;
     confusion_matrix := None;
     confidence_bins := None;
     latencies := None |}.

Definition degenerate_metrics : MetricsDocument :=
  {| fields :=
       [("total_tests", SInt 2);
        ("completed_tests", SInt 0);
        ("skipped_tests", SInt 2);
        ("error_tests", SInt 0);
        ("error", SStr "No completed tests to analyze")];
     entity_type_metrics := None;
     confusion_matrix := None;
     confidence_bins := None;
     latencies := None |}.

(** ** The latency percentiles in binary64

    The percentile code again, on the floats Python has, to see what the
    rational model leaves out: [float("nan")] parses, and every comparison
    with [nan] is false. *)


(** [sorted(xs)], which compares with [<] only.  On a sample without [nan]
    this is the ascending order; on any sample in which no item is below
    its predecessor it returns the sample as it is, as the first pass of
    [list.sort] does. *)
Fixpoint insert_sorted64 (x : float) (l : list float) : list float :=
  match l with
  | [] => [x]
  | y :: l' =>
      if PrimFloat.ltb y x then y :: insert_sorted64 x l' else x :: y :: l'
  end.

Fixpoint sorted64 (l : list float) : list float :=
  match l with
  | [] => []
  | x :: l' => insert_sorted64 x (sorted64 l')
  end.






(** ** Inputs of further concrete runs *)

(** [s.isascii()] *)
Fixpoint isascii (s : string) : bool :=
  match s with
  | EmptyString => true
  | String c s' => Nat.ltb (nat_of_ascii c) 128 && isascii s'
  end.

(** Three completed rows: hour errors 3 and 5, and one row with a signed
    value, which is left out of the mean. *)
Definition hour_error_rows : list row :=
  [<["start_hour_error" := "3"]> (sample_row "task" "task" "true" "0.9" "10");
   <["start_hour_error" := "5"]> (sample_row "task" "task" "true" "0.9" "10");
   <["start_hour_error" := "-1"]> (sample_row "task" "task" "true" "0.9" "10")].

(** A completed row of a run of prompt version [v2]. *)
Definition stamped_row_v2 : row :=
  list_to_map
    [("status", "COMPLETED");
     ("run_id", "b2c3d4e5f6a7");
     ("timestamp", "2024-05-02T09:00:00");
     ("prompt_version", "v2");
     ("expected_entity_type", "event");
     ("actual_entity_type", "event");
     ("entity_type_correct", "true");
     ("confidence", "0.8");
     ("latency_ms", "15")].

(** ** Readers of the tables *)

(** [confusion.get(expected, {}).get(actual, 0)] *)
Definition confusion_lookup (confusion : dict (dict nat))
    (expected actual : string) : nat :=
  default 0%nat (dict_get actual (default [] (dict_get expected confusion))).





(** ** Invariant of the history file *)

(** No two records of the history carry equal run identifiers. *)
Definition unique_run_ids (history : list (dict scalar)) : Prop :=
  forall i j hi hj,
    history !! i = Some hi -> history !! j = Some hj -> i <> j ->
    py_eqb (record_get "run_id" hi) (record_get "run_id" hj) = false.

(** ** Reading the comparison *)

(** The text of the timestamp a record is ranked by. *)
Definition timestamp_text (h : dict scalar) : string :=
  match timestamp_key h with
  | SStr s => s
  | _ => ""
  end.

(** What [compare_prompt_versions] prints once the two records to compare
    are chosen: the five header lines, the table lines, the closing rule. *)
Definition comparison_of (v1 v2 : string) (latest_v1 latest_v2 : dict scalar)
  : list line * result unit :=
  match compare_loop metrics_to_compare latest_v1 latest_v2
          [Rule 60; Title v1 v2; Rule 60; ColumnHeads v1 v2; Rule 70] with
  | (out, Ok _) => (out ++ [Rule 60], Ok tt)
  | (out, Raise e) => (out, Raise e)
  end.

(** The documents [calculate_metrics] can return. *)
Definition calculated (doc : MetricsDocument) : Prop :=
  exists (py_float : string -> option Q) (ENTITY_TYPES : list string)
         (now : string) (results : list row),
    calculate_metrics py_float ENTITY_TYPES now results = Ok doc.

(** ** Finding the file to analyse *)

(** The export directory as [find_latest_csv] sees it: the paths that
    [glob("*.csv")] yields, in its order, each with the modification time
    that [stat] reports for it. *)
Definition find_latest_csv (csv_files : list (string * Q))
  : result (option string) :=
  match csv_files with
  | [] => Ok None
  | _ => let* f := py_max (fun f : string * Q => SFloat f.2) csv_files in
         Ok (Some f.1)
  end.

(** ** The console report *)

(** The lines [print_metrics_report] prints.  A line keeps the values that
    are handed to its format; banners, headings and column heads keep their
    text (without the pictograms). *)
Inductive report_line : Type :=
| Banner (width : nat)
| Caption (text : string)
| Dashes (width : nat)
| RunIdLine (run : string)
| ShownLine (label : string) (v : scalar)
| PercentLine (label : string) (x : Q)
| FixedLine (label : string) (digits : nat) (x : Q)
| ClassLine (entity_type : string) (p r f : Q) (sup : nat)
| MacroF1Line (x : Q)
| MatrixHeadLine (types : list string)
| MatrixRowLine (label : string) (counts : list nat)
| BinLine (bin_key : string) (n : nat) (acc : Q).

(** [print] calls in sequence, the argument of each being evaluated when its
    turn comes: the lines printed, and how the sequence ended. *)
Fixpoint run_prints {L : Type} (items : list (result L)) (out : list L)
  : list L * result unit :=
  match items with
  | [] => (out, Ok tt)
  | Ok l :: rest => run_prints rest (out ++ [l])
  | Raise e :: _ => (out, Raise e)
  end.

(** [k in d] *)
Definition dict_has {V : Type} (k : string) (d : dict V) : bool :=
  match dict_get k d with
  | Some _ => true
  | None => false
  end.

(** [m = entity_metrics.get(entity_type, {})] read through [m.get(_, 0)]. *)
Definition class_or_zero (entity_metrics : dict class_metrics)
    (entity_type : string) : class_metrics :=
  default (ClassMetrics 0 0 0 0 0) (dict_get entity_type entity_metrics).

(** The loop over the configured classes: the two accumulators and the
    lines printed. *)
Fixpoint class_loop (entity_metrics : dict class_metrics)
    (types : list string) (macro_f1 : Q) (classes_with_support : nat)
    (out : list report_line) : Q * nat * list report_line :=
  match types with
  | [] => (macro_f1, classes_with_support, out)
  | entity_type :: rest =>
      let m := class_or_zero entity_metrics entity_type in
      let out' :=
        out ++ [ClassLine entity_type (precision m) (recall m) (f1 m) (support m)] in
      if Nat.ltb 0 (support m)
      then class_loop entity_metrics rest (macro_f1 + f1 m)%Q
                      (S classes_with_support) out'
      else class_loop entity_metrics rest macro_f1 classes_with_support out'
  end.

(** [f"{metrics.get(key, default)}"] *)
Definition shown (label key : string) (default_ : scalar)
    (metrics : MetricsDocument) : result report_line :=
  Ok (ShownLine label (default default_ (dict_get key (fields metrics)))).

(** [f"{metrics.get(key, 0) * 100:.1f}%"] *)
Definition percent (label key : string) (metrics : MetricsDocument)
  : result report_line :=
  let* x := as_number (metric_value key (fields metrics)) in
  Ok (PercentLine label (x * 100)%Q).

(** [f"{metrics.get(key, 0):.<digits>f}"] *)
Definition fixed (label key : string) (digits : nat)
    (metrics : MetricsDocument) : result report_line :=
  let* x := as_number (metric_value key (fields metrics)) in
  Ok (FixedLine label digits x).

Section Report.

Variable ENTITY_TYPES : list string.

(** The configured types that are a key of the matrix or of one of its
    rows. *)
Definition types_present (confusion : dict (dict nat)) : list string :=
  List.filter
    (fun t => dict_has t confusion
              || existsb (fun kv : string * dict nat => dict_has t kv.2) confusion)
    ENTITY_TYPES.

Definition matrix_lines (confusion : dict (dict nat)) : list report_line :=
  match confusion with
  | [] => []
  | _ =>
      match types_present confusion with
      | [] => []
      | present =>
          MatrixHeadLine (map (String.substring 0 6) present)
          :: map (fun actual =>
                    MatrixRowLine actual
                      (map (fun pred => confusion_lookup confusion actual pred)
                           present))
                 present
      end
  end.

Definition bin_lines (confidence_bins : dict bin) : list report_line :=
  match confidence_bins with
  | [] => []
  | _ =>
      [Caption "Confidence vs Accuracy:"; Caption "Bin Count Accuracy";
       Dashes 32]
      ++ map (fun bin_key =>
                let bin_data := default (Bin 0 0) (dict_get bin_key confidence_bins) in
                let acc :=
                  if Nat.ltb 0 (count bin_data)
                  then (Qnat (correct bin_data) / Qnat (count bin_data) * 100)%Q
                  else 0%Q in
                BinLine bin_key (count bin_data) acc)
             ["0.0-0.5"; "0.5-0.7"; "0.7-0.9"; "0.9-1.0"]
  end.

(** The arguments of the [print] calls of the report, in their order. *)
Definition report_items (metrics : MetricsDocument)
  : list (result report_line) :=
  let entity_metrics := default [] (entity_type_metrics metrics) in
  let '(macro_f1, classes_with_support, class_lines) :=
    class_loop entity_metrics ENTITY_TYPES 0 0 [] in
  [Ok (Banner 80); Ok (Caption "LLM EVALUATION REPORT"); Ok (Banner 80);
   Ok (Caption "RUN INFORMATION"); Ok (Dashes 40);
   (let* run :=
      py_prefix8 (default (SStr "N/A") (dict_get "run_id" (fields metrics))) in
    Ok (RunIdLine run));
   shown "Timestamp" "timestamp" (SStr "N/A") metrics;
   shown "Prompt Version" "prompt_version" (SStr "N/A") metrics;
   Ok (Caption "TEST SUMMARY"); Ok (Dashes 40);
   shown "Total Tests" "total_tests" (SInt 0) metrics;
   shown "Completed" "completed_tests" (SInt 0) metrics;
   shown "Skipped" "skipped_tests" (SInt 0) metrics;
   shown "Errors" "error_tests" (SInt 0) metrics;
   percent "Completion" "completion_rate" metrics;
   Ok (Caption "ENTITY TYPE CLASSIFICATION"); Ok (Dashes 40);
   percent "Overall Accuracy" "entity_type_accuracy" metrics;
   Ok (Caption "Per-Class Metrics:");
   Ok (Caption "Type Precision Recall F1 Support"); Ok (Dashes 58)]
  ++ map Ok class_lines
  ++ (if Nat.ltb 0 classes_with_support
      then [Ok (MacroF1Line (macro_f1 / Qnat classes_with_support))]
      else [])
  ++ [Ok (Caption "Confusion Matrix:")]
  ++ map Ok (matrix_lines (default [] (confusion_matrix metrics)))
  ++ [Ok (Caption "FIELD EXTRACTION ACCURACY"); Ok (Dashes 40);
      percent "Title Keyword Overlap" "title_keyword_overlap_avg" metrics;
      percent "Start Time Presence" "start_time_presence_accuracy" metrics;
      percent "Start Hour Accuracy" "start_hour_accuracy" metrics]
  ++ (match metrics_get metrics "avg_hour_error" with
      | SNone => []
      | v => [let* x := as_number v in Ok (FixedLine "Avg Hour Error" 1 x)]
      end)
  ++ [percent "End Time Presence" "end_time_presence_accuracy" metrics;
      percent "Recurrence Presence" "recurrence_presence_accuracy" metrics;
      percent "Time Preference Presence" "time_preference_presence_accuracy"
        metrics;
      Ok (Caption "CONFIDENCE CALIBRATION"); Ok (Dashes 40);
      fixed "Average Confidence" "avg_confidence" 2 metrics;
      percent "Calibration Rate" "confidence_calibration_rate" metrics;
      fixed "Expected Calibration Err" "expected_calibration_error" 3 metrics]
  ++ map Ok (bin_lines (default [] (confidence_bins metrics)))
  ++ [Ok (Caption "LATENCY"); Ok (Dashes 40);
      fixed "Average" "avg_latency_ms" 0 metrics;
      fixed "P50" "p50_latency_ms" 0 metrics;
      fixed "P95" "p95_latency_ms" 0 metrics;
      fixed "P99" "p99_latency_ms" 0 metrics;
      Ok (Banner 80)].

(** Returns the printed lines and how the call ended. *)
Definition print_metrics_report (metrics : MetricsDocument)
  : list report_line * result unit :=
  run_prints (report_items metrics) [].

End Report.

(** ** Reading the report *)

(** The configured type of a per-class line, the macro F1 line and the
    lines of the confusion matrix among the printed lines. *)
Definition class_line_type (l : report_line) : option string :=
  match l with
  | ClassLine t _ _ _ _ => Some t
  | _ => None
  end.




(** The lines that are not part of one of the tables. *)
Definition plain_line (l : report_line) : bool :=
  match l with
  | ClassLine _ _ _ _ _ | MacroF1Line _ | MatrixHeadLine _
  | MatrixRowLine _ _ | BinLine _ _ _ => false
  | _ => true
  end.

(** The per-class lines and the macro F1 line of a report. *)
Definition class_lines_of (ENTITY_TYPES : list string)
    (entity_metrics : dict class_metrics) : list report_line :=
  map (fun t =>
         let m := class_or_zero entity_metrics t in
         ClassLine t (precision m) (recall m) (f1 m) (support m))
      ENTITY_TYPES.

Definition supported_types (ENTITY_TYPES : list string)
    (entity_metrics : dict class_metrics) : list string :=
  List.filter (fun t => Nat.ltb 0 (support (class_or_zero entity_metrics t)))
              ENTITY_TYPES.

Definition macro_f1_of (ENTITY_TYPES : list string)
    (entity_metrics : dict class_metrics) : Q :=
  let supported := supported_types ENTITY_TYPES entity_metrics in
  (py_sum (map (fun t => f1 (class_or_zero entity_metrics t)) supported)
   / Qnat (length supported))%Q.

(** The keys whose value the report hands to a number format. *)
Definition formatted_keys : list string :=
  ["completion_rate"; "entity_type_accuracy"; "title_keyword_overlap_avg";
   "start_time_presence_accuracy"; "start_hour_accuracy";
   "end_time_presence_accuracy"; "recurrence_presence_accuracy";
   "time_preference_presence_accuracy"; "avg_confidence";
   "confidence_calibration_rate"; "expected_calibration_error";
   "avg_latency_ms"; "p50_latency_ms"; "p95_latency_ms"; "p99_latency_ms"].

(** The documents the report can print: the run_id is a string or absent,
    every formatted value is a number or absent, and the average hour error
    is a number, null or absent. *)
Definition printable (metrics : MetricsDocument) : Prop :=
  (exists s,
     default (SStr "N/A") (dict_get "run_id" (fields metrics)) = SStr s) /\
  (forall k, k ∈ formatted_keys ->
     exists x, as_number (metric_value k (fields metrics)) = Ok x) /\
  (metrics_get metrics "avg_hour_error" = SNone \/
   exists x, as_number (metrics_get metrics "avg_hour_error") = Ok x).

(** ** The command line *)

(** [v[:n]]: only a string can be sliced. *)
Definition py_prefix (n : nat) (v : scalar) : result string :=
  match v with
  | SStr s => Ok (String.substring 0 n s)
  | _ => Raise TypeError
  end.

(** [f"{v:<8}"]: [None] has no such format. *)
Definition py_pad (v : scalar) : result scalar :=
  match v with
  | SNone => Raise TypeError
  | _ => Ok v
  end.

(** [sorted(xs, key=key, reverse=True)]: the items by descending key, items
    with equal keys in their former order.  Comparing a string with a
    number, or anything with [None], raises [TypeError]; a sort of two or
    more items compares every item with another one, and compares items of
    two kinds whenever both are there. *)
Fixpoint insert_desc {A : Type} (key : A -> scalar) (x : A) (l : list A)
  : result (list A) :=
  match l with
  | [] => Ok [x]
  | y :: l' =>
      let* gt := py_gt (key y) (key x) in
      if gt then let* l'' := insert_desc key x l' in Ok (y :: l'')
      else Ok (x :: y :: l')
  end.

Fixpoint py_sorted_desc {A : Type} (key : A -> scalar) (xs : list A)
  : result (list A) :=
  match xs with
  | [] => Ok []
  | x :: xs' =>
      let* l := py_sorted_desc key xs' in
      insert_desc key x l
  end.

Record arguments : Type := {
  arg_file : option string;
  arg_history : bool;
  arg_compare : option (string * string);
  arg_no_plots : bool;
  arg_no_history_add : bool
}.

(** What [main] prints and calls, in order.  The two plotting functions are
    opaque here: a call is one event, standing for what the function
    prints. *)
Inductive event : Type :=
| Compared (l : line)
| NoHistoricalData
| HistoricalRuns (n : nat)
| HistoryRow (timestamp : string) (prompt_version : scalar) (accuracy : Q)
| PlotHistoryCalled
| NoCsvFound
| Analyzing (csv_path : string)
| Reported (l : report_line)
| PlotMetricsCalled
| Recorded (r : report)
| MetricsSaved (csv_path : string).

(** The result of a run of [main]: the events, the history file and the
    [.metrics.json] file written beside the CSV file (if any) afterwards,
    and how the run ended. *)
Record outcome : Type := {
  printed : list event;
  history_after : option (list (dict scalar));
  metrics_json : option (string * MetricsDocument);
  ended : result unit
}.

(** One line of the [--history] listing. *)
Definition history_row (h : dict scalar) : result event :=
  let* timestamp :=
    py_prefix 19 (default (SStr "N/A") (dict_get "timestamp" h)) in
  let* prompt_version :=
    py_pad (default (SStr "N/A") (dict_get "prompt_version" h)) in
  let* accuracy := as_number (metric_value "entity_type_accuracy" h) in
  Ok (HistoryRow timestamp prompt_version (accuracy * 100)%Q).

Definition history_listing (history : list (dict scalar))
  : list event * result unit :=
  match py_sorted_desc timestamp_key history with
  | Raise e => ([], Raise e)
  | Ok newest_first => run_prints (map history_row (take 10 newest_first)) []
  end.

(** [{k: v for k, v in metrics.items() if k != "latencies"}] *)
Definition without_latencies (metrics : MetricsDocument) : MetricsDocument :=
  {| fields := fields metrics;
     entity_type_metrics := entity_type_metrics metrics;
     confusion_matrix := confusion_matrix metrics;
     confidence_bins := confidence_bins metrics;
     latencies := None |}.

Section Main.

Variable py_float : string -> option Q.
Variable ENTITY_TYPES : list string.

(** The plotting functions, known by how a call ends only. *)
Variable plot_metrics : MetricsDocument -> result unit.
Variable plot_history : list (dict scalar) -> result unit.

(** The analysis of the CSV file at [csv_path], which holds [results]. *)
Definition analyze (args : arguments) (now : string)
    (file : option (list (dict scalar))) (csv_path : string)
    (results : list row) : outcome :=
  let out1 := [Analyzing csv_path] in
  match calculate_metrics py_float ENTITY_TYPES now results with
  | Raise e =>
      {| printed := out1; history_after := file; metrics_json := None;
         ended := Raise e |}
  | Ok metrics =>
  let '(lines, reported) := print_metrics_report ENTITY_TYPES metrics in
  let out2 := out1 ++ map Reported lines in
  match reported with
  | Raise e =>
      {| printed := out2; history_after := file; metrics_json := None;
         ended := Raise e |}
  | Ok _ =>
  let '(out3, plotted) :=
    if arg_no_plots args then (out2, Ok tt)
    else (out2 ++ [PlotMetricsCalled], plot_metrics metrics) in
  match plotted with
  | Raise e =>
      {| printed := out3; history_after := file; metrics_json := None;
         ended := Raise e |}
  | Ok _ =>
  let '(file', out4, recorded) :=
    if arg_no_history_add args then (file, out3, Ok tt)
    else
      match add_to_history metrics file with
      | (file', Ok r) => (file', out3 ++ [Recorded r], Ok tt)
      | (file', Raise e) => (file', out3, Raise e)
      end in
  match recorded with
  | Raise e =>
      {| printed := out4; history_after := file'; metrics_json := None;
         ended := Raise e |}
  | Ok _ =>
      {| printed := out4 ++ [MetricsSaved csv_path]; history_after := file';
         metrics_json := Some (csv_path, without_latencies metrics);
         ended := Ok tt |}
  end end end end.

(** [main] for the parsed arguments [args], at the time [now], with the
    history file [file], the CSV files [csv_dir] of the export directory
    and the content [csv_at] of the CSV files by path ([None] where there
    is no file). *)
Definition main (args : arguments) (now : string)
    (file : option (list (dict scalar))) (csv_dir : list (string * Q))
    (csv_at : string -> option (list row)) : outcome :=
  match arg_compare args with
  | Some (v1, v2) =>
      let history := load_metrics_history file in
      let '(out, r) := compare_prompt_versions v1 v2 history in
      {| printed := map Compared out; history_after := file;
         metrics_json := None; ended := r |}
  | None =>
  if arg_history args then
    let history := load_metrics_history file in
    match history with
    | [] =>
        {| printed := [NoHistoricalData]; history_after := file;
           metrics_json := None; ended := Ok tt |}
    | _ =>
        let out1 := [HistoricalRuns (length history)] in
        match history_listing history with
        | (rows, Raise e) =>
            {| printed := out1 ++ rows; history_after := file;
               metrics_json := None; ended := Raise e |}
        | (rows, Ok _) =>
            if arg_no_plots args then
              {| printed := out1 ++ rows; history_after := file;
                 metrics_json := None; ended := Ok tt |}
            else
              {| printed := out1 ++ rows ++ [PlotHistoryCalled];
                 history_after := file; metrics_json := None;
                 ended := plot_history history |}
        end
    end
  else
    let csv_path :=
      match arg_file args with
      | Some f => if String.eqb f "" then find_latest_csv csv_dir
                  else Ok (Some f)
      | None => find_latest_csv csv_dir
      end in
    match csv_path with
    | Raise e =>
        {| printed := []; history_after := file; metrics_json := None;
           ended := Raise e |}
    | Ok None =>
        {| printed := [NoCsvFound]; history_after := file;
           metrics_json := None; ended := Ok tt |}
    | Ok (Some p) =>
        match csv_at p with
        | None =>
            {| printed := [NoCsvFound]; history_after := file;
               metrics_json := None; ended := Ok tt |}
        | Some results => analyze args now file p results
        end
    end
  end.

End Main.

(** ** Reading the history listing *)

(** The records the listing can show: the timestamp is a string or absent,
    the prompt version is not null, the accuracy is a number or absent. *)
Definition listable (h : dict scalar) : Prop :=
  (dict_get "timestamp" h = None \/
   exists s, dict_get "timestamp" h = Some (SStr s)) /\
  dict_get "prompt_version" h <> Some SNone /\
  (exists x, as_number (metric_value "entity_type_accuracy" h) = Ok x).

(** The line of the listing for the record [h]. *)
Definition listed (h : dict scalar) (ev : event) : Prop :=
  exists x,
    as_number (metric_value "entity_type_accuracy" h) = Ok x /\
    ev = HistoryRow
           (String.substring 0 19
              match dict_get "timestamp" h with
              | Some (SStr s) => s
              | _ => "N/A"
              end)
           (default (SStr "N/A") (dict_get "prompt_version" h))
           (x * 100)%Q.

(** Newest first: no record has a timestamp below that of a later one. *)
Definition newest_first (l : list (dict scalar)) : Prop :=
  StronglySorted
    (fun a b => String.ltb (timestamp_text a) (timestamp_text b) = false) l.

(** Arguments and a directory for concrete runs: the analysis of the file
    [run.csv], which holds one skipped row, and a [--history] run. *)
Definition analysis_args : arguments :=
  {| arg_file := Some "run.csv"; arg_history := false; arg_compare := None;
     arg_no_plots := true; arg_no_history_add := false |}.

Definition history_args : arguments :=
  {| arg_file := None; arg_history := true; arg_compare := None;
     arg_no_plots := true; arg_no_history_add := false |}.

Definition skipped_only (csv_path : string) : option (list row) :=
  if String.eqb csv_path "run.csv" then Some [skipped_row] else None.

Definition plots_fine {A : Type} (_ : A) : result unit := Ok tt.

(** The keys of a history record whose values [calculate_metrics]
    computes. *)
Definition computed_keys : list string :=
  ["total_tests"; "completed_tests"; "completion_rate"; "entity_type_accuracy";
   "title_keyword_overlap_avg"; "start_time_presence_accuracy";
   "start_hour_accuracy"; "avg_confidence"; "expected_calibration_error";
   "avg_latency_ms"; "p95_latency_ms"].
(** * Properties *)

(** ** The builtins *)

Lemma Qnat_nonneg (n : nat) : (0 <= Qnat n)%Q.
Proof. unfold Qnat, Qle. simpl. lia. Qed.

Lemma Qnat_pos (n : nat) : (0 < n)%nat -> (0 < Qnat n)%Q.
Proof. intros Hn. unfold Qnat, Qlt. simpl. lia. Qed.

Lemma Qnat_le (n m : nat) : (n <= m)%nat -> (Qnat n <= Qnat m)%Q.
Proof. intros Hnm. unfold Qnat, Qle. simpl. lia. Qed.

Lemma py_div_ok (a b : Q) : ~ (b == 0)%Q -> py_div a b = Ok (a / b)%Q.
Proof.
  intros Hb. unfold py_div.
  destruct (Qeq_bool b 0) eqn:E; [|reflexivity].
  apply Qeq_bool_eq in E. contradiction.
Qed.

Lemma py_div_nat_ok (a : Q) (n : nat) :
  (0 < n)%nat -> py_div a (Qnat n) = Ok (a / Qnat n)%Q.
Proof.
  intros Hn. apply py_div_ok. intros E.
  pose proof (Qnat_pos n Hn) as Hp. rewrite E in Hp.
  exact (Qlt_irrefl 0 Hp).
Qed.

Lemma Qlt_bool_iff (a b : Q) : Qlt_bool a b = true <-> (a < b)%Q.
Proof.
  unfold Qlt_bool. rewrite negb_true_iff. split.
  - intros E. apply Qnot_le_lt. intros Hle.
    apply Qle_bool_iff in Hle. congruence.
  - intros Hlt. destruct (Qle_bool b a) eqn:E; [|reflexivity].
    apply Qle_bool_iff in E. exfalso. exact (Qlt_not_le _ _ Hlt E).
Qed.

Lemma Qlt_bool_false_iff (a b : Q) : Qlt_bool a b = false <-> (b <= a)%Q.
Proof.
  unfold Qlt_bool. rewrite negb_false_iff. apply Qle_bool_iff.
Qed.

Lemma py_index_ok {A : Type} (xs : list A) (i : nat) :
  (i < length xs)%nat -> exists x, py_index xs i = Ok x /\ xs !! i = Some x.
Proof.
  intros Hi. destruct (lookup_lt_is_Some_2 xs i Hi) as [x Hx].
  exists x. unfold py_index. rewrite Hx. auto.
Qed.

(** [sorted] returns an ascending rearrangement of its argument. *)

Lemma insert_sorted_length (x : Q) (l : list Q) :
  length (insert_sorted x l) = S (length l).
Proof.
  induction l as [|y l IH]; simpl; [reflexivity|].
  destruct (Qle_bool x y); simpl; [reflexivity|]. now rewrite IH.
Qed.

Lemma sorted_length (l : list Q) : length (sorted l) = length l.
Proof.
  induction l as [|x l IH]; simpl; [reflexivity|].
  now rewrite insert_sorted_length, IH.
Qed.







(** The indices of the three percentiles. *)

Lemma int_of_scaled_frac (n : nat) (a b : positive) :
  int_of_scaled n (Zpos a # b) = (n * Pos.to_nat a / Pos.to_nat b)%nat.
Proof.
  unfold int_of_scaled, Qfloor. simpl.
  rewrite Pos.mul_1_l.
  apply Nat2Z.inj. rewrite Z2Nat.id.
  - rewrite Nat2Z.inj_div, Nat2Z.inj_mul, !positive_nat_Z. reflexivity.
  - apply Z.div_pos; lia.
Qed.

Lemma p95_index_eq (n : nat) : p95_index n = Nat.min (n * 19 / 20) (n - 1).
Proof.
  unfold p95_index. f_equal.
  change 0.95%Q with (95 # 100)%Q. rewrite int_of_scaled_frac.
  change (Pos.to_nat 95) with 95%nat. change (Pos.to_nat 100) with (20 * 5)%nat.
  replace (n * 95)%nat with (n * 19 * 5)%nat by lia.
  apply Nat.Div0.div_mul_cancel_r. lia.
Qed.

Lemma p99_index_eq (n : nat) : p99_index n = Nat.min (n * 99 / 100) (n - 1).
Proof.
  unfold p99_index. f_equal.
  change 0.99%Q with (99 # 100)%Q. now rewrite int_of_scaled_frac.
Qed.

Lemma percentile_indices_ordered (n : nat) :
  (0 < n)%nat ->
  (p50_index n <= p95_index n <= p99_index n)%nat /\ (p99_index n < n)%nat.
Proof.
  intros Hn. rewrite p95_index_eq, p99_index_eq. unfold p50_index.
  assert (n / 2 <= n * 19 / 20)%nat as H1.
  { apply Nat.div_le_lower_bound; [lia|].
    pose proof (Nat.Div0.mul_div_le n 2). lia. }
  assert (n / 2 <= n - 1)%nat as H2.
  { assert (n / 2 < n)%nat by (apply Nat.div_lt; lia). lia. }
  assert (n * 19 / 20 <= n * 99 / 100)%nat as H3.
  { apply Nat.div_le_lower_bound; [lia|].
    pose proof (Nat.Div0.mul_div_le (n * 19) 20). lia. }
  lia.
Qed.

(** ** Dictionaries *)

Lemma dict_get_set_eq {V : Type} (k : string) (v : V) (d : dict V) :
  dict_get k (dict_set k v d) = Some v.
Proof.
  induction d as [|[k' v'] d IH]; simpl.
  - now rewrite String.eqb_refl.
  - destruct (String.eqb k' k) eqn:E; simpl; rewrite E; auto.
Qed.

Lemma dict_get_set_ne {V : Type} (k k0 : string) (v : V) (d : dict V) :
  k <> k0 -> dict_get k0 (dict_set k v d) = dict_get k0 d.
Proof.
  intros Hne. induction d as [|[k' v'] d IH]; simpl.
  - destruct (String.eqb k k0) eqn:E; [|reflexivity].
    apply String.eqb_eq in E. contradiction.
  - destruct (String.eqb k' k) eqn:E; simpl.
    + apply String.eqb_eq in E. subst k'.
      destruct (String.eqb k k0) eqn:E0; [|reflexivity].
      apply String.eqb_eq in E0. contradiction.
    + destruct (String.eqb k' k0); auto.
Qed.

(** ** The calculator *)

Ltac bind_ok H :=
  match type of H with
  | rbind ?m ?k = ?r =>
      let a := fresh "a" in
      let E := fresh "E" in
      destruct m as [a|] eqn:E;
      [ change (k a = r) in H; cbv beta in H
      | cbn [rbind] in H; discriminate H ]
  end.

(** *** Per-class metrics *)

Lemma class_entry_ok (completed : list row) (entity_type : string) :
  let predicted :=
    filter (lower_is "actual_entity_type" entity_type) completed in
  let actual :=
    filter (lower_is "expected_entity_type" entity_type) completed in
  let true_positives :=
    filter (lower_is "entity_type_correct" "true") predicted in
  exists m,
    class_entry completed entity_type = Ok m /\
    support m = length actual /\
    predicted_count m = length predicted /\
    precision m =
      match predicted with
      | [] => 0%Q
      | _ => (Qnat (length true_positives) / Qnat (length predicted))%Q
      end /\
    recall m =
      match actual with
      | [] => 0%Q
      | _ => (Qnat (length true_positives) / Qnat (length actual))%Q
      end /\
    f1 m =
      if Qlt_bool 0 (precision m + recall m)
      then (2 * (precision m * recall m) / (precision m + recall m))%Q
      else 0%Q.
Proof.
  intros predicted actual true_positives. unfold class_entry.
  fold predicted actual. fold true_positives.
  set (p := match predicted with
            | [] => Ok 0%Q
            | _ => py_div (Qnat (length true_positives)) (Qnat (length predicted))
            end).
  set (r := match actual with
            | [] => Ok 0%Q
            | _ => py_div (Qnat (length true_positives)) (Qnat (length actual))
            end).
  assert (p = Ok match predicted with
                 | [] => 0%Q
                 | _ => (Qnat (length true_positives) / Qnat (length predicted))%Q
                 end) as Hp.
  { subst p. destruct predicted as [|x xs]; [reflexivity|].
    apply py_div_nat_ok. simpl. lia. }
  assert (r = Ok match actual with
                 | [] => 0%Q
                 | _ => (Qnat (length true_positives) / Qnat (length actual))%Q
                 end) as Hr.
  { subst r. destruct actual as [|x xs]; [reflexivity|].
    apply py_div_nat_ok. simpl. lia. }
  rewrite Hp, Hr. cbn [rbind].
  match goal with
  | |- context [Qlt_bool 0 (?a + ?b)] => set (pv := a); set (rv := b)
  end.
  destruct (Qlt_bool 0 (pv + rv)) eqn:E.
  - rewrite py_div_ok.
    + cbn [rbind]. eexists. split; [reflexivity|]. simpl.
      fold pv rv. rewrite E. auto.
    + apply Qlt_bool_iff in E. intros Z. rewrite Z in E.
      exact (Qlt_irrefl 0 E).
  - cbn [rbind]. eexists. split; [reflexivity|]. simpl.
    fold pv rv. rewrite E. auto.
Qed.

Lemma entity_metrics_loop_ok (completed : list row) (types : list string)
    (acc : dict class_metrics) :
  exists em,
    entity_metrics_loop completed types acc = Ok em /\
    (forall label, In label types ->
       exists m, dict_get label em = Some m /\
                 class_entry completed label = Ok m) /\
    (forall label, ~ In label types -> dict_get label em = dict_get label acc).
Proof.
  revert acc. induction types as [|t types IH]; intros acc; simpl.
  - exists acc. split; [reflexivity|]. split; [tauto|auto].
  - destruct (class_entry_ok completed t) as (m & Hm & _).
    rewrite Hm. cbn [rbind].
    destruct (IH (dict_set t m acc)) as (em & Hem & Hin & Hout).
    exists em. split; [exact Hem|]. split.
    + intros label [<-|Hl].
      * destruct (in_dec String.string_dec t types) as [Ht|Ht].
        -- apply Hin, Ht.
        -- exists m. split; [|exact Hm].
           rewrite (Hout t Ht). apply dict_get_set_eq.
      * apply Hin, Hl.
    + intros label Hl. rewrite Hout by tauto.
      apply dict_get_set_ne. tauto.
Qed.

Ltac split_count b :=
  let E := fresh "E" in
  destruct (Nat.ltb 0 (count b)) eqn:E;
  [ apply Nat.ltb_lt in E;
    rewrite (py_div_nat_ok _ (count b)) by exact E
  | apply Nat.ltb_ge in E ].

Section CalculatorFacts.

Variable py_float : string -> option Q.
Variable ENTITY_TYPES : list string.

#[local] Abbreviation calculate_metrics := (calculate_metrics py_float ENTITY_TYPES).
#[local] Abbreviation bins_loop := (bins_loop py_float).
#[local] Abbreviation bins_add := (bins_add py_float).
#[local] Abbreviation latencies_of := (latencies_of py_float).
#[local] Abbreviation parse_float := (parse_float py_float).
#[local] Abbreviation conf_of := (conf_of py_float).
#[local] Abbreviation in_bin := (in_bin py_float).
#[local] Abbreviation in_bin_correct := (in_bin_correct py_float).
#[local] Abbreviation bin_after := (bin_after py_float).

(** *** Confidence bins *)

Lemma bin_key_of_cases (conf : Q) :
  ((conf < 0.5)%Q /\ bin_key_of conf = "0.0-0.5") \/
  ((0.5 <= conf)%Q /\ (conf < 0.7)%Q /\ bin_key_of conf = "0.5-0.7") \/
  ((0.7 <= conf)%Q /\ (conf < 0.9)%Q /\ bin_key_of conf = "0.7-0.9") \/
  ((0.9 <= conf)%Q /\ bin_key_of conf = "0.9-1.0").
Proof.
  unfold bin_key_of.
  destruct (Qlt_bool conf 0.5) eqn:E1.
  { left. split; [now apply Qlt_bool_iff|reflexivity]. }
  apply Qlt_bool_false_iff in E1.
  destruct (Qlt_bool conf 0.7) eqn:E2.
  { right; left. repeat split; [exact E1|now apply Qlt_bool_iff]. }
  apply Qlt_bool_false_iff in E2.
  destruct (Qlt_bool conf 0.9) eqn:E3.
  { right; right; left. repeat split; [exact E2|now apply Qlt_bool_iff]. }
  apply Qlt_bool_false_iff in E3.
  right; right; right. split; [exact E3|reflexivity].
Qed.

Lemma bin_after_nil (key : string) (b : bin) : bin_after key [] b = b.
Proof.
  destruct b as [c k]. unfold bin_after. simpl.
  now rewrite !Nat.add_0_r.
Qed.

Lemma bin_after_hit (key : string) (r : row) (rest : list row) (b : bin) :
  in_bin key r ->
  bin_after key (r :: rest) b =
  bin_after key rest
    (bin_hit (parse_bool (default "" (r !! "entity_type_correct"))) b).
Proof.
  intros Hin. unfold bin_after, bin_hit.
  rewrite !filter_cons. rewrite decide_True by exact Hin.
  destruct (parse_bool (default "" (r !! "entity_type_correct"))) eqn:E.
  - rewrite decide_True by (split; [exact Hin|exact E]).
    simpl. f_equal; lia.
  - rewrite decide_False.
    + simpl. f_equal; lia.
    + intros [_ Hf]. unfold flag_set in Hf. congruence.
Qed.

Lemma bin_after_miss (key : string) (r : row) (rest : list row) (b : bin) :
  ~ in_bin key r -> bin_after key (r :: rest) b = bin_after key rest b.
Proof.
  intros Hin. unfold bin_after.
  rewrite !filter_cons. rewrite decide_False by exact Hin.
  rewrite decide_False by (intros [H _]; exact (Hin H)).
  reflexivity.
Qed.

Lemma bins_loop_ok (completed : list row) (b1 b2 b3 b4 : bin) :
  bins_loop completed
    [("0.0-0.5", b1); ("0.5-0.7", b2); ("0.7-0.9", b3); ("0.9-1.0", b4)] =
  Ok [("0.0-0.5", bin_after "0.0-0.5" completed b1);
      ("0.5-0.7", bin_after "0.5-0.7" completed b2);
      ("0.7-0.9", bin_after "0.7-0.9" completed b3);
      ("0.9-1.0", bin_after "0.9-1.0" completed b4)].
Proof.
  revert b1 b2 b3 b4.
  induction completed as [|r rest IH]; intros b1 b2 b3 b4.
  - simpl. now rewrite !bin_after_nil.
  - cbn [bins_loop]. unfold bins_add.
    fold (conf_of r).
    destruct (bin_key_of_cases (conf_of r))
      as [[_ E]|[(_ & _ & E)|[(_ & _ & E)|[_ E]]]];
      rewrite E; simpl; rewrite IH;
      repeat match goal with
        | |- context [bin_after ?k (r :: rest) ?b] =>
            first
              [ rewrite (bin_after_hit k r rest b) by exact E
              | rewrite (bin_after_miss k r rest b)
                  by (unfold in_bin; rewrite E; discriminate) ]
        end;
      reflexivity.
Qed.

(** *** Calibration error *)

Lemma ece_loop_ok (n : nat) (b1 b2 b3 b4 : bin) :
  (0 < n)%nat ->
  ece_loop
    [("0.0-0.5", b1); ("0.5-0.7", b2); ("0.7-0.9", b3); ("0.9-1.0", b4)] n 0 =
  Ok (weighted_calibration_gaps [b1; b2; b3; b4] n).
Proof.
  intros Hn. unfold weighted_calibration_gaps, bin_midpoints.
  cbn [zip_with]. rewrite !filter_cons, filter_nil. cbn [ece_loop fst].
  split_count b1; split_count b2; split_count b3; split_count b4;
  repeat rewrite (py_div_nat_ok _ n) by exact Hn;
  cbn [rbind];
  repeat first
    [ rewrite decide_True by assumption
    | rewrite decide_False by lia ];
  reflexivity.
Qed.

(** *** The document of a run with completed rows *)

Lemma completed_le_total (results : list row) :
  (length (completed_rows results) <= length results)%nat.
Proof. unfold completed_rows. apply length_filter. Qed.

Lemma calculate_metrics_completed (now : string) (results : list row) :
  let completed := completed_rows results in
  let n := length completed in
  let lats := latencies_of completed in
  let first_result : row := default ∅ (head results) in
  completed <> [] ->
  exists em p50 p95 p99 hour,
    entity_metrics_loop completed ENTITY_TYPES [] = Ok em /\
    sorted lats !! p50_index n = Some p50 /\
    sorted lats !! p95_index n = Some p95 /\
    sorted lats !! p99_index n = Some p99 /\
    calculate_metrics now results =
    Ok {| fields :=
            [("run_id", SStr (default "unknown" (first_result !! "run_id")));
             ("timestamp", SStr (default now (first_result !! "timestamp")));
             ("prompt_version",
                SStr (default "unknown" (first_result !! "prompt_version")));
             ("total_tests", SInt (Z.of_nat (length results)));
             ("completed_tests", SInt (Z.of_nat n));
             ("skipped_tests",
                SInt (Z.of_nat (length (filter (has_status "SKIPPED") results))));
             ("error_tests",
                SInt (Z.of_nat (length (filter (has_status "ERROR") results))));
             ("completion_rate", SFloat (Qnat n / Qnat (length results)));
             ("entity_type_accuracy",
                SFloat (Qnat (length (filter (lower_is "entity_type_correct" "true")
                                             completed)) / Qnat n));
             ("title_keyword_overlap_avg",
                SFloat (py_sum (map (fun r : row =>
                                       parse_float
                                         (default "0" (r !! "title_keyword_overlap")) 0)
                                    completed) / Qnat n));
             ("start_time_presence_accuracy",
                SFloat (Qnat (flag_count "start_time_presence_correct" completed)
                        / Qnat n));
             ("start_hour_accuracy",
                SFloat (Qnat (flag_count "start_hour_correct" completed) / Qnat n));
             ("avg_hour_error", hour);
             ("end_time_presence_accuracy",
                SFloat (Qnat (flag_count "end_time_presence_correct" completed)
                        / Qnat n));
             ("recurrence_presence_accuracy",
                SFloat (Qnat (flag_count "recurrence_presence_correct" completed)
                        / Qnat n));
             ("time_preference_presence_accuracy",
                SFloat (Qnat (flag_count "time_preference_presence_correct"
                                         completed) / Qnat n));
             ("avg_confidence",
                SFloat (py_sum (map (fun r : row =>
                                       parse_float (default "0" (r !! "confidence")) 0)
                                    completed) / Qnat n));
             ("confidence_calibration_rate",
                SFloat (Qnat (flag_count "confidence_calibrated" completed)
                        / Qnat n));
             ("expected_calibration_error",
                SFloat (weighted_calibration_gaps
                          [bin_after "0.0-0.5" completed (Bin 0 0);
                           bin_after "0.5-0.7" completed (Bin 0 0);
                           bin_after "0.7-0.9" completed (Bin 0 0);
                           bin_after "0.9-1.0" completed (Bin 0 0)] n));
             ("avg_latency_ms", SFloat (py_sum lats / Qnat n));
             ("p50_latency_ms", SFloat p50);
             ("p95_latency_ms", SFloat p95);
             ("p99_latency_ms", SFloat p99)];
          entity_type_metrics := Some em;
          confusion_matrix := Some (confusion_of completed);
          confidence_bins :=
            Some [("0.0-0.5", bin_after "0.0-0.5" completed (Bin 0 0));
                  ("0.5-0.7", bin_after "0.5-0.7" completed (Bin 0 0));
                  ("0.7-0.9", bin_after "0.7-0.9" completed (Bin 0 0));
                  ("0.9-1.0", bin_after "0.9-1.0" completed (Bin 0 0))];
          latencies := Some lats |}.
Proof.
  intros completed n lats first_result Hne.
  assert (0 < n)%nat as Hn.
  { subst n. destruct completed; [contradiction|simpl; lia]. }
  assert (0 < length results)%nat as Ht.
  { pose proof (completed_le_total results). subst n completed. lia. }
  destruct (entity_metrics_loop_ok completed ENTITY_TYPES []) as (em & Hem & _).
  pose proof (percentile_indices_ordered n Hn) as [[H50 H95] H99].
  assert (length (sorted lats) = n) as Hlen.
  { subst lats. unfold latencies_of. now rewrite sorted_length, length_map. }
  destruct (py_index_ok (sorted lats) (p50_index n)) as (p50 & E50 & L50); [lia|].
  destruct (py_index_ok (sorted lats) (p95_index n)) as (p95 & E95 & L95); [lia|].
  destruct (py_index_ok (sorted lats) (p99_index n)) as (p99 & E99 & L99); [lia|].
  assert (exists hour,
    match hour_errors_of completed with
    | [] => Ok SNone
    | _ => let* avg := py_div (py_sum (map Qnat (hour_errors_of completed)))
                              (Qnat (length (hour_errors_of completed))) in
           Ok (SFloat avg)
    end = Ok hour) as [hour Hhour].
  { destruct (hour_errors_of completed) as [|h hs] eqn:Eh; [now exists SNone|].
    rewrite py_div_nat_ok by (simpl; lia). cbn [rbind]. eauto. }
  exists em, p50, p95, p99, hour.
  repeat (split; [assumption|]).
  unfold calculate_metrics. cbv zeta.
  fold completed. fold n. fold lats.
  destruct (Nat.eqb n 0) eqn:E0; [apply Nat.eqb_eq in E0; lia|].
  assert (length lats = n) as Hl by now rewrite <- Hlen, sorted_length.
  rewrite !length_map, !Hl. fold n.
  rewrite !(py_div_nat_ok _ n) by exact Hn. cbn [rbind].
  rewrite Hem. cbn [rbind].
  rewrite Hhour. cbn [rbind].
  unfold initial_bins. rewrite bins_loop_ok. cbn [rbind].
  rewrite ece_loop_ok by exact Hn. cbn [rbind].
  rewrite E50, E95, E99. cbn [rbind].
  assert (Nat.ltb 0 (length results) = true) as -> by now apply Nat.ltb_lt.
  rewrite py_div_nat_ok by exact Ht. cbn [rbind].
  reflexivity.
Qed.

Lemma calculate_metrics_completed_doc (now : string) (results : list row) :
  let completed := completed_rows results in
  let n := length completed in
  let lats := latencies_of completed in
  let first_result : row := default ∅ (head results) in
  completed <> [] ->
  exists doc em p50 p95 p99 hour,
    entity_metrics_loop completed ENTITY_TYPES [] = Ok em /\
    sorted lats !! p50_index n = Some p50 /\
    sorted lats !! p95_index n = Some p95 /\
    sorted lats !! p99_index n = Some p99 /\
    calculate_metrics now results = Ok doc /\
    fields doc =
            [("run_id", SStr (default "unknown" (first_result !! "run_id")));
             ("timestamp", SStr (default now (first_result !! "timestamp")));
             ("prompt_version",
                SStr (default "unknown" (first_result !! "prompt_version")));
             ("total_tests", SInt (Z.of_nat (length results)));
             ("completed_tests", SInt (Z.of_nat n));
             ("skipped_tests",
                SInt (Z.of_nat (length (filter (has_status "SKIPPED") results))));
             ("error_tests",
                SInt (Z.of_nat (length (filter (has_status "ERROR") results))));
             ("completion_rate", SFloat (Qnat n / Qnat (length results)));
             ("entity_type_accuracy",
                SFloat (Qnat (length (filter (lower_is "entity_type_correct" "true")
                                             completed)) / Qnat n));
             ("title_keyword_overlap_avg",
                SFloat (py_sum (map (fun r : row =>
                                       parse_float
                                         (default "0" (r !! "title_keyword_overlap")) 0)
                                    completed) / Qnat n));
             ("start_time_presence_accuracy",
                SFloat (Qnat (flag_count "start_time_presence_correct" completed)
                        / Qnat n));
             ("start_hour_accuracy",
                SFloat (Qnat (flag_count "start_hour_correct" completed) / Qnat n));
             ("avg_hour_error", hour);
             ("end_time_presence_accuracy",
                SFloat (Qnat (flag_count "end_time_presence_correct" completed)
                        / Qnat n));
             ("recurrence_presence_accuracy",
                SFloat (Qnat (flag_count "recurrence_presence_correct" completed)
                        / Qnat n));
             ("time_preference_presence_accuracy",
                SFloat (Qnat (flag_count "time_preference_presence_correct"
                                         completed) / Qnat n));
             ("avg_confidence",
                SFloat (py_sum (map (fun r : row =>
                                       parse_float (default "0" (r !! "confidence")) 0)
                                    completed) / Qnat n));
             ("confidence_calibration_rate",
                SFloat (Qnat (flag_count "confidence_calibrated" completed)
                        / Qnat n));
             ("expected_calibration_error",
                SFloat (weighted_calibration_gaps
                          [bin_after "0.0-0.5" completed (Bin 0 0);
                           bin_after "0.5-0.7" completed (Bin 0 0);
                           bin_after "0.7-0.9" completed (Bin 0 0);
                           bin_after "0.9-1.0" completed (Bin 0 0)] n));
             ("avg_latency_ms", SFloat (py_sum lats / Qnat n));
             ("p50_latency_ms", SFloat p50);
             ("p95_latency_ms", SFloat p95);
             ("p99_latency_ms", SFloat p99)] /\
    entity_type_metrics doc = Some em /\
    confusion_matrix doc = Some (confusion_of completed) /\
    confidence_bins doc =
            Some [("0.0-0.5", bin_after "0.0-0.5" completed (Bin 0 0));
                  ("0.5-0.7", bin_after "0.5-0.7" completed (Bin 0 0));
                  ("0.7-0.9", bin_after "0.7-0.9" completed (Bin 0 0));
                  ("0.9-1.0", bin_after "0.9-1.0" completed (Bin 0 0))] /\
    latencies doc = Some lats.
Proof.
  intros completed n lats first_result Hne.
  destruct (calculate_metrics_completed now results Hne)
    as (em & p50 & p95 & p99 & hour & Hem & L50 & L95 & L99 & Hdoc).
  eexists. exists em, p50, p95, p99, hour.
  repeat (split; [eassumption|]).
  cbn [fields entity_type_metrics confusion_matrix confidence_bins latencies].
  repeat split.
Qed.

(** [calculate_metrics] returns a document on every input: none of its
    divisions, lookups and bin updates raises. *)
Lemma calculate_metrics_total (now : string) (results : list row) :
  exists doc, calculate_metrics now results = Ok doc.
Proof.
  destruct (completed_rows results) as [|r rest] eqn:E.
  - unfold calculate_metrics. rewrite E. cbn [length Nat.eqb]. eauto.
  - assert (completed_rows results <> []) as Hne by (rewrite E; discriminate).
    destruct (calculate_metrics_completed_doc now results Hne)
      as (doc & _ & _ & _ & _ & _ & _ & _ & _ & _ & Hdoc & _).
    eauto.
Qed.

End CalculatorFacts.

(** * The claims *)

(** ** Runs without a completed row *)

(** C2.  When no row of the input has status COMPLETED, [calculate_metrics]
    returns normally (no [ZeroDivisionError], nor any other exception) the
    minimal document: its five entries are the total, the completed count 0,
    the skipped and error counts and the marker "No completed tests to
    analyze"; every other key, in particular every ratio and percentile, is
    absent, and so are the per-class table, the confusion matrix, the bins
    and the latency sample. *)
Theorem calculate_metrics_no_completed
    (py_float : string -> option Q) (ENTITY_TYPES : list string)
    (now : string) (results : list row) :
  completed_rows results = [] ->
  exists doc,
    calculate_metrics py_float ENTITY_TYPES now results = Ok doc /\
    fields doc =
      [("total_tests", SInt (Z.of_nat (length results)));
       ("completed_tests", SInt 0);
       ("skipped_tests",
          SInt (Z.of_nat (length (filter (has_status "SKIPPED") results))));
       ("error_tests",
          SInt (Z.of_nat (length (filter (has_status "ERROR") results))));
       ("error", SStr "No completed tests to analyze")] /\
    entity_type_metrics doc = None /\
    confusion_matrix doc = None /\
    confidence_bins doc = None /\
    latencies doc = None /\
    forall k,
      ~ In k ["total_tests"; "completed_tests"; "skipped_tests";
              "error_tests"; "error"] ->
      dict_get k (fields doc) = None.
Proof.
  intros Hnone. unfold calculate_metrics. rewrite Hnone. cbn [length Nat.eqb].
  eexists. split; [reflexivity|]. cbn [fields entity_type_metrics
    confusion_matrix confidence_bins latencies].
  repeat (split; [reflexivity|]).
  intros k Hk. cbn [dict_get].
  repeat match goal with
    | |- context [String.eqb ?a k] =>
        destruct (String.eqb_spec a k) as [E|_];
        [exfalso; apply Hk; rewrite <- E; simpl; tauto|]
    end.
  reflexivity.
Qed.

Lemma calculate_metrics_no_completed_witness :
  completed_rows [skipped_row; skipped_row] = [] /\
  exists doc,
    calculate_metrics decimal_float default_entity_types "2024-05-01T10:00:00"
      [skipped_row; skipped_row] = Ok doc /\
    fields doc =
      [("total_tests", SInt 2); ("completed_tests", SInt 0);
       ("skipped_tests", SInt 2); ("error_tests", SInt 0);
       ("error", SStr "No completed tests to analyze")] /\
    dict_get "entity_type_accuracy" (fields doc) = None.
Proof.
  split; [reflexivity|].
  destruct (calculate_metrics_no_completed decimal_float default_entity_types
              "2024-05-01T10:00:00" [skipped_row; skipped_row] eq_refl)
    as (doc & Hdoc & Hf & _ & _ & _ & _ & Habs).
  exists doc. split; [exact Hdoc|]. split; [exact Hf|].
  apply Habs. simpl. intros H. decompose [or] H; discriminate || assumption.
Defined.

(** ** Latency percentiles *)

(** The order of binary64 numbers, from its specification on [spec_float]. *)










(** [sorted64] on a sample without [nan]. *)





(** A sample in which no item is below its predecessor is left as it is,
    whatever it holds. *)
Lemma sorted64_no_descent (l : list float) :
  (forall i a b, l !! i = Some a -> l !! S i = Some b ->
     PrimFloat.ltb b a = false) ->
  sorted64 l = l.
Proof.
  induction l as [|x l IH]; intros H; [reflexivity|].
  cbn [sorted64]. rewrite IH by (intros i a b; apply (H (S i))).
  destruct l as [|y l]; [reflexivity|].
  cbn [insert_sorted64].
  now rewrite (H 0%nat x y eq_refl eq_refl).
Qed.






(** ** Confidence bins *)






(** ** Expected calibration error *)





#[local] Set Warnings "-inexact-float".

(** The sum of the scenario evaluated in binary64, term after term from 0.0
    as the loop does, is the double closest to 0.225 as well. *)
Remark calibration_scenario_binary64 :
  (0 + calibration_gap_binary64 0 1 4 0.25
     + calibration_gap_binary64 1 1 4 0.6
     + calibration_gap_binary64 1 1 4 0.8
     + calibration_gap_binary64 1 1 4 0.95)%float = 0.225%float.
Proof. vm_compute. reflexivity. Qed.

(** ** Per-class precision, recall and F1 *)








(** ** Determinism and run metadata *)




(** ** The history store *)

Lemma py_eqb_refl (x : scalar) : py_eqb x x = true.
Proof.
  destruct x; simpl; [reflexivity|apply Z.eqb_refl| |apply String.eqb_refl].
  apply Qeq_bool_iff. reflexivity.
Qed.

Lemma in_ids_run_ids (x : scalar) (history : list (dict scalar)) :
  in_ids x (map (record_get "run_id") history) = true <->
  exists h, h ∈ history /\ py_eqb x (record_get "run_id" h) = true.
Proof.
  unfold in_ids. rewrite existsb_exists. split.
  - intros (y & Hy & E). apply in_map_iff in Hy as (h & <- & Hh).
    exists h. split; [now apply list_elem_of_In|exact E].
  - intros (h & Hh & E). exists (record_get "run_id" h).
    split; [|exact E]. apply in_map. now apply list_elem_of_In.
Qed.

Lemma history_record_run_id (metrics : MetricsDocument) :
  record_get "run_id" (history_record_of metrics) = metrics_get metrics "run_id".
Proof. reflexivity. Qed.

Lemma add_to_history_duplicate (metrics : MetricsDocument)
    (file : option (list (dict scalar))) :
  in_ids (metrics_get metrics "run_id")
         (map (record_get "run_id") (load_metrics_history file)) = true ->
  add_to_history metrics file =
  (file, let* run := py_prefix8 (metrics_get metrics "run_id") in
         Ok (RunAlreadyInHistory run)).
Proof.
  intros Hin. unfold add_to_history. rewrite history_record_run_id, Hin.
  reflexivity.
Qed.

Lemma add_to_history_fresh (metrics : MetricsDocument)
    (file : option (list (dict scalar))) :
  in_ids (metrics_get metrics "run_id")
         (map (record_get "run_id") (load_metrics_history file)) = false ->
  add_to_history metrics file =
  (Some (load_metrics_history file ++ [history_record_of metrics]),
   let* run := py_prefix8 (metrics_get metrics "run_id") in
   Ok (AddedRun run (length (load_metrics_history file
                             ++ [history_record_of metrics])))).
Proof.
  intros Hin. unfold add_to_history. rewrite history_record_run_id, Hin.
  reflexivity.
Qed.

Lemma add_to_history_extends (metrics : MetricsDocument)
    (file : option (list (dict scalar))) :
  exists tail,
    load_metrics_history (add_to_history metrics file).1 =
    load_metrics_history file ++ tail /\
    (length tail <= 1)%nat.
Proof.
  destruct (in_ids (metrics_get metrics "run_id")
              (map (record_get "run_id") (load_metrics_history file))) eqn:E.
  - rewrite add_to_history_duplicate by exact E. exists [].
    split; [now rewrite app_nil_r|simpl; lia].
  - rewrite add_to_history_fresh by exact E. exists [history_record_of metrics].
    split; [reflexivity|simpl; lia].
Qed.

Lemma add_all_extends (docs : list MetricsDocument)
    (file : option (list (dict scalar))) :
  exists tail,
    load_metrics_history (add_all docs file) = load_metrics_history file ++ tail.
Proof.
  revert file. induction docs as [|d docs IH]; intros file.
  - exists []. now rewrite app_nil_r.
  - destruct (IH (add_to_history d file).1) as (t2 & E2).
    destruct (add_to_history_extends d file) as (t1 & E1 & _).
    exists (t1 ++ t2).
    change (add_all (d :: docs) file)
      with (add_all docs (add_to_history d file).1).
    rewrite E2, E1. now rewrite app_assoc.
Qed.



(** C10.  A document without a [run_id] entry, such as the document of a run
    with no completed row, is reduced to a record whose [run_id] is null.
    Appending it raises [TypeError] when the printed line is formatted, after
    the file has been written: the history then holds a record with a null
    [run_id], added at the tail when there was none before.  From then on,
    whatever else is appended in between, appending a document without
    [run_id] finds that record and leaves the history file unchanged. *)
Theorem add_to_history_null_run_id
    (metrics : MetricsDocument) (file : option (list (dict scalar))) :
  let history := load_metrics_history file in
  let file1 := (add_to_history metrics file).1 in
  dict_get "run_id" (fields metrics) = None ->
  record_get "run_id" (history_record_of metrics) = SNone /\
  (add_to_history metrics file).2 = Raise TypeError /\
  (exists h, h ∈ load_metrics_history file1 /\ record_get "run_id" h = SNone) /\
  ((forall h, h ∈ history -> record_get "run_id" h <> SNone) ->
   file1 = Some (history ++ [history_record_of metrics])) /\
  (forall (docs : list MetricsDocument) (metrics2 : MetricsDocument),
     dict_get "run_id" (fields metrics2) = None ->
     (add_to_history metrics2 (add_all docs file1)).1 = add_all docs file1) /\
  (forall (py_float : string -> option Q) (ENTITY_TYPES : list string)
          (now : string) (results : list row) (doc : MetricsDocument),
     completed_rows results = [] ->
     calculate_metrics py_float ENTITY_TYPES now results = Ok doc ->
     dict_get "run_id" (fields doc) = None).
Proof.
  intros history file1 Hnone.
  assert (metrics_get metrics "run_id" = SNone) as Hid
    by (unfold metrics_get; now rewrite Hnone).
  assert (forall x, py_eqb SNone x = true <-> x = SNone) as Hnull.
  { intros x. destruct x; simpl; split; intros; congruence. }
  assert (exists h, h ∈ load_metrics_history file1 /\
                    record_get "run_id" h = SNone) as Hheld.
  { subst file1.
    destruct (in_ids (metrics_get metrics "run_id")
                (map (record_get "run_id") (load_metrics_history file))) eqn:E.
    - rewrite add_to_history_duplicate by exact E. cbn [fst].
      apply in_ids_run_ids in E as (h & Hh & Eh). rewrite Hid in Eh.
      exists h. split; [exact Hh|now apply Hnull].
    - rewrite add_to_history_fresh by exact E.
      cbn [fst load_metrics_history default].
      exists (history_record_of metrics). split.
      + apply elem_of_app. right. now left.
      + now rewrite history_record_run_id. }
  split; [now rewrite history_record_run_id|].
  split.
  { destruct (in_ids (metrics_get metrics "run_id")
                (map (record_get "run_id") (load_metrics_history file))) eqn:E.
    - rewrite add_to_history_duplicate by exact E. now rewrite Hid.
    - rewrite add_to_history_fresh by exact E. now rewrite Hid. }
  split; [exact Hheld|].
  split.
  { intros Hfresh. subst file1. rewrite add_to_history_fresh; [reflexivity|].
    destruct (in_ids (metrics_get metrics "run_id")
                (map (record_get "run_id") (load_metrics_history file))) eqn:E;
      [|reflexivity].
    apply in_ids_run_ids in E as (h & Hh & Eh). rewrite Hid in Eh.
    apply Hnull in Eh. exfalso. exact (Hfresh h Hh Eh). }
  split.
  { intros docs metrics2 Hnone2.
    rewrite add_to_history_duplicate; [reflexivity|].
    apply in_ids_run_ids.
    destruct Hheld as (h & Hh & Eh).
    destruct (add_all_extends docs file1) as (tail & Et).
    exists h. split.
    - rewrite Et. apply elem_of_app. now left.
    - unfold metrics_get. rewrite Hnone2. cbn [default]. now apply Hnull. }
  intros py_float ENTITY_TYPES now results doc Hc Hdoc.
  unfold calculate_metrics in Hdoc. rewrite Hc in Hdoc.
  cbn [length Nat.eqb] in Hdoc. injection Hdoc as <-. reflexivity.
Qed.

Lemma add_to_history_null_run_id_witness :
  dict_get "run_id" (fields degenerate_metrics) = None /\
  (add_to_history degenerate_metrics (Some sample_history)).1 =
    Some (sample_history ++ [history_record_of degenerate_metrics]) /\
  (add_to_history degenerate_metrics (Some sample_history)).2 = Raise TypeError /\
  (add_to_history degenerate_metrics
     (add_to_history degenerate_metrics (Some sample_history)).1).1 =
  (add_to_history degenerate_metrics (Some sample_history)).1.
Proof.
  assert (dict_get "run_id" (fields degenerate_metrics) = None) as Hnone
    by reflexivity.
  split; [exact Hnone|].
  destruct (add_to_history_null_run_id degenerate_metrics (Some sample_history)
              Hnone) as (_ & Hraise & _ & Hfresh & Hlater & _).
  split.
  { apply Hfresh. intros h Hh.
    change (h ∈ sample_history) in Hh. unfold sample_history in Hh.
    repeat match goal with
      | H : _ ∈ _ :: _ |- _ => apply elem_of_cons in H as [->|H]
      | H : _ ∈ [] |- _ => apply elem_of_nil in H; contradiction
      end; vm_compute; discriminate. }
  split; [exact Hraise|].
  exact (Hlater [] degenerate_metrics Hnone).
Defined.

(** ** The version comparator *)

Lemma has_version_iff (v : string) (h : dict scalar) :
  has_version v h <-> record_get "prompt_version" h = SStr v.
Proof.
  unfold has_version. destruct (record_get "prompt_version" h); simpl;
    try (split; intros; congruence).
  rewrite String.eqb_eq. split; intros; congruence.
Qed.

(** C6, the claim as stated fails.  The missing version does not make the
    comparator fail: for a version without runs it prints one line and
    returns normally, with the result a completed comparison has, so that
    the caller is given no error of any kind. *)
Lemma compare_missing_version_returns_normally :
  exists out,
    filter (has_version "v3") sample_history = [] /\
    compare_prompt_versions "v3" "v1" sample_history = (out, Ok tt) /\
    out = [NoRunsFound "v3"] /\
    (compare_prompt_versions "v3" "v1" sample_history).2
    = (compare_prompt_versions "v1" "v2" sample_history).2.
Proof.
  exists [NoRunsFound "v3"]. split; [reflexivity|].
  split; [reflexivity|]. split; [reflexivity|].
  vm_compute. reflexivity.
Qed.

(** C6, amended.  When the history has no record whose [prompt_version]
    equals [v1], the comparator prints the single line "No runs found for
    prompt version: v1" and returns normally, raising nothing; when it has
    one for [v1] but none for [v2], the single line names [v2].  In both
    cases nothing else is printed: no header and no line of the comparison
    table. *)
Theorem compare_missing_version
    (v1 v2 : string) (history : list (dict scalar)) :
  (forall v h, has_version v h <-> record_get "prompt_version" h = SStr v) /\
  (filter (has_version v1) history = [] ->
   compare_prompt_versions v1 v2 history = ([NoRunsFound v1], Ok tt)) /\
  (filter (has_version v1) history <> [] ->
   filter (has_version v2) history = [] ->
   compare_prompt_versions v1 v2 history = ([NoRunsFound v2], Ok tt)) /\
  (filter (has_version v1) history = [] \/ filter (has_version v2) history = [] ->
   metric_lines (compare_prompt_versions v1 v2 history).1 = []).
Proof.
  split; [apply has_version_iff|].
  assert (filter (has_version v1) history = [] ->
          compare_prompt_versions v1 v2 history = ([NoRunsFound v1], Ok tt)) as H1.
  { intros E. unfold compare_prompt_versions. now rewrite E. }
  assert (filter (has_version v1) history <> [] ->
          filter (has_version v2) history = [] ->
          compare_prompt_versions v1 v2 history = ([NoRunsFound v2], Ok tt)) as H2.
  { intros Hne E. unfold compare_prompt_versions. rewrite E.
    destruct (filter (has_version v1) history); [contradiction|reflexivity]. }
  split; [exact H1|]. split; [exact H2|].
  intros [E|E].
  - now rewrite H1.
  - destruct (filter (has_version v1) history) as [|h hs] eqn:E1.
    + now rewrite H1.
    + rewrite H2; [reflexivity|discriminate|exact E].
Qed.

Lemma compare_missing_version_witness :
  filter (has_version "v1") sample_history <> [] /\
  filter (has_version "v3") sample_history = [] /\
  compare_prompt_versions "v1" "v3" sample_history = ([NoRunsFound "v3"], Ok tt) /\
  compare_prompt_versions "v3" "v1" sample_history = ([NoRunsFound "v3"], Ok tt).
Proof.
  assert (filter (has_version "v1") sample_history <> []) as Hne
    by (vm_compute; discriminate).
  assert (filter (has_version "v3") sample_history = []) as He by reflexivity.
  split; [exact Hne|]. split; [exact He|].
  destruct (compare_missing_version "v1" "v3" sample_history) as (_ & _ & H2 & _).
  destruct (compare_missing_version "v3" "v1" sample_history) as (_ & H1 & _).
  split; [exact (H2 Hne He)|exact (H1 He)].
Defined.

(** ** Deltas of the comparison *)

Lemma indicator_flip (higher_is_better : bool) (c c' : Q) :
  ((0 < c)%Q <-> (c' < 0)%Q) -> ((c < 0)%Q <-> (0 < c')%Q) ->
  indicator_of higher_is_better c' = flip (indicator_of higher_is_better c).
Proof.
  intros Hpos Hneg. unfold indicator_of.
  destruct (Qlt_bool 0 c) eqn:A, (Qlt_bool c 0) eqn:B,
           (Qlt_bool 0 c') eqn:C, (Qlt_bool c' 0) eqn:D;
    destruct higher_is_better; try reflexivity; exfalso;
    repeat match goal with
      | H : Qlt_bool _ _ = true |- _ => apply Qlt_bool_iff in H
      | H : Qlt_bool _ _ = false |- _ => apply Qlt_bool_false_iff in H
      end;
    destruct Hpos, Hneg;
    first [ assert (c' < 0)%Q by auto; lra
          | assert (0 < c')%Q by auto; lra
          | assert (0 < c)%Q by auto; lra
          | assert (c < 0)%Q by auto; lra ].
Qed.

Lemma compare_metric_swap (label : string) (higher_is_better : bool)
    (a b : scalar) (m12 : metric_line) :
  compare_metric label higher_is_better a b = Ok m12 ->
  exists m21 x1 x2,
    as_number a = Ok x1 /\ as_number b = Ok x2 /\
    compare_metric label higher_is_better b a = Ok m21 /\
    line_label m12 = label /\ line_label m21 = label /\
    as_percentage m12 = shown_as_percentage a /\
    as_percentage m21 = shown_as_percentage b /\
    change m12 = (if as_percentage m12 then (x2 - x1) * 100 else x2 - x1)%Q /\
    change m21 = (if as_percentage m21 then (x1 - x2) * 100 else x1 - x2)%Q /\
    indicator m12 = indicator_of higher_is_better (change m12) /\
    indicator m21 = flip (indicator m12) /\
    (as_percentage m12 = as_percentage m21 -> (change m21 == - change m12)%Q).
Proof.
  unfold compare_metric. intros H.
  destruct (as_number a) as [x1|] eqn:Ea;
    [|destruct (shown_as_percentage a); discriminate H].
  destruct (as_number b) as [x2|] eqn:Eb;
    [|destruct (shown_as_percentage a); discriminate H].
  cbn [rbind] in *.
  destruct (shown_as_percentage a) eqn:Pa; injection H as <-;
    destruct (shown_as_percentage b) eqn:Pb;
    eexists; exists x1, x2;
    (split; [reflexivity|]); (split; [reflexivity|]);
    (split; [reflexivity|]); cbn [line_label as_percentage change indicator];
    repeat (split; [reflexivity|]);
    (split; [apply indicator_flip; split; intros; lra
            |intros E; try discriminate E; ring]).
Qed.

Lemma compare_loop_rows (metrics : list (string * string * bool))
    (l1 l2 : dict scalar) (out out' : list line) :
  compare_loop metrics l1 l2 out = (out', Ok tt) <->
  exists rows,
    out' = out ++ map MetricLine rows /\
    Forall2 (fun (p : string * string * bool) m =>
               compare_metric p.1.2 p.2 (metric_value p.1.1 l1)
                              (metric_value p.1.1 l2) = Ok m)
            metrics rows.
Proof.
  revert out. induction metrics as [|[[key label] hib] rest IH]; intros out.
  - simpl. split.
    + intros E. injection E as <-. exists []. split; [now rewrite app_nil_r|].
      constructor.
    + intros (rows & -> & Hf). inversion Hf. now rewrite app_nil_r.
  - cbn [compare_loop]. split.
    + intros E.
      destruct (compare_metric label hib (metric_value key l1)
                  (metric_value key l2)) as [m|] eqn:Em; [|discriminate E].
      apply IH in E as (rows & -> & Hf). exists (m :: rows). split.
      * rewrite <- app_assoc. reflexivity.
      * constructor; [exact Em|exact Hf].
    + intros (rows & -> & Hf). inversion Hf as [|p m ps ms Hm Hrest]; subst.
      cbn [fst snd] in Hm. rewrite Hm. apply IH. exists ms. split.
      * rewrite <- app_assoc. reflexivity.
      * exact Hrest.
Qed.

Lemma metric_lines_app (out1 out2 : list line) :
  metric_lines (out1 ++ out2) = metric_lines out1 ++ metric_lines out2.
Proof. unfold metric_lines. apply omap_app. Qed.

Lemma metric_lines_rows (rows : list metric_line) :
  metric_lines (map MetricLine rows) = rows.
Proof.
  induction rows as [|m rows IH]; [reflexivity|].
  change (metric_lines (map MetricLine (m :: rows)))
    with (m :: metric_lines (map MetricLine rows)).
  now rewrite IH.
Qed.

(** What a completed comparison printed: the header, one table line per
    compared metric, computed from the latest record of each version, and
    the closing rule. *)
Lemma compare_prompt_versions_ok (v1 v2 : string) (history : list (dict scalar))
    (out : list line) :
  compare_prompt_versions v1 v2 history = (out, Ok tt) ->
  filter (has_version v1) history <> [] ->
  filter (has_version v2) history <> [] ->
  exists latest_v1 latest_v2 rows,
    py_max timestamp_key (filter (has_version v1) history) = Ok latest_v1 /\
    py_max timestamp_key (filter (has_version v2) history) = Ok latest_v2 /\
    metric_lines out = rows /\
    Forall2 (fun (p : string * string * bool) m =>
               compare_metric p.1.2 p.2 (metric_value p.1.1 latest_v1)
                              (metric_value p.1.1 latest_v2) = Ok m)
            metrics_to_compare rows.
Proof.
  intros H Hne1 Hne2. unfold compare_prompt_versions in H.
  destruct (filter (has_version v1) history) as [|h1 hs1] eqn:E1; [contradiction|].
  destruct (filter (has_version v2) history) as [|h2 hs2] eqn:E2; [contradiction|].
  destruct (py_max timestamp_key (h1 :: hs1)) as [latest_v1|] eqn:M1;
    [|discriminate H].
  destruct (py_max timestamp_key (h2 :: hs2)) as [latest_v2|] eqn:M2;
    [|discriminate H].
  destruct (compare_loop metrics_to_compare latest_v1 latest_v2
              [Rule 60; Title v1 v2; Rule 60; ColumnHeads v1 v2; Rule 70])
    as [out' [[]|e]] eqn:L; [|discriminate H].
  injection H as <-.
  apply compare_loop_rows in L as (rows & -> & Hf).
  exists latest_v1, latest_v2, rows.
  split; [reflexivity|]. split; [reflexivity|]. split; [|exact Hf].
  rewrite !metric_lines_app, metric_lines_rows.
  change (metric_lines [Rule 60; Title v1 v2; Rule 60; ColumnHeads v1 v2; Rule 70])
    with (@nil metric_line).
  change (metric_lines [Rule 60]) with (@nil metric_line).
  now rewrite app_nil_r.
Qed.

Lemma compare_prompt_versions_rows (v1 v2 : string)
    (history : list (dict scalar)) (latest_v1 latest_v2 : dict scalar)
    (rows : list metric_line) :
  py_max timestamp_key (filter (has_version v1) history) = Ok latest_v1 ->
  py_max timestamp_key (filter (has_version v2) history) = Ok latest_v2 ->
  Forall2 (fun (p : string * string * bool) m =>
             compare_metric p.1.2 p.2 (metric_value p.1.1 latest_v1)
                            (metric_value p.1.1 latest_v2) = Ok m)
          metrics_to_compare rows ->
  compare_prompt_versions v1 v2 history =
  ([Rule 60; Title v1 v2; Rule 60; ColumnHeads v1 v2; Rule 70]
     ++ map MetricLine rows ++ [Rule 60], Ok tt).
Proof.
  intros M1 M2 Hf. unfold compare_prompt_versions.
  destruct (filter (has_version v1) history) as [|h1 hs1] eqn:E1;
    [discriminate M1|].
  destruct (filter (has_version v2) history) as [|h2 hs2] eqn:E2;
    [discriminate M2|].
  rewrite M1, M2.
  assert (compare_loop metrics_to_compare latest_v1 latest_v2
            [Rule 60; Title v1 v2; Rule 60; ColumnHeads v1 v2; Rule 70] =
          ([Rule 60; Title v1 v2; Rule 60; ColumnHeads v1 v2; Rule 70]
             ++ map MetricLine rows, Ok tt)) as ->.
  { apply compare_loop_rows. exists rows. split; [reflexivity|exact Hf]. }
  now rewrite <- app_assoc.
Qed.

Lemma mirrored_rows (metrics : list (string * string * bool))
    (l1 l2 : dict scalar) (rows12 : list metric_line) :
  Forall2 (fun (p : string * string * bool) m =>
             compare_metric p.1.2 p.2 (metric_value p.1.1 l1)
                            (metric_value p.1.1 l2) = Ok m)
          metrics rows12 ->
  exists rows21,
    Forall2 (fun (p : string * string * bool) m =>
               compare_metric p.1.2 p.2 (metric_value p.1.1 l2)
                              (metric_value p.1.1 l1) = Ok m)
            metrics rows21 /\
    forall (i : nat) (key label : string) (higher_is_better : bool),
      metrics !! i = Some (key, label, higher_is_better) ->
      exists m12 m21,
        rows12 !! i = Some m12 /\ rows21 !! i = Some m21 /\
        line_label m12 = label /\ line_label m21 = label /\
        mirrored higher_is_better (metric_value key l1) (metric_value key l2)
                 m12 m21.
Proof.
  induction 1 as [|[[key label] hib] m12 metrics rows12 Hm Hrest IH].
  - exists []. split; [constructor|]. intros i key label hib Hi. discriminate Hi.
  - destruct IH as (rows21 & Hf & Hidx).
    cbn [fst snd] in Hm.
    destruct (compare_metric_swap label hib _ _ m12 Hm)
      as (m21 & x1 & x2 & Ea & Eb & Hswap & L12 & L21 & P12 & P21 & C12 & C21
          & I12 & I21 & Hneg).
    exists (m21 :: rows21). split; [constructor; assumption|].
    intros [|i] key' label' hib' Hi.
    + injection Hi as <- <- <-. exists m12, m21.
      repeat (split; [first [reflexivity|assumption]|]).
      exists x1, x2. repeat (split; [assumption|]). exact Hneg.
    + apply (Hidx i key' label' hib' Hi).
Qed.

(** C7, the claim as stated fails.  In the sample history the average
    latency is 0.5 ms for [v1] and 120 ms for [v2].  Comparing [v1] with
    [v2] shows the line as a percentage and reports the change 11950;
    comparing [v2] with [v1] does not and reports -119.5: the two are not
    opposite, and the first is not the difference 119.5 of the values.
    Likewise the accuracy line of [v1] against [v2] reports 10, not the
    difference 0.1. *)
Lemma compare_changes_not_opposite :
  exists out12 out21 m12 m21 a12,
    compare_prompt_versions "v1" "v2" sample_history = (out12, Ok tt) /\
    compare_prompt_versions "v2" "v1" sample_history = (out21, Ok tt) /\
    metric_lines out12 !! 4%nat = Some m12 /\
    metric_lines out21 !! 4%nat = Some m21 /\
    line_label m12 = "Avg Latency (ms)" /\
    line_label m21 = "Avg Latency (ms)" /\
    (change m12 == 11950)%Q /\ (change m21 == - (119.5))%Q /\
    ~ (change m21 == - change m12)%Q /\
    ~ (change m12 == 120 - 0.5)%Q /\
    metric_lines out12 !! 0%nat = Some a12 /\
    line_label a12 = "Entity Type Accuracy" /\
    (change a12 == 10)%Q /\ ~ (change a12 == 0.9 - 0.8)%Q.
Proof.
  do 5 eexists.
  split; [vm_compute; reflexivity|]. split; [vm_compute; reflexivity|].
  split; [reflexivity|]. split; [reflexivity|].
  split; [reflexivity|]. split; [reflexivity|].
  split; [reflexivity|]. split; [reflexivity|].
  split; [intros E; vm_compute in E; discriminate E|].
  split; [intros E; vm_compute in E; discriminate E|].
  split; [reflexivity|]. split; [reflexivity|].
  split; [reflexivity|].
  intros E; vm_compute in E; discriminate E.
Qed.

(** C7, amended.  The comparison reads nothing but the history: its printed
    lines are determined by the latest record of each version, so any
    history with the same two latest records gives the same lines.  For
    every compared metric, the change printed by [compare(v1, v2)] is
    [v2.value - v1.value], multiplied by 100 when [v1.value] is a float not
    above 1 (the percentage display), and the change printed by
    [compare(v2, v1)] is [v1.value - v2.value], multiplied by 100 when
    [v2.value] is such a float; the two verdicts are opposite (improved
    against regressed, unchanged against unchanged), and the two changes are
    exact negations of each other whenever both lines are displayed the
    same way. *)
Theorem compare_deltas_mirrored
    (v1 v2 : string) (history : list (dict scalar)) (out12 : list line) :
  compare_prompt_versions v1 v2 history = (out12, Ok tt) ->
  filter (has_version v1) history <> [] ->
  filter (has_version v2) history <> [] ->
  exists out21 latest_v1 latest_v2,
    py_max timestamp_key (filter (has_version v1) history) = Ok latest_v1 /\
    py_max timestamp_key (filter (has_version v2) history) = Ok latest_v2 /\
    compare_prompt_versions v2 v1 history = (out21, Ok tt) /\
    (forall history' : list (dict scalar),
       py_max timestamp_key (filter (has_version v1) history') = Ok latest_v1 ->
       py_max timestamp_key (filter (has_version v2) history') = Ok latest_v2 ->
       compare_prompt_versions v1 v2 history' = (out12, Ok tt)) /\
    length (metric_lines out12) = 5%nat /\
    length (metric_lines out21) = 5%nat /\
    forall (i : nat) (key label : string) (higher_is_better : bool),
      metrics_to_compare !! i = Some (key, label, higher_is_better) ->
      exists m12 m21,
        metric_lines out12 !! i = Some m12 /\
        metric_lines out21 !! i = Some m21 /\
        line_label m12 = label /\ line_label m21 = label /\
        mirrored higher_is_better (metric_value key latest_v1)
                 (metric_value key latest_v2) m12 m21.
Proof.
  intros H Hne1 Hne2.
  destruct (compare_prompt_versions_ok v1 v2 history out12 H Hne1 Hne2)
    as (latest_v1 & latest_v2 & rows12 & M1 & M2 & Hrows & Hf).
  destruct (mirrored_rows _ _ _ _ Hf) as (rows21 & Hf21 & Hidx).
  pose proof (compare_prompt_versions_rows v2 v1 history _ _ rows21 M2 M1 Hf21)
    as H21.
  pose proof (compare_prompt_versions_rows v1 v2 history _ _ rows12 M1 M2 Hf)
    as H12.
  rewrite H in H12. injection H12 as Hout12.
  eexists. exists latest_v1, latest_v2.
  split; [exact M1|]. split; [exact M2|]. split; [exact H21|].
  split.
  { intros history' M1' M2'. rewrite Hout12.
    exact (compare_prompt_versions_rows v1 v2 history' _ _ rows12 M1' M2' Hf). }
  assert (metric_lines
            ([Rule 60; Title v2 v1; Rule 60; ColumnHeads v2 v1; Rule 70]
               ++ map MetricLine rows21 ++ [Rule 60]) = rows21) as E21.
  { rewrite !metric_lines_app, metric_lines_rows.
    change (metric_lines [Rule 60; Title v2 v1; Rule 60; ColumnHeads v2 v1; Rule 70])
      with (@nil metric_line).
    change (metric_lines [Rule 60]) with (@nil metric_line).
    now rewrite app_nil_r. }
  rewrite E21, Hrows.
  split; [now rewrite <- (Forall2_length _ _ _ Hf)|].
  split; [now rewrite <- (Forall2_length _ _ _ Hf21)|].
  exact Hidx.
Qed.

Lemma compare_deltas_mirrored_witness :
  filter (has_version "v1") sample_history <> [] /\
  filter (has_version "v2") sample_history <> [] /\
  exists out12 out21,
    compare_prompt_versions "v1" "v2" sample_history = (out12, Ok tt) /\
    compare_prompt_versions "v2" "v1" sample_history = (out21, Ok tt) /\
    length (metric_lines out12) = 5%nat /\
    length (metric_lines out21) = 5%nat.
Proof.
  assert (filter (has_version "v1") sample_history <> []) as Hne1
    by (vm_compute; discriminate).
  assert (filter (has_version "v2") sample_history <> []) as Hne2
    by (vm_compute; discriminate).
  split; [exact Hne1|]. split; [exact Hne2|].
  assert (compare_prompt_versions "v1" "v2" sample_history =
          ((compare_prompt_versions "v1" "v2" sample_history).1, Ok tt)) as H
    by reflexivity.
  destruct (compare_deltas_mirrored "v1" "v2" sample_history _ H Hne1 Hne2)
    as (out21 & l1 & l2 & _ & _ & H21 & _ & L12 & L21 & _).
  eexists. exists out21. split; [exact H|]. split; [exact H21|].
  split; [exact L12|exact L21].
Defined.

(** * Further properties of the calculator *)

(** ** Test counts *)

Lemma status_classes_disjoint (results : list row) :
  (length (filter (has_status "COMPLETED") results)
   + length (filter (has_status "SKIPPED") results)
   + length (filter (has_status "ERROR") results)
   + length (filter (fun r : row =>
                       ~ has_status "COMPLETED" r /\ ~ has_status "SKIPPED" r
                       /\ ~ has_status "ERROR" r) results))%nat
  = length results.
Proof.
  induction results as [|r rest IH]; [reflexivity|].
  rewrite !filter_cons.
  destruct (decide (has_status "COMPLETED" r)) as [H1|H1];
    destruct (decide (has_status "SKIPPED" r)) as [H2|H2];
    destruct (decide (has_status "ERROR" r)) as [H3|H3];
    destruct (decide (~ has_status "COMPLETED" r /\ ~ has_status "SKIPPED" r
                      /\ ~ has_status "ERROR" r)) as [H4|H4];
    try (exfalso; unfold has_status in *; (congruence || tauto));
    simpl; lia.
Qed.

Lemma test_counts_of_document
    (py_float : string -> option Q) (ENTITY_TYPES : list string)
    (now : string) (results : list row) :
  let n := length (completed_rows results) in
  let s := length (filter (has_status "SKIPPED") results) in
  let e := length (filter (has_status "ERROR") results) in
  let other :=
    length (filter (fun r : row =>
                      ~ has_status "COMPLETED" r /\ ~ has_status "SKIPPED" r
                      /\ ~ has_status "ERROR" r) results) in
  exists doc,
    calculate_metrics py_float ENTITY_TYPES now results = Ok doc /\
    dict_get "total_tests" (fields doc) = Some (SInt (Z.of_nat (length results))) /\
    dict_get "completed_tests" (fields doc) = Some (SInt (Z.of_nat n)) /\
    dict_get "skipped_tests" (fields doc) = Some (SInt (Z.of_nat s)) /\
    dict_get "error_tests" (fields doc) = Some (SInt (Z.of_nat e)) /\
    (n + s + e + other)%nat = length results /\
    (n = 0%nat -> dict_get "completion_rate" (fields doc) = None) /\
    ((0 < n)%nat ->
     exists rate,
       dict_get "completion_rate" (fields doc) = Some (SFloat rate) /\
       (rate == Qnat n / Qnat (length results))%Q /\
       (0 < rate)%Q /\ (rate <= 1)%Q).
Proof.
  intros n s e other.
  pose proof (status_classes_disjoint results) as Hsum.
  fold (completed_rows results) in Hsum. fold n s e other in Hsum.
  destruct (completed_rows results) as [|r rest] eqn:Ec.
  - exists {| fields :=
               [("total_tests", SInt (Z.of_nat (length results)));
                ("completed_tests", SInt 0);
                ("skipped_tests", SInt (Z.of_nat s));
                ("error_tests", SInt (Z.of_nat e));
                ("error", SStr "No completed tests to analyze")];
             entity_type_metrics := None; confusion_matrix := None;
             confidence_bins := None; latencies := None |}.
    split; [unfold calculate_metrics; rewrite Ec; reflexivity|].
    subst n. cbn [length] in *.
    repeat (split; [reflexivity|]). split; [exact Hsum|].
    split; [reflexivity|]. intros H. lia.
  - assert (completed_rows results <> []) as Hne by (rewrite Ec; discriminate).
    destruct (calculate_metrics_completed_doc py_float ENTITY_TYPES now results Hne)
      as (doc & em & p50 & p95 & p99 & hour & _ & _ & _ & _ & Hdoc & Hf & _).
    rewrite Ec in Hf. fold n in Hf.
    exists doc. split; [exact Hdoc|]. rewrite Hf.
    repeat (split; [reflexivity|]). split; [exact Hsum|].
    assert (0 < n)%nat as Hn by (subst n; simpl; lia).
    split; [intros H; lia|]. intros _.
    eexists. split; [reflexivity|]. split; [reflexivity|].
    assert (0 < length results)%nat as Ht by lia.
    split.
    + apply Qlt_shift_div_l; [now apply Qnat_pos|].
      rewrite Qmult_0_l. now apply Qnat_pos.
    + apply Qle_shift_div_r; [now apply Qnat_pos|].
      rewrite Qmult_1_l. apply Qnat_le. lia.
Qed.

(** X1.  Whenever [calculate_metrics] returns a document, the document
    carries the number of rows as [total_tests] and the numbers of rows
    whose status is exactly COMPLETED, SKIPPED and ERROR as the three other
    counts.  The three classes are disjoint, so the counts add up to at most
    the total, and to the total exactly when no row has another (or no)
    status.  Without a completed row there is no completion rate; with one
    it is completed / total, above 0 and at most 1.  (A call need not
    return: with a completed row it raises on a label cell that a short
    line of the file lacks, and on an hour error that [str.isdigit] accepts
    and [int] rejects; such calls are outside this statement.) *)
Theorem test_counts_partition
    (py_float : string -> option Q) (ENTITY_TYPES : list string)
    (now : string) (results : list row) (doc : MetricsDocument) :
  let n := length (completed_rows results) in
  let s := length (filter (has_status "SKIPPED") results) in
  let e := length (filter (has_status "ERROR") results) in
  let other :=
    length (filter (fun r : row =>
                      ~ has_status "COMPLETED" r /\ ~ has_status "SKIPPED" r
                      /\ ~ has_status "ERROR" r) results) in
  calculate_metrics py_float ENTITY_TYPES now results = Ok doc ->
  dict_get "total_tests" (fields doc) = Some (SInt (Z.of_nat (length results))) /\
  dict_get "completed_tests" (fields doc) = Some (SInt (Z.of_nat n)) /\
  dict_get "skipped_tests" (fields doc) = Some (SInt (Z.of_nat s)) /\
  dict_get "error_tests" (fields doc) = Some (SInt (Z.of_nat e)) /\
  (n + s + e + other)%nat = length results /\
  (n = 0%nat -> dict_get "completion_rate" (fields doc) = None) /\
  ((0 < n)%nat ->
   exists rate,
     dict_get "completion_rate" (fields doc) = Some (SFloat rate) /\
     (rate == Qnat n / Qnat (length results))%Q /\
     (0 < rate)%Q /\ (rate <= 1)%Q).
Proof.
  intros n s e other Hdoc.
  destruct (test_counts_of_document py_float ENTITY_TYPES now results)
    as (doc' & Hdoc' & H).
  rewrite Hdoc in Hdoc'. injection Hdoc' as <-. exact H.
Qed.

Lemma test_counts_partition_witness :
  exists doc rate,
    calculate_metrics decimal_float default_entity_types "2024-05-01T10:00:00"
      (skipped_row :: calibration_rows) = Ok doc /\
    dict_get "total_tests" (fields doc) = Some (SInt 5) /\
    dict_get "completed_tests" (fields doc) = Some (SInt 4) /\
    dict_get "skipped_tests" (fields doc) = Some (SInt 1) /\
    dict_get "error_tests" (fields doc) = Some (SInt 0) /\
    dict_get "completion_rate" (fields doc) = Some (SFloat rate) /\
    (rate == 4 # 5)%Q.
Proof.
  destruct (calculate_metrics_total decimal_float default_entity_types
              "2024-05-01T10:00:00" (skipped_row :: calibration_rows))
    as [doc Hdoc].
  destruct (test_counts_partition decimal_float default_entity_types
              "2024-05-01T10:00:00" (skipped_row :: calibration_rows) doc Hdoc)
    as (Ht & Hc & Hs & He & _ & _ & Hrate).
  assert (length (completed_rows (skipped_row :: calibration_rows)) = 4%nat)
    as Hn by (vm_compute; reflexivity).
  assert (length (filter (has_status "SKIPPED")
                         (skipped_row :: calibration_rows)) = 1%nat)
    as Hs1 by (vm_compute; reflexivity).
  assert (length (filter (has_status "ERROR")
                         (skipped_row :: calibration_rows)) = 0%nat)
    as He0 by (vm_compute; reflexivity).
  rewrite Hn in Hc, Hrate. rewrite Hs1 in Hs. rewrite He0 in He.
  destruct Hrate as (rate & Hr & Heq & _); [lia|].
  exists doc, rate. split; [exact Hdoc|]. split; [exact Ht|].
  split; [exact Hc|]. split; [exact Hs|]. split; [exact He|].
  split; [exact Hr|]. rewrite Heq. reflexivity.
Defined.

(** ** Rates *)




(** ** Confusion matrix *)









(** ** The per-class table *)








(** ** Average hour error *)

Lemma calculate_metrics_avg_hour_error
    (py_float : string -> option Q) (ENTITY_TYPES : list string)
    (now : string) (results : list row) (doc : MetricsDocument) :
  completed_rows results <> [] ->
  calculate_metrics py_float ENTITY_TYPES now results = Ok doc ->
  dict_get "avg_hour_error" (fields doc) =
  Some match hour_errors_of (completed_rows results) with
       | [] => SNone
       | hour_errors =>
           SFloat (py_sum (map Qnat hour_errors) / Qnat (length hour_errors))
       end.
Proof.
  intros Hne H. unfold calculate_metrics in H. cbv zeta in H.
  destruct (Nat.eqb (length (completed_rows results)) 0) eqn:E0.
  { apply Nat.eqb_eq in E0. destruct (completed_rows results);
      [contradiction|discriminate E0]. }
  repeat bind_ok H. injection H as <-. cbn [fields].
  match goal with
  | Eh : match hour_errors_of _ with [] => _ | _ => _ end = Ok ?a |- _ =>
      assert (a = match hour_errors_of (completed_rows results) with
                  | [] => SNone
                  | hour_errors =>
                      SFloat (py_sum (map Qnat hour_errors)
                              / Qnat (length hour_errors))
                  end) as ->;
      [ destruct (hour_errors_of (completed_rows results)) as [|h hs];
        [ now injection Eh as <-
        | rewrite py_div_nat_ok in Eh by (simpl; lia);
          cbn [rbind] in Eh; now injection Eh as <- ]
      | reflexivity ]
  end.
Qed.

Lemma py_sum_from (xs : list Q) (acc : Q) :
  (fold_left Qplus xs acc == acc + py_sum xs)%Q.
Proof.
  unfold py_sum. revert acc. induction xs as [|x xs IH]; intros acc; simpl.
  - ring.
  - rewrite IH, (IH (0 + x)%Q). ring.
Qed.

Lemma py_sum_cons (x : Q) (xs : list Q) :
  (py_sum (x :: xs) == x + py_sum xs)%Q.
Proof.
  unfold py_sum at 1. simpl. rewrite py_sum_from. ring.
Qed.

Lemma py_sum_nonneg (xs : list Q) :
  Forall (fun x => (0 <= x)%Q) xs -> (0 <= py_sum xs)%Q.
Proof.
  induction 1 as [|x xs Hx Hall IH].
  - apply Qle_refl.
  - rewrite py_sum_cons. lra.
Qed.

Lemma hour_errors_of_filter (completed : list row) :
  hour_errors_of completed =
  map (fun r : row => py_int (default "" (r !! "start_hour_error")))
      (filter (fun r : row =>
                 isdigit (default "" (r !! "start_hour_error")) = true)
              completed).
Proof.
  unfold hour_errors_of.
  induction completed as [|r rest IH]; [reflexivity|].
  rewrite filter_cons. cbn [omap list_omap].
  destruct (default "" (r !! "start_hour_error")) as [|c s] eqn:E.
  - cbn [String.eqb negb andb isdigit]. rewrite decide_False by discriminate.
    exact IH.
  - cbn [String.eqb negb andb].
    destruct (isdigit (String c s)) eqn:D.
    + rewrite decide_True by reflexivity. cbn [map].
      f_equal; [now rewrite E|exact IH].
    + rewrite decide_False by discriminate. exact IH.
Qed.

(** X6.  For completed rows whose [start_hour_error] is written in ASCII
    (on other digits [str.isdigit] and [int] do not agree with the digits
    0 to 9): whenever [calculate_metrics] returns a document, its
    [avg_hour_error] is null exactly when no completed row has a
    [start_hour_error] made of decimal digits (an empty field, a sign or a
    decimal point rule a row out: it is left out of the mean, not counted
    as 0); otherwise it is the mean of the values of the rows that have
    one, which is not negative. *)
Theorem avg_hour_error_defined
    (py_float : string -> option Q) (ENTITY_TYPES : list string)
    (now : string) (results : list row) (doc : MetricsDocument) :
  let completed := completed_rows results in
  let with_error :=
    filter (fun r : row => isdigit (default "" (r !! "start_hour_error")) = true)
           completed in
  completed <> [] ->
  Forall (fun r : row => isascii (default "" (r !! "start_hour_error")) = true)
         completed ->
  calculate_metrics py_float ENTITY_TYPES now results = Ok doc ->
  exists value,
    dict_get "avg_hour_error" (fields doc) = Some value /\
    hour_errors_of completed =
      map (fun r : row => py_int (default "" (r !! "start_hour_error")))
          with_error /\
    (with_error = [] -> value = SNone) /\
    (with_error <> [] ->
     exists mean,
       value = SFloat mean /\
       mean = (py_sum (map Qnat (hour_errors_of completed))
               / Qnat (length with_error))%Q /\
       (0 <= mean)%Q).
Proof.
  intros completed with_error Hne _ Hdoc.
  pose proof (calculate_metrics_avg_hour_error _ _ _ _ _ Hne Hdoc) as Hh.
  fold completed in Hh.
  pose proof (hour_errors_of_filter completed) as Hmap.
  fold with_error in Hmap.
  assert (length (hour_errors_of completed) = length with_error) as Hlen
    by (rewrite Hmap; apply length_map).
  eexists. split; [exact Hh|].
  split; [exact Hmap|]. split.
  - intros Hnone. rewrite Hnone in Hlen.
    destruct (hour_errors_of completed); [reflexivity|discriminate Hlen].
  - intros Hsome.
    destruct (hour_errors_of completed) as [|h hs] eqn:Eh.
    { destruct with_error; [contradiction|discriminate Hlen]. }
    eexists. split; [reflexivity|]. split; [now rewrite Hlen|].
    apply Qle_shift_div_l; [apply Qnat_pos; simpl; lia|].
    rewrite Qmult_0_l.
    apply py_sum_nonneg. apply Forall_forall. intros x Hx.
    apply list_elem_of_In in Hx. apply in_map_iff in Hx as (k & <- & _).
    apply Qnat_nonneg.
Qed.

Lemma avg_hour_error_defined_witness :
  completed_rows hour_error_rows <> [] /\
  Forall (fun r : row => isascii (default "" (r !! "start_hour_error")) = true)
         (completed_rows hour_error_rows) /\
  hour_errors_of (completed_rows hour_error_rows) = [3; 5]%nat /\
  exists doc mean,
    calculate_metrics decimal_float default_entity_types "2024-05-01T10:00:00"
      hour_error_rows = Ok doc /\
    dict_get "avg_hour_error" (fields doc) = Some (SFloat mean) /\
    (mean == 4)%Q.
Proof.
  assert (completed_rows hour_error_rows <> []) as Hne.
  { intros E. apply (f_equal length) in E. vm_compute in E. discriminate E. }
  assert (Forall (fun r : row =>
                    isascii (default "" (r !! "start_hour_error")) = true)
                 (completed_rows hour_error_rows)) as Hascii.
  { assert (forallb (fun r : row =>
                       isascii (default "" (r !! "start_hour_error")))
                    (completed_rows hour_error_rows) = true) as H
      by (vm_compute; reflexivity).
    rewrite forallb_forall in H. apply Forall_forall. intros r Hr.
    apply list_elem_of_In in Hr. now apply H. }
  assert (hour_errors_of (completed_rows hour_error_rows) = [3; 5]%nat) as Herr
    by (vm_compute; reflexivity).
  split; [exact Hne|]. split; [exact Hascii|]. split; [exact Herr|].
  destruct (calculate_metrics_total decimal_float default_entity_types
              "2024-05-01T10:00:00" hour_error_rows) as [doc Hdoc].
  destruct (avg_hour_error_defined decimal_float default_entity_types
              "2024-05-01T10:00:00" hour_error_rows doc Hne Hascii Hdoc)
    as (value & Hv & Hmap & _ & Hsome).
  destruct Hsome as (mean & -> & Hmean & _).
  { intros E. apply (f_equal length) in E.
    rewrite <- (length_map (fun r : row =>
                  py_int (default "" (r !! "start_hour_error")))) in E.
    rewrite <- Hmap, Herr in E. discriminate E. }
  exists doc, mean. split; [exact Hdoc|]. split; [exact Hv|].
  rewrite Hmean, Herr.
  assert (length (filter (fun r : row =>
                            isdigit (default "" (r !! "start_hour_error")) = true)
                         (completed_rows hour_error_rows)) = 2%nat) as ->.
  { rewrite <- (length_map (fun r : row =>
                  py_int (default "" (r !! "start_hour_error")))).
    now rewrite <- Hmap, Herr. }
  vm_compute. reflexivity.
Defined.

(** ** Statistics of the parsed values *)



(** ** Rows that are not completed *)




(** ** Range of the calibration error *)






(** ** Invariants of the history store *)

Lemma py_eqb_sym (a b : scalar) : py_eqb a b = py_eqb b a.
Proof.
  assert (forall x y : Q, Qeq_bool x y = Qeq_bool y x) as Hq.
  { intros x y. destruct (Qeq_bool x y) eqn:E; symmetry.
    - apply Qeq_bool_iff. symmetry. now apply Qeq_bool_iff.
    - destruct (Qeq_bool y x) eqn:E'; [|reflexivity].
      apply Qeq_bool_iff in E'. symmetry in E'. apply Qeq_bool_iff in E'.
      congruence. }
  destruct a, b; simpl; try reflexivity;
    [apply Z.eqb_sym|apply Hq|apply Hq|apply Hq|apply String.eqb_sym].
Qed.

Lemma in_ids_false (x : scalar) (history : list (dict scalar)) :
  in_ids x (map (record_get "run_id") history) = false ->
  forall h, h ∈ history -> py_eqb x (record_get "run_id" h) = false.
Proof.
  intros E h Hh. destruct (py_eqb x (record_get "run_id" h)) eqn:E'; [|reflexivity].
  assert (in_ids x (map (record_get "run_id") history) = true) as T
    by (apply in_ids_run_ids; eauto).
  congruence.
Qed.

Lemma unique_run_ids_snoc (history : list (dict scalar)) (h : dict scalar) :
  unique_run_ids history ->
  in_ids (record_get "run_id" h) (map (record_get "run_id") history) = false ->
  unique_run_ids (history ++ [h]).
Proof.
  intros Hu Hfresh i j hi hj Hi Hj Hij.
  pose proof (in_ids_false _ _ Hfresh) as Hf.
  destruct (decide (i < length history)%nat) as [Li|Li];
    destruct (decide (j < length history)%nat) as [Lj|Lj].
  - rewrite lookup_app_l in Hi, Hj by assumption. now apply (Hu i j).
  - rewrite lookup_app_l in Hi by assumption.
    rewrite lookup_app_r in Hj by lia.
    destruct (j - length history)%nat; [|discriminate Hj].
    injection Hj as <-. rewrite py_eqb_sym. apply Hf.
    now apply list_elem_of_lookup_2 in Hi.
  - rewrite lookup_app_l in Hj by assumption.
    rewrite lookup_app_r in Hi by lia.
    destruct (i - length history)%nat; [|discriminate Hi].
    injection Hi as <-. apply Hf.
    now apply list_elem_of_lookup_2 in Hj.
  - rewrite lookup_app_r in Hi, Hj by lia.
    destruct (i - length history)%nat eqn:Ei; [|discriminate Hi].
    destruct (j - length history)%nat eqn:Ej; [|discriminate Hj].
    lia.
Qed.

Lemma add_to_history_unique (metrics : MetricsDocument)
    (file : option (list (dict scalar))) :
  unique_run_ids (load_metrics_history file) ->
  unique_run_ids (load_metrics_history (add_to_history metrics file).1).
Proof.
  intros Hu.
  destruct (in_ids (metrics_get metrics "run_id")
              (map (record_get "run_id") (load_metrics_history file))) eqn:E.
  - rewrite add_to_history_duplicate by exact E. exact Hu.
  - rewrite add_to_history_fresh by exact E. cbn [fst load_metrics_history default].
    apply unique_run_ids_snoc; [exact Hu|].
    now rewrite history_record_run_id.
Qed.

Lemma add_to_history_holds_run_id (metrics : MetricsDocument)
    (file : option (list (dict scalar))) :
  exists h, h ∈ load_metrics_history (add_to_history metrics file).1 /\
            py_eqb (metrics_get metrics "run_id") (record_get "run_id" h) = true.
Proof.
  destruct (in_ids (metrics_get metrics "run_id")
              (map (record_get "run_id") (load_metrics_history file))) eqn:E.
  - rewrite add_to_history_duplicate by exact E. now apply in_ids_run_ids.
  - rewrite add_to_history_fresh by exact E. cbn [fst load_metrics_history default].
    exists (history_record_of metrics). split.
    + apply elem_of_app. right. apply list_elem_of_singleton. reflexivity.
    + rewrite history_record_run_id. apply py_eqb_refl.
Qed.

Lemma add_to_history_tail (metrics : MetricsDocument)
    (file : option (list (dict scalar))) :
  exists tail,
    load_metrics_history (add_to_history metrics file).1 =
    load_metrics_history file ++ tail /\
    (tail = [] \/ tail = [history_record_of metrics]).
Proof.
  destruct (in_ids (metrics_get metrics "run_id")
              (map (record_get "run_id") (load_metrics_history file))) eqn:E.
  - rewrite add_to_history_duplicate by exact E. exists [].
    split; [now rewrite app_nil_r|now left].
  - rewrite add_to_history_fresh by exact E. exists [history_record_of metrics].
    split; [reflexivity|now right].
Qed.

Lemma add_all_tail (docs : list MetricsDocument)
    (file : option (list (dict scalar))) :
  exists tail,
    load_metrics_history (add_all docs file) =
    load_metrics_history file ++ tail /\
    (length tail <= length docs)%nat /\
    (forall h, h ∈ tail -> exists d, d ∈ docs /\ h = history_record_of d).
Proof.
  revert file. induction docs as [|d docs IH]; intros file.
  - exists []. rewrite app_nil_r. split; [reflexivity|]. split; [simpl; lia|].
    intros x Hx. inversion Hx.
  - change (add_all (d :: docs) file)
      with (add_all docs (add_to_history d file).1).
    destruct (IH (add_to_history d file).1) as (t2 & E2 & L2 & R2).
    destruct (add_to_history_tail d file) as (t1 & E1 & Ht1).
    exists (t1 ++ t2). split; [|split].
    + rewrite E2, E1. now rewrite app_assoc.
    + rewrite length_app. cbn [length].
      destruct Ht1 as [-> | ->]; simpl; lia.
    + intros h Hh. apply elem_of_app in Hh as [Hh|Hh].
      * destruct Ht1 as [-> | ->]; [inversion Hh|].
        apply list_elem_of_singleton in Hh. exists d.
        split; [apply list_elem_of_here|exact Hh].
      * destruct (R2 h Hh) as (d' & Hd' & E). exists d'.
        split; [now apply list_elem_of_further|exact E].
Qed.

(** X11.  The membership test of [add_to_history] keeps the run identifiers
    of the history file pairwise different: when no two records of the file
    carry equal run_ids, the same holds after any sequence of calls, whatever
    the documents are. *)
Theorem add_all_keeps_run_ids_unique
    (docs : list MetricsDocument) (file : option (list (dict scalar))) :
  unique_run_ids (load_metrics_history file) ->
  unique_run_ids (load_metrics_history (add_all docs file)).
Proof.
  revert file. induction docs as [|d docs IH]; intros file Hu; [exact Hu|].
  change (add_all (d :: docs) file)
    with (add_all docs (add_to_history d file).1).
  apply IH. now apply add_to_history_unique.
Qed.

Lemma add_all_keeps_run_ids_unique_witness :
  unique_run_ids (load_metrics_history (Some sample_history)) /\
  unique_run_ids
    (load_metrics_history
       (add_all [sample_metrics; degenerate_metrics; sample_metrics]
                (Some sample_history))).
Proof.
  assert (unique_run_ids (load_metrics_history (Some sample_history))) as Hu.
  { intros i j hi hj Hi Hj Hij.
    destruct i as [|[|i]]; destruct j as [|[|j]];
      try (exfalso; apply Hij; reflexivity);
      try discriminate Hi; try discriminate Hj;
      injection Hi as <-; injection Hj as <-; reflexivity. }
  split; [exact Hu|].
  exact (add_all_keeps_run_ids_unique
           [sample_metrics; degenerate_metrics; sample_metrics]
           (Some sample_history) Hu).
Defined.

(** X12.  A sequence of calls of [add_to_history] only appends: the history
    file afterwards is the former history, in its order and unchanged,
    followed by records that are each the reduction of one of the documents,
    at most one per document; and afterwards every one of the documents has
    a record with its run_id in the file. *)
Theorem add_all_append_only
    (docs : list MetricsDocument) (file : option (list (dict scalar))) :
  exists tail,
    load_metrics_history (add_all docs file) =
    load_metrics_history file ++ tail /\
    (length tail <= length docs)%nat /\
    (forall h, h ∈ tail -> exists d, d ∈ docs /\ h = history_record_of d) /\
    (forall d, d ∈ docs ->
       exists h, h ∈ load_metrics_history (add_all docs file) /\
                 py_eqb (metrics_get d "run_id") (record_get "run_id" h) = true).
Proof.
  destruct (add_all_tail docs file) as (tail & E & L & R).
  exists tail. split; [exact E|]. split; [exact L|]. split; [exact R|].
  clear. revert file. induction docs as [|d docs IH]; intros file d' Hd'.
  - inversion Hd'.
  - change (add_all (d :: docs) file)
      with (add_all docs (add_to_history d file).1).
    apply elem_of_cons in Hd' as [-> | Hd'].
    + destruct (add_to_history_holds_run_id d file) as (h & Hh & Eh).
      exists h. split; [|exact Eh].
      destruct (add_all_tail docs (add_to_history d file).1) as (t & -> & _).
      apply elem_of_app. now left.
    + now apply IH.
Qed.

(** ** From the calculator to the history store *)

Lemma py_eqb_str (x : scalar) (s : string) :
  py_eqb (SStr s) x = true -> x = SStr s.
Proof.
  destruct x; simpl; try discriminate. intros E.
  apply String.eqb_eq in E. now subst.
Qed.

(** X13.  A run with a completed row whose document has a string for
    run_id can be recorded.  Whenever [calculate_metrics] returns a document
    for such a run and the run_id of the document is a string (it is the
    run_id of the first row of the file, or "unknown" without such a
    column; a first line of the file that is too short to have the cell
    gives a null run_id, which is C10), [add_to_history] does not raise: it
    prints either the "added" line with the new number of runs or the
    "already in history" line, with the first eight characters of the
    run_id; afterwards the history holds a record with exactly that run_id;
    and each of the eleven computed values of the reduced record is a
    number. *)
Theorem completed_run_is_recorded
    (py_float : string -> option Q) (ENTITY_TYPES : list string)
    (now : string) (results : list row) (file : option (list (dict scalar)))
    (doc : MetricsDocument) (run_id : string) :
  completed_rows results <> [] ->
  calculate_metrics py_float ENTITY_TYPES now results = Ok doc ->
  metrics_get doc "run_id" = SStr run_id ->
  run_id = default "unknown" (default ∅ (head results) !! "run_id") /\
  ((add_to_history doc file).2 =
     Ok (AddedRun (String.substring 0 8 run_id)
                  (S (length (load_metrics_history file)))) \/
   (add_to_history doc file).2 =
     Ok (RunAlreadyInHistory (String.substring 0 8 run_id))) /\
  (exists h, h ∈ load_metrics_history (add_to_history doc file).1 /\
             record_get "run_id" h = SStr run_id) /\
  length (history_record_of doc) = 14%nat /\
  (forall k, k ∈ computed_keys ->
     exists x, as_number (record_get k (history_record_of doc)) = Ok x).
Proof.
  intros Hne Hdoc Hid.
  destruct (calculate_metrics_completed_doc py_float ENTITY_TYPES now results Hne)
    as (doc' & em & p50 & p95 & p99 & hour & _ & _ & _ & _ & Hdoc' & Hf & _).
  rewrite Hdoc in Hdoc'. injection Hdoc' as <-.
  split.
  { unfold metrics_get in Hid. rewrite Hf in Hid.
    cbn [dict_get String.eqb Ascii.eqb Bool.eqb default from_option id] in Hid.
    now injection Hid as <-. }
  split; [|split; [|split]].
  - destruct (in_ids (metrics_get doc "run_id")
                (map (record_get "run_id") (load_metrics_history file))) eqn:E.
    + right. rewrite add_to_history_duplicate by exact E.
      cbn [snd]. rewrite Hid. reflexivity.
    + left. rewrite add_to_history_fresh by exact E.
      cbn [snd]. rewrite Hid. cbn [py_prefix8 rbind].
      rewrite length_app. cbn [length]. do 2 f_equal. lia.
  - destruct (add_to_history_holds_run_id doc file) as (h & Hh & E).
    exists h. split; [exact Hh|]. rewrite Hid in E. now apply py_eqb_str.
  - reflexivity.
  - intros k Hk. unfold computed_keys in Hk.
    repeat (apply elem_of_cons in Hk as [->|Hk];
            [match goal with
             | |- context [record_get ?k (history_record_of doc)] =>
                 change (record_get k (history_record_of doc))
                   with (metrics_get doc k)
             end;
             unfold metrics_get; rewrite Hf; eexists; reflexivity|]).
    inversion Hk.
Qed.

Lemma completed_run_is_recorded_witness :
  completed_rows [stamped_row] <> [] /\
  exists doc,
    calculate_metrics decimal_float default_entity_types "2024-05-01T10:00:00"
      [stamped_row] = Ok doc /\
    metrics_get doc "run_id" = SStr "a1b2c3d4e5f6" /\
    (add_to_history doc None).2 = Ok (AddedRun "a1b2c3d4" 1).
Proof.
  assert (completed_rows [stamped_row] <> []) as Hne.
  { intros E. apply (f_equal length) in E. vm_compute in E. discriminate E. }
  split; [exact Hne|].
  destruct (calculate_metrics_completed_doc decimal_float default_entity_types
              "2024-05-01T10:00:00" [stamped_row] Hne)
    as (doc & em & p50 & p95 & p99 & hour & _ & _ & _ & _ & Hdoc & Hf & _).
  assert (metrics_get doc "run_id" = SStr "a1b2c3d4e5f6") as Hid
    by (unfold metrics_get; rewrite Hf; reflexivity).
  destruct (completed_run_is_recorded decimal_float default_entity_types
              "2024-05-01T10:00:00" [stamped_row] None doc "a1b2c3d4e5f6"
              Hne Hdoc Hid)
    as (_ & Hprint & _).
  exists doc. split; [exact Hdoc|]. split; [exact Hid|].
  destruct Hprint as [H|H]; [exact H|].
  exfalso. unfold add_to_history in H.
  rewrite history_record_run_id, Hid in H. cbn in H. discriminate H.
Defined.

(** ** The order of strings and the latest run *)

Lemma string_compare_refl (s : string) : String.compare s s = Eq.
Proof.
  induction s as [|c s IH]; [reflexivity|]. simpl.
  unfold Ascii.compare. rewrite N.compare_refl. exact IH.
Qed.

Lemma string_compare_lt_trans (a b c : string) :
  String.compare a b = Lt -> String.compare b c = Lt -> String.compare a c = Lt.
Proof.
  revert b c. induction a as [|x a IH]; intros [|y b] [|z c]; simpl;
    try discriminate; try reflexivity.
  destruct (Ascii.compare x y) eqn:Exy; try discriminate;
    destruct (Ascii.compare y z) eqn:Eyz; try discriminate; intros Hab Hbc.
  - apply Ascii.compare_eq_iff in Exy, Eyz. subst.
    rewrite (proj2 (N.compare_eq_iff _ _) eq_refl : Ascii.compare z z = Eq).
    now apply (IH b c).
  - apply Ascii.compare_eq_iff in Exy. subst. now rewrite Eyz.
  - apply Ascii.compare_eq_iff in Eyz. subst. now rewrite Exy.
  - unfold Ascii.compare in *.
    apply N.compare_lt_iff in Exy. apply N.compare_lt_iff in Eyz.
    rewrite (proj2 (N.compare_lt_iff _ _) (N.lt_trans _ _ _ Exy Eyz)).
    reflexivity.
Qed.

Lemma string_ltb_irrefl (s : string) : String.ltb s s = false.
Proof. unfold String.ltb. now rewrite string_compare_refl. Qed.

Lemma string_ltb_trans (a b c : string) :
  String.ltb a b = true -> String.ltb b c = true -> String.ltb a c = true.
Proof.
  unfold String.ltb. intros Hab Hbc.
  destruct (String.compare a b) eqn:Eab; try discriminate.
  destruct (String.compare b c) eqn:Ebc; try discriminate.
  now rewrite (string_compare_lt_trans a b c Eab Ebc).
Qed.

Lemma string_ltb_cases (a b : string) :
  String.ltb a b = true \/ a = b \/ String.ltb b a = true.
Proof.
  unfold String.ltb. rewrite (String.compare_antisym b a).
  destruct (String.compare a b) eqn:E; simpl; auto.
  right. left. now apply String.compare_eq_iff.
Qed.

(** Not below [b], and [b] below [x]: below [x]. *)
Lemma string_ltb_le_lt (b z x : string) :
  String.ltb b z = false -> String.ltb b x = true -> String.ltb z x = true.
Proof.
  intros Hbz Hbx. destruct (string_ltb_cases z x) as [H|[->|H]]; [exact H| |].
  - congruence.
  - rewrite (string_ltb_trans b x z Hbx H) in Hbz. discriminate Hbz.
Qed.

(** [max] over keys that embed an order: the first of the greatest items. *)
Section MaxOrdered.

Context {A K : Type} (key : A -> scalar) (sk : A -> K) (inj : K -> scalar)
        (lt : K -> K -> bool).
Hypothesis gt_inj : forall a b, py_gt (inj a) (inj b) = Ok (lt b a).
Hypothesis lt_irrefl : forall a, lt a a = false.
Hypothesis lt_trans :
  forall a b c, lt a b = true -> lt b c = true -> lt a c = true.
Hypothesis lt_le_lt :
  forall b z x, lt b z = false -> lt b x = true -> lt z x = true.

Lemma max_loop_ordered (xs pre : list A) (i : nat) (best : A) :
  (forall x, x ∈ pre ++ xs -> key x = inj (sk x)) ->
  pre !! i = Some best ->
  (forall y, y ∈ pre -> lt (sk best) (sk y) = false) ->
  (forall j y, pre !! j = Some y -> (j < i)%nat -> lt (sk y) (sk best) = true) ->
  exists i' best',
    max_loop key best xs = Ok best' /\
    (pre ++ xs) !! i' = Some best' /\
    (forall y, y ∈ pre ++ xs -> lt (sk best') (sk y) = false) /\
    (forall j y, (pre ++ xs) !! j = Some y -> (j < i')%nat ->
       lt (sk y) (sk best') = true).
Proof.
  revert pre i best. induction xs as [|x xs IH]; intros pre i best Hk Hi Hmax Hfirst.
  - exists i, best. rewrite app_nil_r. auto.
  - assert (key x = inj (sk x)) as Kx.
    { apply Hk. apply elem_of_app. right. apply list_elem_of_here. }
    assert (key best = inj (sk best)) as Kb.
    { apply Hk. apply elem_of_app. left. now apply list_elem_of_lookup_2 in Hi. }
    assert (forall y, y ∈ (pre ++ [x]) ++ xs -> key y = inj (sk y)) as Hk'.
    { intros y Hy. apply Hk. now rewrite <- app_assoc in Hy. }
    cbn [max_loop]. rewrite Kx, Kb, gt_inj. cbn [rbind].
    replace (pre ++ x :: xs) with ((pre ++ [x]) ++ xs)
      by (now rewrite <- app_assoc).
    pose proof (lookup_lt_Some _ _ _ Hi) as Li.
    destruct (lt (sk best) (sk x)) eqn:G.
    + apply (IH (pre ++ [x]) (length pre) x Hk').
      * rewrite lookup_app_r by lia. now rewrite Nat.sub_diag.
      * intros y Hy. apply elem_of_app in Hy as [Hy|Hy].
        -- destruct (lt (sk x) (sk y)) eqn:E; [|reflexivity].
           pose proof (lt_trans _ _ _ G E) as T.
           rewrite (Hmax y Hy) in T. discriminate T.
        -- apply list_elem_of_singleton in Hy. subst y. apply lt_irrefl.
      * intros j y Hj Lj. rewrite lookup_app_l in Hj by exact Lj.
        apply (lt_le_lt (sk best)); [|exact G].
        apply Hmax. now apply list_elem_of_lookup_2 in Hj.
    + apply (IH (pre ++ [x]) i best Hk').
      * now rewrite lookup_app_l.
      * intros y Hy. apply elem_of_app in Hy as [Hy|Hy]; [now apply Hmax|].
        apply list_elem_of_singleton in Hy. now subst y.
      * intros j y Hj Lj. rewrite lookup_app_l in Hj by lia.
        now apply (Hfirst j).
Qed.

Lemma py_max_ordered (xs : list A) :
  xs <> [] ->
  (forall x, x ∈ xs -> key x = inj (sk x)) ->
  exists i best,
    py_max key xs = Ok best /\
    xs !! i = Some best /\
    (forall y, y ∈ xs -> lt (sk best) (sk y) = false) /\
    (forall j y, xs !! j = Some y -> (j < i)%nat -> lt (sk y) (sk best) = true).
Proof.
  intros Hne Hk. destruct xs as [|x xs]; [contradiction|].
  cbn [py_max].
  apply (max_loop_ordered xs [x] 0%nat x).
  - exact Hk.
  - reflexivity.
  - intros y Hy. apply list_elem_of_singleton in Hy. subst y. apply lt_irrefl.
  - intros j y _ Lj. lia.
Qed.

Lemma lt_asym (a b : K) : lt a b = true -> lt b a = false.
Proof.
  intros H. destruct (lt b a) eqn:E; [|reflexivity].
  pose proof (lt_trans a b a H E) as T. rewrite lt_irrefl in T. discriminate T.
Qed.

(** Not below, twice: not below. *)
Lemma ge_trans (a b c : K) :
  lt a b = false -> lt b c = false -> lt a c = false.
Proof.
  intros Hab Hbc. destruct (lt a c) eqn:E; [|reflexivity].
  pose proof (lt_le_lt a b c Hab E) as T. congruence.
Qed.

Lemma insert_desc_ordered (x : A) (l : list A) :
  (forall y, y ∈ x :: l -> key y = inj (sk y)) ->
  exists l',
    insert_desc key x l = Ok l' /\
    Permutation l' (x :: l) /\
    (StronglySorted (fun a b => lt (sk a) (sk b) = false) l ->
     StronglySorted (fun a b => lt (sk a) (sk b) = false) l').
Proof.
  induction l as [|y l IH]; intros Hk.
  - exists [x]. split; [reflexivity|]. split; [reflexivity|].
    intros _. repeat constructor.
  - assert (key x = inj (sk x)) as Kx by (apply Hk; apply list_elem_of_here).
    assert (key y = inj (sk y)) as Ky
      by (apply Hk; apply list_elem_of_further, list_elem_of_here).
    cbn [insert_desc]. rewrite Kx, Ky, gt_inj. cbn [rbind].
    destruct (lt (sk x) (sk y)) eqn:G.
    + destruct IH as (l' & -> & Hperm & Hsorted).
      { intros z Hz. apply Hk. apply elem_of_cons in Hz as [->|Hz];
          [apply list_elem_of_here|now do 2 apply list_elem_of_further]. }
      cbn [rbind]. exists (y :: l'). split; [reflexivity|]. split.
      * rewrite Hperm. apply perm_swap.
      * intros Hs. apply StronglySorted_inv in Hs as [Hs Hy].
        constructor; [now apply Hsorted|].
        rewrite Hperm. constructor; [now apply lt_asym|exact Hy].
    + exists (x :: y :: l). split; [reflexivity|]. split; [reflexivity|].
      intros Hs. constructor; [exact Hs|].
      constructor; [exact G|].
      apply StronglySorted_inv in Hs as [_ Hy].
      eapply Forall_impl; [exact Hy|].
      intros z Hz. now apply (ge_trans _ (sk y)).
Qed.

Lemma py_sorted_desc_ordered (xs : list A) :
  (forall x, x ∈ xs -> key x = inj (sk x)) ->
  exists l,
    py_sorted_desc key xs = Ok l /\
    Permutation l xs /\
    StronglySorted (fun a b => lt (sk a) (sk b) = false) l.
Proof.
  induction xs as [|x xs IH]; intros Hk.
  - exists []. split; [reflexivity|]. split; [reflexivity|constructor].
  - destruct IH as (l & Hl & Hperm & Hs).
    { intros y Hy. apply Hk. now apply list_elem_of_further. }
    destruct (insert_desc_ordered x l) as (l' & Hl' & Hperm' & Hs').
    { intros y Hy. apply Hk. apply elem_of_cons in Hy as [->|Hy];
        [apply list_elem_of_here|].
      apply list_elem_of_further. now rewrite <- Hperm. }
    exists l'. cbn [py_sorted_desc]. rewrite Hl. cbn [rbind].
    split; [exact Hl'|]. split; [|now apply Hs'].
    rewrite Hperm'. now constructor.
Qed.

End MaxOrdered.

Lemma py_max_strings {A : Type} (key : A -> scalar) (sk : A -> string)
    (xs : list A) :
  xs <> [] ->
  (forall x, x ∈ xs -> key x = SStr (sk x)) ->
  exists i best,
    py_max key xs = Ok best /\
    xs !! i = Some best /\
    (forall y, y ∈ xs -> String.ltb (sk best) (sk y) = false) /\
    (forall j y, xs !! j = Some y -> (j < i)%nat ->
       String.ltb (sk y) (sk best) = true).
Proof.
  apply (py_max_ordered key sk SStr String.ltb).
  - reflexivity.
  - apply string_ltb_irrefl.
  - apply string_ltb_trans.
  - apply string_ltb_le_lt.
Qed.

Lemma py_sorted_desc_strings {A : Type} (key : A -> scalar) (sk : A -> string)
    (xs : list A) :
  (forall x, x ∈ xs -> key x = SStr (sk x)) ->
  exists l,
    py_sorted_desc key xs = Ok l /\
    Permutation l xs /\
    StronglySorted (fun a b => String.ltb (sk a) (sk b) = false) l.
Proof.
  apply (py_sorted_desc_ordered key sk SStr String.ltb).
  - reflexivity.
  - apply string_ltb_irrefl.
  - apply string_ltb_trans.
  - apply string_ltb_le_lt.
Qed.

Lemma py_max_floats {A : Type} (key : A -> scalar) (sk : A -> Q)
    (xs : list A) :
  xs <> [] ->
  (forall x, x ∈ xs -> key x = SFloat (sk x)) ->
  exists i best,
    py_max key xs = Ok best /\
    xs !! i = Some best /\
    (forall y, y ∈ xs -> (sk y <= sk best)%Q) /\
    (forall j y, xs !! j = Some y -> (j < i)%nat -> (sk y < sk best)%Q).
Proof.
  intros Hne Hk.
  destruct (py_max_ordered key sk SFloat Qlt_bool) with (xs := xs)
    as (i & best & M & L & G & F); try assumption.
  - reflexivity.
  - intros a. apply Qlt_bool_false_iff. apply Qle_refl.
  - intros a b c H1 H2. apply Qlt_bool_iff in H1, H2. apply Qlt_bool_iff.
    now apply Qlt_trans with b.
  - intros b z x H1 H2. apply Qlt_bool_false_iff in H1.
    apply Qlt_bool_iff in H2. apply Qlt_bool_iff.
    now apply Qle_lt_trans with b.
  - exists i, best. split; [exact M|]. split; [exact L|]. split.
    + intros y Hy. apply Qlt_bool_false_iff. now apply G.
    + intros j y Hj Lj. apply Qlt_bool_iff. now apply (F j).
Qed.

Lemma timestamp_key_text (h : dict scalar) :
  (exists s, timestamp_key h = SStr s) ->
  timestamp_key h = SStr (timestamp_text h).
Proof. intros [s E]. unfold timestamp_text. now rewrite E. Qed.

(** X14.  [compare_prompt_versions] compares the latest run of each
    version.  When both versions have runs and the timestamps of those runs
    are strings (a record without the key counts as the empty string), the
    record chosen for a version is one of its runs, no run of the version
    has a timestamp above it in the order of strings, and every run of the
    version listed before it in the history has a timestamp strictly below:
    of several runs with the greatest timestamp the first is taken.  The
    output is the comparison of the two chosen records. *)
Theorem compare_uses_latest_runs
    (v1 v2 : string) (history : list (dict scalar)) :
  filter (has_version v1) history <> [] ->
  filter (has_version v2) history <> [] ->
  (forall h, h ∈ history -> has_version v1 h \/ has_version v2 h ->
     exists s, timestamp_key h = SStr s) ->
  exists i1 i2 latest_v1 latest_v2,
    filter (has_version v1) history !! i1 = Some latest_v1 /\
    filter (has_version v2) history !! i2 = Some latest_v2 /\
    (forall h, h ∈ history -> has_version v1 h ->
       String.ltb (timestamp_text latest_v1) (timestamp_text h) = false) /\
    (forall h, h ∈ history -> has_version v2 h ->
       String.ltb (timestamp_text latest_v2) (timestamp_text h) = false) /\
    (forall j h, filter (has_version v1) history !! j = Some h -> (j < i1)%nat ->
       String.ltb (timestamp_text h) (timestamp_text latest_v1) = true) /\
    (forall j h, filter (has_version v2) history !! j = Some h -> (j < i2)%nat ->
       String.ltb (timestamp_text h) (timestamp_text latest_v2) = true) /\
    compare_prompt_versions v1 v2 history =
    comparison_of v1 v2 latest_v1 latest_v2.
Proof.
  intros Hne1 Hne2 Hts.
  destruct (py_max_strings timestamp_key timestamp_text
              (filter (has_version v1) history) Hne1)
    as (i1 & l1 & M1 & L1 & G1 & F1).
  { intros x Hx. apply list_elem_of_filter in Hx as [Hv Hx].
    apply timestamp_key_text. apply Hts; auto. }
  destruct (py_max_strings timestamp_key timestamp_text
              (filter (has_version v2) history) Hne2)
    as (i2 & l2 & M2 & L2 & G2 & F2).
  { intros x Hx. apply list_elem_of_filter in Hx as [Hv Hx].
    apply timestamp_key_text. apply Hts; auto. }
  exists i1, i2, l1, l2.
  split; [exact L1|]. split; [exact L2|].
  split; [intros h Hh Hv; apply G1, list_elem_of_filter; auto|].
  split; [intros h Hh Hv; apply G2, list_elem_of_filter; auto|].
  split; [exact F1|]. split; [exact F2|].
  unfold compare_prompt_versions, comparison_of.
  destruct (filter (has_version v1) history) as [|h1 hs1]; [contradiction|].
  destruct (filter (has_version v2) history) as [|h2 hs2]; [contradiction|].
  rewrite M1, M2. reflexivity.
Qed.

Lemma compare_uses_latest_runs_witness :
  let history :=
    history_entry "run-0003-cccc" "2024-04-03T08:00:00" "v1" 0.7 0.4
      :: sample_history in
  filter (has_version "v1") history <> [] /\
  filter (has_version "v2") history <> [] /\
  exists latest_v1 latest_v2,
    latest_v1 ∈ history /\ latest_v2 ∈ history /\
    (forall h, h ∈ history -> has_version "v1" h ->
       String.ltb (timestamp_text latest_v1) (timestamp_text h) = false) /\
    compare_prompt_versions "v1" "v2" history =
    comparison_of "v1" "v2" latest_v1 latest_v2.
Proof.
  intros history.
  assert (filter (has_version "v1") history <> []) as Hne1.
  { intros E. apply (f_equal length) in E. vm_compute in E. discriminate E. }
  assert (filter (has_version "v2") history <> []) as Hne2.
  { intros E. apply (f_equal length) in E. vm_compute in E. discriminate E. }
  split; [exact Hne1|]. split; [exact Hne2|].
  destruct (compare_uses_latest_runs "v1" "v2" history Hne1 Hne2)
    as (i1 & i2 & l1 & l2 & L1 & L2 & G1 & _ & _ & _ & E).
  { intros h Hh _. subst history.
    repeat (apply elem_of_cons in Hh as [->|Hh]; [eexists; reflexivity|]).
    inversion Hh. }
  exists l1, l2.
  apply list_elem_of_lookup_2 in L1, L2.
  apply list_elem_of_filter in L1 as [_ L1], L2 as [_ L2].
  auto.
Defined.

(** ** The newest export *)

(** X15.  [find_latest_csv] returns nothing exactly when the directory holds
    no CSV file.  Otherwise it returns one of the files, no file of the
    directory is newer than it, and every file listed before it is strictly
    older: of several files with the latest modification time, the first
    that [glob] lists is taken. *)
Theorem find_latest_csv_newest (csv_files : list (string * Q)) :
  match csv_files with
  | [] => find_latest_csv csv_files = Ok None
  | _ =>
      exists i path mtime,
        find_latest_csv csv_files = Ok (Some path) /\
        csv_files !! i = Some (path, mtime) /\
        (forall f, f ∈ csv_files -> (f.2 <= mtime)%Q) /\
        (forall j f, csv_files !! j = Some f -> (j < i)%nat -> (f.2 < mtime)%Q)
  end.
Proof.
  destruct csv_files as [|f0 rest] eqn:E; [reflexivity|].
  rewrite <- E. assert (csv_files <> []) as Hne by (rewrite E; discriminate).
  clear E.
  destruct (py_max_floats (fun f : string * Q => SFloat f.2) snd csv_files Hne)
    as (i & [path mtime] & M & L & G & F); [reflexivity|].
  exists i, path, mtime. unfold find_latest_csv.
  destruct csv_files as [|f1 rest1]; [contradiction|].
  rewrite M. auto.
Qed.

(** ** The verdicts of a comparison *)





(** ** Comparing what the program recorded *)

Lemma record_of_calculated (doc : MetricsDocument) (v : string) :
  calculated doc ->
  has_version v (history_record_of doc) ->
  metrics_get doc "prompt_version" = SStr v /\
  (forall p, p ∈ metrics_to_compare ->
     exists q, metric_value p.1.1 (history_record_of doc) = SFloat q).
Proof.
  intros (py_float & ENTITY_TYPES & now & results & Hd) Hv.
  destruct (completed_rows results) as [|r rest] eqn:E.
  - exfalso. unfold calculate_metrics in Hd. rewrite E in Hd.
    cbn [length Nat.eqb] in Hd. injection Hd as <-.
    change (py_eqb SNone (SStr v) = true) in Hv. discriminate Hv.
  - assert (completed_rows results <> []) as Hne by (rewrite E; discriminate).
    destruct (calculate_metrics_completed_doc py_float ENTITY_TYPES now results Hne)
      as (doc' & em & p50 & p95 & p99 & hour & _ & _ & _ & _ & Hdoc & Hf & _).
    rewrite Hd in Hdoc. injection Hdoc as <-. split.
    + change (py_eqb (metrics_get doc "prompt_version") (SStr v) = true) in Hv.
      destruct (metrics_get doc "prompt_version"); simpl in Hv;
        try discriminate Hv.
      apply String.eqb_eq in Hv. now subst.
    + intros p Hp. unfold metrics_to_compare in Hp.
      repeat (apply elem_of_cons in Hp as [->|Hp];
              [eexists; unfold metric_value; cbn [fst];
               match goal with
               | |- context [dict_get ?k (history_record_of doc)] =>
                   change (dict_get k (history_record_of doc))
                     with (Some (metrics_get doc k))
               end;
               unfold metrics_get; rewrite Hf; reflexivity|]).
      inversion Hp.
Qed.

Lemma compare_loop_floats (metrics : list (string * string * bool))
    (l1 l2 : dict scalar) (out : list line) :
  (forall p, p ∈ metrics -> exists q, metric_value p.1.1 l1 = SFloat q) ->
  (forall p, p ∈ metrics -> exists q, metric_value p.1.1 l2 = SFloat q) ->
  exists rows,
    compare_loop metrics l1 l2 out = (out ++ map MetricLine rows, Ok tt) /\
    length rows = length metrics.
Proof.
  revert out. induction metrics as [|[[key label] hib] rest IH]; intros out H1 H2.
  - exists []. simpl. now rewrite app_nil_r.
  - destruct (H1 (key, label, hib)) as [a Ha]; [apply list_elem_of_here|].
    destruct (H2 (key, label, hib)) as [b Hb]; [apply list_elem_of_here|].
    cbn [fst] in Ha, Hb. cbn [compare_loop]. rewrite Ha, Hb.
    assert (exists m, compare_metric label hib (SFloat a) (SFloat b) = Ok m)
      as [m ->].
    { unfold compare_metric. destruct (shown_as_percentage (SFloat a));
        cbn [as_number rbind]; eauto. }
    destruct (IH (out ++ [MetricLine m])) as (rows & -> & L).
    + intros p Hp. apply H1. now apply list_elem_of_further.
    + intros p Hp. apply H2. now apply list_elem_of_further.
    + exists (m :: rows). split; [|simpl; now rewrite L].
      now rewrite <- app_assoc.
Qed.

(** X17.  A comparison does not raise on a history the program wrote
    itself.  Let the history file be built from nothing by [add_to_history]
    from documents that [calculate_metrics] returned (runs without a
    completed row included: their record carries a null prompt_version and
    is never selected), and let every document with a string for
    prompt_version have a string for timestamp too (both are cells of the
    first row of the file, and a first line too short to have the timestamp
    cell gives a null one, which [max] cannot order against a string).
    Then [compare_prompt_versions] ends normally for any two versions, and
    when both have runs it prints the five header lines, five table lines
    and the closing rule. *)
Theorem comparison_of_own_history
    (docs : list MetricsDocument) (v1 v2 : string) :
  (forall d, d ∈ docs -> calculated d) ->
  (forall d, d ∈ docs ->
     forall v, metrics_get d "prompt_version" = SStr v ->
               exists s, metrics_get d "timestamp" = SStr s) ->
  let history := load_metrics_history (add_all docs None) in
  (compare_prompt_versions v1 v2 history).2 = Ok tt /\
  (filter (has_version v1) history <> [] ->
   filter (has_version v2) history <> [] ->
   exists rows,
     length rows = 5%nat /\
     (compare_prompt_versions v1 v2 history).1 =
     [Rule 60; Title v1 v2; Rule 60; ColumnHeads v1 v2; Rule 70]
       ++ map MetricLine rows ++ [Rule 60]).
Proof.
  intros Hdocs Hstamp history.
  assert (forall h v, h ∈ filter (has_version v) history ->
            (exists s, timestamp_key h = SStr s) /\
            (forall p, p ∈ metrics_to_compare ->
               exists q, metric_value p.1.1 h = SFloat q)) as Hrec.
  { intros h v Hh. apply list_elem_of_filter in Hh as [Hv Hh].
    subst history. destruct (add_all_tail docs None) as (tail & E & _ & R).
    rewrite E in Hh. cbn [load_metrics_history default app] in Hh.
    destruct (R h Hh) as (d & Hd & ->).
    destruct (record_of_calculated d v (Hdocs d Hd) Hv) as [Hpv Hvals].
    split; [|exact Hvals].
    destruct (Hstamp d Hd v Hpv) as [s Hs]. exists s.
    unfold timestamp_key.
    change (dict_get "timestamp" (history_record_of d))
      with (Some (metrics_get d "timestamp")).
    cbn [default from_option id]. exact Hs. }
  assert (forall v, filter (has_version v) history <> [] ->
            exists latest,
              py_max timestamp_key (filter (has_version v) history) = Ok latest /\
              latest ∈ filter (has_version v) history) as Hmax.
  { intros v Hne.
    destruct (py_max_strings timestamp_key timestamp_text
                (filter (has_version v) history) Hne)
      as (i & latest & M & L & _).
    - intros x Hx. apply timestamp_key_text. now apply (Hrec x v).
    - exists latest. split; [exact M|]. now apply list_elem_of_lookup_2 in L. }
  assert (filter (has_version v1) history <> [] ->
          filter (has_version v2) history <> [] ->
          exists rows,
            length rows = 5%nat /\
            compare_prompt_versions v1 v2 history =
            ([Rule 60; Title v1 v2; Rule 60; ColumnHeads v1 v2; Rule 70]
               ++ map MetricLine rows ++ [Rule 60], Ok tt)) as Hfull.
  { intros Hne1 Hne2.
    destruct (Hmax v1 Hne1) as (l1 & M1 & L1).
    destruct (Hmax v2 Hne2) as (l2 & M2 & L2).
    destruct (compare_loop_floats metrics_to_compare l1 l2
                [Rule 60; Title v1 v2; Rule 60; ColumnHeads v1 v2; Rule 70])
      as (rows & Hloop & Hlen).
    - apply (Hrec l1 v1 L1).
    - apply (Hrec l2 v2 L2).
    - exists rows. split; [exact Hlen|].
      unfold compare_prompt_versions.
      destruct (filter (has_version v1) history) as [|h1 hs1]; [contradiction|].
      destruct (filter (has_version v2) history) as [|h2 hs2]; [contradiction|].
      rewrite M1, M2, Hloop. now rewrite <- app_assoc. }
  split.
  - destruct (filter (has_version v1) history) as [|h1 hs1] eqn:E1.
    { unfold compare_prompt_versions. now rewrite E1. }
    destruct (filter (has_version v2) history) as [|h2 hs2] eqn:E2.
    { unfold compare_prompt_versions. now rewrite E1, E2. }
    destruct Hfull as (rows & _ & ->); [discriminate|discriminate|reflexivity].
  - intros Hne1 Hne2. destruct (Hfull Hne1 Hne2) as (rows & L & ->).
    exists rows. split; [exact L|reflexivity].
Qed.

Lemma comparison_of_own_history_witness :
  exists d1 d2 rows,
    calculate_metrics decimal_float default_entity_types "2024-05-01T10:00:00"
      [stamped_row] = Ok d1 /\
    calculate_metrics decimal_float default_entity_types "2024-05-03T10:00:00"
      [stamped_row_v2] = Ok d2 /\
    load_metrics_history (add_all [d1; d2] None) =
      [history_record_of d1; history_record_of d2] /\
    has_version "v1" (history_record_of d1) /\
    has_version "v2" (history_record_of d2) /\
    length rows = 5%nat /\
    compare_prompt_versions "v1" "v2"
       (load_metrics_history (add_all [d1; d2] None)) =
    ([Rule 60; Title "v1" "v2"; Rule 60; ColumnHeads "v1" "v2"; Rule 70]
       ++ map MetricLine rows ++ [Rule 60], Ok tt).
Proof.
  assert (completed_rows [stamped_row] <> []) as Hne1.
  { intros E. apply (f_equal length) in E. vm_compute in E. discriminate E. }
  assert (completed_rows [stamped_row_v2] <> []) as Hne2.
  { intros E. apply (f_equal length) in E. vm_compute in E. discriminate E. }
  destruct (calculate_metrics_completed_doc decimal_float default_entity_types
              "2024-05-01T10:00:00" [stamped_row] Hne1)
    as (d1 & em1 & a1 & b1 & c1 & hour1 & _ & _ & _ & _ & Hd1 & Hf1 & _).
  destruct (calculate_metrics_completed_doc decimal_float default_entity_types
              "2024-05-03T10:00:00" [stamped_row_v2] Hne2)
    as (d2 & em2 & a2 & b2 & c2 & hour2 & _ & _ & _ & _ & Hd2 & Hf2 & _).
  assert (metrics_get d1 "run_id" = SStr "a1b2c3d4e5f6") as Hid1
    by (unfold metrics_get; rewrite Hf1; reflexivity).
  assert (metrics_get d2 "run_id" = SStr "b2c3d4e5f6a7") as Hid2
    by (unfold metrics_get; rewrite Hf2; reflexivity).
  assert (metrics_get d1 "prompt_version" = SStr "v1") as Hpv1
    by (unfold metrics_get; rewrite Hf1; reflexivity).
  assert (metrics_get d2 "prompt_version" = SStr "v2") as Hpv2
    by (unfold metrics_get; rewrite Hf2; reflexivity).
  assert (exists s, metrics_get d1 "timestamp" = SStr s) as Hts1
    by (unfold metrics_get; rewrite Hf1; eexists; reflexivity).
  assert (exists s, metrics_get d2 "timestamp" = SStr s) as Hts2
    by (unfold metrics_get; rewrite Hf2; eexists; reflexivity).
  assert (has_version "v1" (history_record_of d1)) as Hv1.
  { change (py_eqb (metrics_get d1 "prompt_version") (SStr "v1") = true).
    rewrite Hpv1. reflexivity. }
  assert (has_version "v2" (history_record_of d2)) as Hv2.
  { change (py_eqb (metrics_get d2 "prompt_version") (SStr "v2") = true).
    rewrite Hpv2. reflexivity. }
  assert (load_metrics_history (add_all [d1; d2] None) =
          [history_record_of d1; history_record_of d2]) as Hhist.
  { unfold add_all. cbn [fold_left].
    rewrite (add_to_history_fresh d1 None)
      by (rewrite Hid1; reflexivity).
    cbn [fst load_metrics_history default from_option id app].
    rewrite add_to_history_fresh.
    - reflexivity.
    - cbn [load_metrics_history default from_option id map in_ids existsb].
      rewrite history_record_run_id, Hid1, Hid2. reflexivity. }
  assert (forall d, d ∈ [d1; d2] -> calculated d) as Hcalc.
  { intros d Hd. apply elem_of_cons in Hd as [->|Hd];
      [|apply list_elem_of_singleton in Hd; subst d];
      repeat eexists; eassumption. }
  assert (forall d, d ∈ [d1; d2] ->
            forall v, metrics_get d "prompt_version" = SStr v ->
                      exists s, metrics_get d "timestamp" = SStr s) as Hstamp.
  { intros d Hd v _. apply elem_of_cons in Hd as [->|Hd];
      [exact Hts1|apply list_elem_of_singleton in Hd; subst d; exact Hts2]. }
  destruct (comparison_of_own_history [d1; d2] "v1" "v2" Hcalc Hstamp)
    as [Hok Hfull].
  destruct Hfull as (rows & Hlen & Hout).
  - rewrite Hhist. intros E.
    assert (history_record_of d1
              ∈ filter (has_version "v1")
                  [history_record_of d1; history_record_of d2]) as Hin
      by (apply list_elem_of_filter; split;
          [exact Hv1|apply list_elem_of_here]).
    rewrite E in Hin. inversion Hin.
  - rewrite Hhist. intros E.
    assert (history_record_of d2
              ∈ filter (has_version "v2")
                  [history_record_of d1; history_record_of d2]) as Hin
      by (apply list_elem_of_filter; split;
          [exact Hv2|apply list_elem_of_further, list_elem_of_here]).
    rewrite E in Hin. inversion Hin.
  - exists d1, d2, rows. split; [exact Hd1|]. split; [exact Hd2|].
    split; [exact Hhist|]. split; [exact Hv1|]. split; [exact Hv2|].
    split; [exact Hlen|].
    destruct (compare_prompt_versions "v1" "v2"
                (load_metrics_history (add_all [d1; d2] None))) as [out r].
    cbn [fst snd] in Hok, Hout. now subst.
Defined.

(** ** A value that is not a number *)

Lemma compare_metric_raises (label : string) (higher_is_better : bool)
    (val1 val2 : scalar) (e : exn) :
  as_number val1 = Raise e \/
  (exists x1, as_number val1 = Ok x1) /\ as_number val2 = Raise e ->
  compare_metric label higher_is_better val1 val2 = Raise e.
Proof.
  unfold compare_metric.
  intros [H|[[x1 H1] H2]]; destruct (shown_as_percentage val1);
    first [ now rewrite H | now rewrite H1, H2 ].
Qed.

Lemma compare_loop_stops (before after : list (string * string * bool))
    (p : string * string * bool) (l1 l2 : dict scalar) (out : list line)
    (e : exn) :
  (forall p', p' ∈ before ->
     exists m, compare_metric p'.1.2 p'.2 (metric_value p'.1.1 l1)
                 (metric_value p'.1.1 l2) = Ok m) ->
  compare_metric p.1.2 p.2 (metric_value p.1.1 l1) (metric_value p.1.1 l2)
    = Raise e ->
  exists rows,
    compare_loop (before ++ p :: after) l1 l2 out
    = (out ++ map MetricLine rows, Raise e) /\
    length rows = length before.
Proof.
  revert out. induction before as [|[[key label] hib] rest IH]; intros out Hb Hp.
  - exists []. destruct p as [[key label] hib]. cbn [fst snd] in Hp.
    cbn [app compare_loop]. rewrite Hp. simpl. now rewrite app_nil_r.
  - destruct (Hb (key, label, hib)) as [m Hm]; [apply list_elem_of_here|].
    cbn [fst snd] in Hm.
    destruct (IH (out ++ [MetricLine m])) as (rows & E & L).
    + intros p' Hp'. apply Hb. now apply list_elem_of_further.
    + exact Hp.
    + exists (m :: rows). split; [|simpl; now rewrite L].
      change ((((key, label, hib) :: rest) ++ p :: after))
        with ((key, label, hib) :: (rest ++ p :: after)).
      cbn [compare_loop]. rewrite Hm, E. now rewrite <- app_assoc.
Qed.

(** X18.  A comparison stops at the first metric whose value, in the latest
    record of either version, is not a number.  The header and the table
    lines of the metrics before it are printed, nothing else (no closing
    rule), and the call raises: [TypeError] when the value is null,
    [ValueError] when it is a string; the first version's value is looked
    at first. *)
Theorem comparison_stops_at_non_number
    (v1 v2 : string) (history : list (dict scalar))
    (latest_v1 latest_v2 : dict scalar)
    (before after : list (string * string * bool))
    (key label : string) (higher_is_better : bool) (e : exn) :
  py_max timestamp_key (filter (has_version v1) history) = Ok latest_v1 ->
  py_max timestamp_key (filter (has_version v2) history) = Ok latest_v2 ->
  metrics_to_compare = before ++ (key, label, higher_is_better) :: after ->
  (forall p, p ∈ before ->
     (exists x1, as_number (metric_value p.1.1 latest_v1) = Ok x1) /\
     (exists x2, as_number (metric_value p.1.1 latest_v2) = Ok x2)) ->
  (match metric_value key latest_v1 with
   | SNone => e = TypeError
   | SStr _ => e = ValueError
   | _ => match metric_value key latest_v2 with
          | SNone => e = TypeError
          | SStr _ => e = ValueError
          | _ => False
          end
   end) ->
  exists rows,
    length rows = length before /\
    compare_prompt_versions v1 v2 history =
    ([Rule 60; Title v1 v2; Rule 60; ColumnHeads v1 v2; Rule 70]
       ++ map MetricLine rows, Raise e).
Proof.
  intros M1 M2 Hsplit Hbefore Hbad.
  destruct (compare_loop_stops before after (key, label, higher_is_better)
              latest_v1 latest_v2
              [Rule 60; Title v1 v2; Rule 60; ColumnHeads v1 v2; Rule 70] e)
    as (rows & E & L).
  - intros p Hp. destruct (Hbefore p Hp) as [[x1 H1] [x2 H2]].
    unfold compare_metric. rewrite H1, H2.
    destruct (shown_as_percentage _); cbn [rbind]; eauto.
  - apply compare_metric_raises. cbn [fst snd].
    destruct (metric_value key latest_v1) as [|z1|q1|s1];
      [left; now subst e|right|right|left; now subst e];
      (split; [eexists; reflexivity|]);
      destruct (metric_value key latest_v2) as [|z2|q2|s2];
      first [ contradiction | now subst e ].
  - exists rows. split; [exact L|].
    unfold compare_prompt_versions.
    destruct (filter (has_version v1) history) as [|h1 hs1];
      [discriminate M1|].
    destruct (filter (has_version v2) history) as [|h2 hs2];
      [discriminate M2|].
    rewrite M1, M2, Hsplit, E. reflexivity.
Qed.

Lemma comparison_stops_at_non_number_witness :
  let broken :=
    [("run_id", SStr "run-0009-zzzz");
     ("timestamp", SStr "2024-04-09T08:00:00");
     ("prompt_version", SStr "v3");
     ("entity_type_accuracy", SFloat 0.5);
     ("title_keyword_overlap_avg", SNone)] in
  exists rows,
    length rows = 1%nat /\
    compare_prompt_versions "v1" "v3" (broken :: sample_history) =
    ([Rule 60; Title "v1" "v3"; Rule 60; ColumnHeads "v1" "v3"; Rule 70]
       ++ map MetricLine rows, Raise TypeError).
Proof.
  intros broken.
  apply (comparison_stops_at_non_number "v1" "v3" (broken :: sample_history)
           (history_entry "run-0001-aaaa" "2024-04-01T08:00:00" "v1" 0.8 0.5)
           broken
           [("entity_type_accuracy", "Entity Type Accuracy", true)]
           [("start_hour_accuracy", "Start Hour Accuracy", true);
            ("expected_calibration_error", "Calibration Error", false);
            ("avg_latency_ms", "Avg Latency (ms)", false)]
           "title_keyword_overlap_avg" "Title Keyword Overlap" true TypeError).
  - reflexivity.
  - reflexivity.
  - reflexivity.
  - intros p Hp. apply list_elem_of_singleton in Hp. subst p.
    split; eexists; reflexivity.
  - reflexivity.
Defined.

(** ** The console report *)

Lemma run_prints_app {L : Type} (items : list (result L))
    (lines out : list L) :
  items = map Ok lines ->
  run_prints items out = (out ++ lines, Ok tt).
Proof.
  intros ->. revert out. induction lines as [|l lines IH]; intros out.
  - simpl. now rewrite app_nil_r.
  - cbn [map run_prints]. rewrite IH. now rewrite <- app_assoc.
Qed.

Lemma run_prints_all_ok {L : Type} (items : list (result L)) :
  Forall (fun i => exists l, i = Ok l) items ->
  exists lines, items = map Ok lines.
Proof.
  induction 1 as [|i items [l ->] _ [lines ->]].
  - now exists [].
  - now exists (l :: lines).
Qed.

Lemma run_prints_inv {L : Type} (items : list (result L))
    (out lines : list L) :
  run_prints items out = (lines, Ok tt) ->
  exists printed, items = map Ok printed /\ lines = out ++ printed.
Proof.
  revert out. induction items as [|[l|e] items IH]; intros out H.
  - injection H as <-. exists []. now rewrite app_nil_r.
  - cbn [run_prints] in H. destruct (IH _ H) as (printed & -> & ->).
    exists (l :: printed). now rewrite <- app_assoc.
  - discriminate H.
Qed.

Lemma class_loop_spec (entity_metrics : dict class_metrics)
    (types : list string) (macro_f1 : Q) (classes_with_support : nat)
    (out : list report_line) :
  let supported :=
    List.filter (fun t => Nat.ltb 0 (support (class_or_zero entity_metrics t)))
                types in
  class_loop entity_metrics types macro_f1 classes_with_support out =
  (fold_left Qplus
     (map (fun t => f1 (class_or_zero entity_metrics t)) supported) macro_f1,
   (classes_with_support + length supported)%nat,
   out ++ map (fun t =>
                 let m := class_or_zero entity_metrics t in
                 ClassLine t (precision m) (recall m) (f1 m) (support m))
              types).
Proof.
  cbv zeta. revert macro_f1 classes_with_support out.
  induction types as [|t types IH]; intros macro_f1 classes out.
  - simpl. now rewrite app_nil_r, Nat.add_0_r.
  - cbn [class_loop List.filter].
    destruct (Nat.ltb 0 (support (class_or_zero entity_metrics t))) eqn:E;
      rewrite IH; cbn [map fold_left length]; rewrite <- app_assoc;
      cbn [app]; f_equal; f_equal; lia.
Qed.

Lemma map_Ok_inj {A : Type} (a b : list A) :
  map (@Ok A) a = map (@Ok A) b -> a = b.
Proof.
  revert b. induction a as [|x a IH]; intros [|y b] H; try discriminate H.
  - reflexivity.
  - cbn [map] in H. injection H as -> H. f_equal. now apply IH.
Qed.

Lemma plain_of_items (a : list report_line) (items : list (result report_line)) :
  map Ok a = items ->
  Forall (fun i => match i with
                   | Ok l => plain_line l = true
                   | Raise _ => True
                   end) items ->
  Forall (fun l => plain_line l = true) a.
Proof.
  intros <-. induction a as [|l a IH]; intros H; [constructor|].
  inversion H as [|i items Hl Ha]; subst. constructor; [exact Hl|now apply IH].
Qed.

Lemma percent_plain (label key : string) (metrics : MetricsDocument) :
  match percent label key metrics with
  | Ok l => plain_line l = true
  | Raise _ => True
  end.
Proof. unfold percent. destruct (as_number _); [reflexivity|exact I]. Qed.

Lemma fixed_plain (label key : string) (digits : nat)
    (metrics : MetricsDocument) :
  match fixed label key digits metrics with
  | Ok l => plain_line l = true
  | Raise _ => True
  end.
Proof. unfold fixed. destruct (as_number _); [reflexivity|exact I]. Qed.

(** The shape of a report that was printed to its end: plain lines, the
    per-class lines, the macro F1 line when a configured class has support,
    the confusion matrix, plain lines, the calibration bins, plain lines. *)
Lemma report_lines_shape (ENTITY_TYPES : list string)
    (metrics : MetricsDocument) (lines : list report_line) :
  print_metrics_report ENTITY_TYPES metrics = (lines, Ok tt) ->
  let entity_metrics := default [] (entity_type_metrics metrics) in
  exists head middle tail,
    lines =
      head
      ++ class_lines_of ENTITY_TYPES entity_metrics
      ++ (if Nat.ltb 0 (length (supported_types ENTITY_TYPES entity_metrics))
          then [MacroF1Line (macro_f1_of ENTITY_TYPES entity_metrics)]
          else [])
      ++ [Caption "Confusion Matrix:"]
      ++ matrix_lines ENTITY_TYPES (default [] (confusion_matrix metrics))
      ++ middle
      ++ bin_lines (default [] (confidence_bins metrics))
      ++ tail /\
    Forall (fun l => plain_line l = true) head /\
    Forall (fun l => plain_line l = true) middle /\
    Forall (fun l => plain_line l = true) tail.
Proof.
  intros H em. unfold print_metrics_report in H.
  apply run_prints_inv in H as (printed & Hitems & ->). cbn [app].
  assert (class_loop em ENTITY_TYPES 0 0 [] =
          (py_sum (map (fun t => f1 (class_or_zero em t))
                       (supported_types ENTITY_TYPES em)),
           length (supported_types ENTITY_TYPES em),
           class_lines_of ENTITY_TYPES em)) as Hloop.
  { rewrite class_loop_spec. reflexivity. }
  unfold report_items in Hitems. fold em in Hitems.
  rewrite Hloop in Hitems. cbv beta iota zeta in Hitems.
  change (py_sum (map (fun t => f1 (class_or_zero em t))
                      (supported_types ENTITY_TYPES em))
          / Qnat (length (supported_types ENTITY_TYPES em)))%Q
    with (macro_f1_of ENTITY_TYPES em) in Hitems.
  symmetry in Hitems.
  apply map_eq_app in Hitems as (head & r1 & -> & Hhead & Hitems).
  apply map_eq_app in Hitems as (cl & r2 & -> & Hcl & Hitems).
  apply map_eq_app in Hitems as (mp & r3 & -> & Hmp & Hitems).
  apply map_eq_app in Hitems as (cap & r4 & -> & Hcap & Hitems).
  apply map_eq_app in Hitems as (ml & r5 & -> & Hml & Hitems).
  apply map_eq_app in Hitems as (s2 & r6 & -> & Hs2 & Hitems).
  apply map_eq_app in Hitems as (hr & r7 & -> & Hhr & Hitems).
  apply map_eq_app in Hitems as (s3 & r8 & -> & Hs3 & Hitems).
  apply map_eq_app in Hitems as (bl & tail & -> & Hbl & Htail).
  apply map_Ok_inj in Hcl, Hml, Hbl. subst cl ml bl.
  assert (mp = if Nat.ltb 0 (length (supported_types ENTITY_TYPES em))
               then [MacroF1Line (macro_f1_of ENTITY_TYPES em)] else []) as ->.
  { apply map_Ok_inj. rewrite Hmp.
    now destruct (Nat.ltb 0 (length (supported_types ENTITY_TYPES em))). }
  assert (cap = [Caption "Confusion Matrix:"]) as ->
    by (now apply map_Ok_inj).
  exists head, (s2 ++ hr ++ s3), tail.
  split; [now rewrite <- !app_assoc|].
  split; [|split].
  - apply (plain_of_items _ _ Hhead).
    repeat constructor; first [ apply percent_plain | idtac ].
    destruct (py_prefix8 _); [reflexivity|exact I].
  - rewrite !Forall_app. split; [|split].
    + apply (plain_of_items _ _ Hs2).
      repeat constructor; apply percent_plain.
    + apply (plain_of_items _ _ Hhr).
      destruct (metrics_get metrics "avg_hour_error");
        repeat constructor.
    + apply (plain_of_items _ _ Hs3).
      repeat constructor;
        first [ apply percent_plain | apply fixed_plain | idtac ].
  - apply (plain_of_items _ _ Htail).
    repeat constructor; first [ apply fixed_plain | idtac ].
Qed.

Lemma percent_ok (label key : string) (metrics : MetricsDocument) :
  (exists l, percent label key metrics = Ok l) <->
  (exists x, as_number (metric_value key (fields metrics)) = Ok x).
Proof.
  unfold percent. destruct (as_number _) as [x|e]; cbn [rbind]; split;
    intros [y H]; first [ discriminate H | eauto ].
Qed.

Lemma fixed_ok (label key : string) (digits : nat)
    (metrics : MetricsDocument) :
  (exists l, fixed label key digits metrics = Ok l) <->
  (exists x, as_number (metric_value key (fields metrics)) = Ok x).
Proof.
  unfold fixed. destruct (as_number _) as [x|e]; cbn [rbind]; split;
    intros [y H]; first [ discriminate H | eauto ].
Qed.

Lemma run_id_ok (v : scalar) :
  (exists l, (let* run := py_prefix8 v in Ok (RunIdLine run)) = Ok l) <->
  (exists s, v = SStr s).
Proof.
  destruct v; cbn [py_prefix8 rbind]; split; intros [y H];
    first [ discriminate H | eauto ].
Qed.

Lemma hour_items_ok (v : scalar) :
  Forall (fun i : result report_line => exists l, i = Ok l)
    (match v with
     | SNone => []
     | SInt z =>
         [let* x := as_number (SInt z) in Ok (FixedLine "Avg Hour Error" 1 x)]
     | SFloat q =>
         [let* x := as_number (SFloat q) in Ok (FixedLine "Avg Hour Error" 1 x)]
     | SStr s =>
         [let* x := as_number (SStr s) in Ok (FixedLine "Avg Hour Error" 1 x)]
     end) <->
  (v = SNone \/ exists x, as_number v = Ok x).
Proof.
  destruct v as [|z|q|s]; cbn [as_number rbind]; split; intros H;
    try (left; reflexivity); try (right; eauto; fail);
    try (constructor; eauto; fail).
  - inversion H as [|i l [y Hy] _]; discriminate Hy.
  - destruct H as [H|[x H]]; discriminate H.
Qed.

Lemma Forall_map_Ok (lines : list report_line) :
  Forall (fun i : result report_line => exists l, i = Ok l) (map Ok lines).
Proof. induction lines; constructor; eauto. Qed.

Lemma report_items_ok (ENTITY_TYPES : list string) (metrics : MetricsDocument) :
  Forall (fun i => exists l, i = Ok l) (report_items ENTITY_TYPES metrics) <->
  printable metrics.
Proof.
  unfold report_items, printable.
  destruct (class_loop _ _ _ _ _) as [[macro_f1 classes] class_lines].
  rewrite !Forall_app, hour_items_ok. split.
  - intros (H1 & _ & _ & _ & _ & H2 & Hh & H3 & _ & H4).
    repeat match goal with
      | H : Forall _ (_ :: _) |- _ => apply Forall_cons in H as [? H]
      end.
    repeat match goal with
      | H : exists l, percent _ _ _ = Ok l |- _ => apply percent_ok in H
      | H : exists l, fixed _ _ _ _ = Ok l |- _ => apply fixed_ok in H
      | H : exists l, rbind (py_prefix8 _) _ = Ok l |- _ => apply run_id_ok in H
      end.
    split; [assumption|]. split; [|exact Hh].
    intros k Hk. unfold formatted_keys in Hk.
    repeat (apply elem_of_cons in Hk as [->|Hk]; [assumption|]).
    inversion Hk.
  - intros (Hid & Hnum & Hh).
    assert (forall label key,
              key ∈ formatted_keys ->
              exists l, percent label key metrics = Ok l) as Hp.
    { intros label key Hk. apply percent_ok. now apply Hnum. }
    assert (forall label key digits,
              key ∈ formatted_keys ->
              exists l, fixed label key digits metrics = Ok l) as Hf.
    { intros label key digits Hk. apply fixed_ok. now apply Hnum. }
    assert (forall key, bool_decide (key ∈ formatted_keys) = true ->
              key ∈ formatted_keys) as Hdec
      by (intros key; apply bool_decide_eq_true_1).
    repeat split;
      try apply Forall_map_Ok; try exact Hh;
      try (destruct (Nat.ltb 0 classes); repeat constructor; eauto; fail);
      repeat constructor;
      first [ apply Hp; apply Hdec; reflexivity
            | apply Hf; apply Hdec; reflexivity
            | apply run_id_ok; exact Hid
            | unfold shown; eauto
            | eauto ].
Qed.

(** ** What the report shows *)

Lemma run_prints_ok_iff (items : list (result report_line)) :
  (run_prints items []).2 = Ok tt <->
  Forall (fun i => exists l, i = Ok l) items.
Proof.
  split.
  - intros H. destruct (run_prints items []) as [lines r] eqn:E.
    cbn [snd] in H. subst r.
    apply run_prints_inv in E as (printed & -> & _). apply Forall_map_Ok.
  - intros H. apply run_prints_all_ok in H as [lines ->].
    now rewrite (run_prints_app _ lines []).
Qed.

Lemma omap_none {A B : Type} (f : A -> option B) (l : list A) :
  Forall (fun x => f x = None) l -> omap f l = [].
Proof.
  induction 1 as [|x l Hx _ IH]; [reflexivity|].
  simpl. rewrite Hx. exact IH.
Qed.

Lemma omap_plain {B : Type} (f : report_line -> option B)
    (l : list report_line) :
  (forall x, plain_line x = true -> f x = None) ->
  Forall (fun x => plain_line x = true) l -> omap f l = [].
Proof.
  intros Hf H. apply omap_none. eapply Forall_impl; [exact H|exact Hf].
Qed.


Lemma class_lines_types (ENTITY_TYPES : list string)
    (entity_metrics : dict class_metrics) :
  omap class_line_type (class_lines_of ENTITY_TYPES entity_metrics)
  = ENTITY_TYPES.
Proof.
  unfold class_lines_of. induction ENTITY_TYPES as [|t ts IH];
    [reflexivity|]. cbn [map]. simpl. unfold omap in IH. now rewrite IH.
Qed.

Lemma calculated_printable (doc : MetricsDocument) :
  calculated doc -> printable doc.
Proof.
  intros (py_float & ENTITY_TYPES & now & results & Hd).
  assert (forall key, bool_decide (key ∈ formatted_keys) = true ->
            key ∈ formatted_keys) as Hdec
    by (intros key; apply bool_decide_eq_true_1).
  destruct (completed_rows results) as [|r rest] eqn:E.
  - unfold calculate_metrics in Hd. rewrite E in Hd.
    cbn [length Nat.eqb] in Hd. injection Hd as <-.
    split; [eexists; reflexivity|]. split; [|left; reflexivity].
    intros k Hk. unfold formatted_keys in Hk.
    repeat (apply elem_of_cons in Hk as [->|Hk]; [eexists; reflexivity|]).
    inversion Hk.
  - assert (completed_rows results <> []) as Hne by (rewrite E; discriminate).
    pose proof (calculate_metrics_avg_hour_error py_float ENTITY_TYPES now
                  results doc Hne Hd) as Hhour.
    destruct (calculate_metrics_completed_doc py_float ENTITY_TYPES now results Hne)
      as (doc' & em & p50 & p95 & p99 & hour & _ & _ & _ & _ & Hdoc & Hf & _).
    rewrite Hd in Hdoc. injection Hdoc as <-.
    split; [|split].
    + rewrite Hf. eexists. reflexivity.
    + intros k Hk. unfold formatted_keys in Hk. rewrite Hf.
      repeat (apply elem_of_cons in Hk as [->|Hk]; [eexists; reflexivity|]).
      inversion Hk.
    + unfold metrics_get. rewrite Hhour. cbn [default from_option id].
      destruct (hour_errors_of (completed_rows results)); [now left|].
      right. eexists. reflexivity.
Qed.

(** X19.  The report is printed to its end exactly for the printable
    documents: [print_metrics_report] raises if and only if the run_id is
    present and not a string, or one of the fifteen values it formats as a
    number is present and not a number, or the average hour error is a
    string.  The configured types and the tables of the document play no
    part in it. *)
Theorem report_completes_iff
    (ENTITY_TYPES : list string) (metrics : MetricsDocument) :
  (print_metrics_report ENTITY_TYPES metrics).2 = Ok tt <-> printable metrics.
Proof.
  unfold print_metrics_report. rewrite run_prints_ok_iff.
  apply report_items_ok.
Qed.

(** X20.  The report of a document that [calculate_metrics] returned and
    whose run_id is a string, or absent as in the document of a run without
    a completed row, does not raise, whatever types are configured when it
    is printed; and it has one per-class line for every configured type, in
    the configured order, whether or not the document has an entry for the
    type.  (The run_id is the cell of the first row of the file; a first
    line too short to have it gives a null run_id, and slicing it raises.) *)
Theorem report_of_calculated
    (ENTITY_TYPES : list string) (metrics : MetricsDocument) :
  calculated metrics ->
  (exists s,
     default (SStr "N/A") (dict_get "run_id" (fields metrics)) = SStr s) ->
  exists lines,
    print_metrics_report ENTITY_TYPES metrics = (lines, Ok tt) /\
    omap class_line_type lines = ENTITY_TYPES.
Proof.
  intros Hc Hid. apply calculated_printable in Hc.
  destruct Hc as (_ & Hkeys & Hhour).
  assert (printable metrics) as Hc by (split; [exact Hid|split; assumption]).
  clear Hid Hkeys Hhour.
  apply (report_items_ok ENTITY_TYPES) in Hc.
  apply run_prints_ok_iff in Hc.
  destruct (print_metrics_report ENTITY_TYPES metrics) as [lines r] eqn:E.
  unfold print_metrics_report in Hc. unfold print_metrics_report in E.
  rewrite E in Hc. cbn [snd] in Hc. subst r.
  exists lines. split; [reflexivity|].
  destruct (report_lines_shape ENTITY_TYPES metrics lines E)
    as (head & middle & tail & -> & Hh & Hm & Ht).
  assert (forall x, plain_line x = true -> class_line_type x = None) as Hplain
    by (intros []; first [ reflexivity | discriminate ]).
  rewrite !omap_app.
  rewrite (omap_plain _ head Hplain Hh), (omap_plain _ middle Hplain Hm),
    (omap_plain _ tail Hplain Ht).
  assert (omap class_line_type
            (class_lines_of ENTITY_TYPES
               (default [] (entity_type_metrics metrics))) = ENTITY_TYPES) as ->.
  { apply class_lines_types. }
  assert (forall ls : list report_line,
            Forall (fun x => class_line_type x = None) ls ->
            omap class_line_type ls = []) as Hnone
    by (intros ls; apply omap_none).
  match goal with
  | |- context [omap class_line_type (if ?c then ?a else ?b)] =>
      rewrite (Hnone (if c then a else b)) by (destruct c; repeat constructor)
  end.
  rewrite (Hnone (matrix_lines _ _)).
  2:{ unfold matrix_lines. destruct (default [] (confusion_matrix metrics));
        [constructor|]. destruct (types_present _ _); [constructor|].
      constructor; [reflexivity|]. apply Forall_map, Forall_true. reflexivity. }
  rewrite (Hnone (bin_lines _)).
  2:{ unfold bin_lines. destruct (default [] (confidence_bins metrics));
        repeat constructor. }
  cbn. now rewrite app_nil_r.
Qed.

Lemma report_of_calculated_witness :
  exists doc lines,
    calculate_metrics decimal_float default_entity_types "2024-05-01T10:00:00"
      [stamped_row] = Ok doc /\
    metrics_get doc "run_id" = SStr "a1b2c3d4e5f6" /\
    metrics_get doc "completed_tests" = SInt 1 /\
    print_metrics_report default_entity_types doc = (lines, Ok tt) /\
    omap class_line_type lines = default_entity_types.
Proof.
  assert (completed_rows [stamped_row] <> []) as Hne.
  { intros E. apply (f_equal length) in E. vm_compute in E. discriminate E. }
  destruct (calculate_metrics_completed_doc decimal_float default_entity_types
              "2024-05-01T10:00:00" [stamped_row] Hne)
    as (doc & em & p50 & p95 & p99 & hour & _ & _ & _ & _ & Hdoc & Hf & _).
  assert (calculated doc) as Hc by (repeat eexists; exact Hdoc).
  assert (exists s,
            default (SStr "N/A") (dict_get "run_id" (fields doc)) = SStr s)
    as Hid by (rewrite Hf; eexists; reflexivity).
  destruct (report_of_calculated default_entity_types doc Hc Hid)
    as (lines & Hp & Hl).
  exists doc, lines. split; [exact Hdoc|].
  split; [unfold metrics_get; rewrite Hf; reflexivity|].
  split; [unfold metrics_get; rewrite Hf; reflexivity|].
  split; [exact Hp|exact Hl].
Defined.

(** ** The tables of the report *)

Lemma report_printed (ENTITY_TYPES : list string) (metrics : MetricsDocument) :
  calculated metrics ->
  exists lines, print_metrics_report ENTITY_TYPES metrics = (lines, Ok tt).
Proof.
  intros Hc. apply calculated_printable in Hc.
  apply (report_items_ok ENTITY_TYPES) in Hc.
  apply run_prints_ok_iff in Hc.
  destruct (print_metrics_report ENTITY_TYPES metrics) as [lines r] eqn:E.
  unfold print_metrics_report in Hc, E.
  rewrite E in Hc. cbn [snd] in Hc. subst r. now exists lines.
Qed.












(** ** The command line: what a run changes *)

Section MainFacts.

Variable py_float : string -> option Q.
Variable ENTITY_TYPES : list string.
Variable plot_metrics : MetricsDocument -> result unit.
Variable plot_history : list (dict scalar) -> result unit.

Lemma read_only_outcome (o : outcome) (file : option (list (dict scalar)))
    (P : Prop) (ok : string -> Prop) :
  history_after o = file -> metrics_json o = None ->
  (exists tail,
     load_metrics_history (history_after o) = load_metrics_history file ++ tail /\
     (length tail <= 1)%nat) /\
  (P -> history_after o = file) /\
  (forall p d, metrics_json o = Some (p, d) ->
     ended o = Ok tt /\ latencies d = None /\ ok p).
Proof.
  intros -> ->. split; [|split].
  - exists []. rewrite app_nil_r. split; [reflexivity|simpl; lia].
  - reflexivity.
  - intros p d H. discriminate H.
Qed.

Lemma analyze_append_only (args : arguments) (now : string)
    (file : option (list (dict scalar))) (csv_path : string)
    (results : list row) :
  let o := analyze py_float ENTITY_TYPES plot_metrics args now file csv_path
             results in
  (exists tail,
     load_metrics_history (history_after o) = load_metrics_history file ++ tail /\
     (length tail <= 1)%nat) /\
  (arg_no_history_add args = true -> history_after o = file) /\
  (forall p d, metrics_json o = Some (p, d) ->
     ended o = Ok tt /\ latencies d = None /\ p = csv_path).
Proof.
  assert (exists tail : list (dict scalar),
            load_metrics_history file = load_metrics_history file ++ tail /\
            (length tail <= 1)%nat) as Hsame.
  { exists []. rewrite app_nil_r. split; [reflexivity|simpl; lia]. }
  cbv zeta. unfold analyze.
  destruct (calculate_metrics py_float ENTITY_TYPES now results) as [m|e];
    [|cbn; repeat split; try exact Hsame; try discriminate; auto].
  destruct (print_metrics_report ENTITY_TYPES m) as [lines [[]|e]];
    [|cbn; repeat split; try exact Hsame; try discriminate; auto].
  assert (forall (out3 : list event) (plotted : result unit),
            let o :=
              match plotted with
              | Raise e =>
                  {| printed := out3; history_after := file;
                     metrics_json := None; ended := Raise e |}
              | Ok _ =>
                  let '(file', out4, recorded) :=
                    if arg_no_history_add args then (file, out3, Ok tt)
                    else
                      match add_to_history m file with
                      | (file', Ok r) => (file', out3 ++ [Recorded r], Ok tt)
                      | (file', Raise e) => (file', out3, Raise e)
                      end in
                  match recorded with
                  | Raise e =>
                      {| printed := out4; history_after := file';
                         metrics_json := None; ended := Raise e |}
                  | Ok _ =>
                      {| printed := out4 ++ [MetricsSaved csv_path];
                         history_after := file';
                         metrics_json := Some (csv_path, without_latencies m);
                         ended := Ok tt |}
                  end
              end in
            (exists tail,
               load_metrics_history (history_after o)
               = load_metrics_history file ++ tail /\
               (length tail <= 1)%nat) /\
            (arg_no_history_add args = true -> history_after o = file) /\
            (forall p d, metrics_json o = Some (p, d) ->
               ended o = Ok tt /\ latencies d = None /\ p = csv_path)) as Hrest.
  { intros out3 [[]|e]; cbv zeta;
      [|cbn; repeat split; try exact Hsame; try discriminate; auto].
    destruct (arg_no_history_add args) eqn:Eadd.
    - cbn. split; [exact Hsame|]. split; [reflexivity|].
      intros p d H. injection H as <- <-. auto.
    - pose proof (add_to_history_extends m file) as Hext.
      destruct (add_to_history m file) as [file' [r|e]]; cbn [fst] in Hext;
        cbn; (split; [exact Hext|]); (split; [discriminate|]);
        intros p d H; [injection H as <- <-; auto|discriminate H]. }
  destruct (arg_no_plots args).
  - exact (Hrest ([Analyzing csv_path] ++ map Reported lines) (Ok tt)).
  - exact (Hrest (([Analyzing csv_path] ++ map Reported lines)
                  ++ [PlotMetricsCalled]) (plot_metrics m)).
Qed.

(** X23.  A run of [main] changes the history file only by appending: the
    former records stay, in their order, followed by at most one new
    record.  With [--compare], [--history] or [--no-history-add] the file
    is left as it was.  A [.metrics.json] file is written only by a run
    that ends normally, beside a CSV file that exists, and it holds no
    latency sample. *)
Theorem main_history_append_only
    (args : arguments) (now : string) (file : option (list (dict scalar)))
    (csv_dir : list (string * Q)) (csv_at : string -> option (list row)) :
  let o := main py_float ENTITY_TYPES plot_metrics plot_history args now file
             csv_dir csv_at in
  (exists tail,
     load_metrics_history (history_after o) = load_metrics_history file ++ tail /\
     (length tail <= 1)%nat) /\
  (is_Some (arg_compare args) \/ arg_history args = true \/
   arg_no_history_add args = true -> history_after o = file) /\
  (forall p d, metrics_json o = Some (p, d) ->
     ended o = Ok tt /\ latencies d = None /\ is_Some (csv_at p)).
Proof.
  intros o.
  destruct (arg_compare args) as [[v1 v2]|] eqn:Ecmp.
  { assert (history_after o = file /\ metrics_json o = None) as [H1 H2].
    { subst o. unfold main. rewrite Ecmp.
      destruct (compare_prompt_versions v1 v2 (load_metrics_history file)).
      split; reflexivity. }
    now apply read_only_outcome. }
  destruct (arg_history args) eqn:Ehist.
  { assert (history_after o = file /\ metrics_json o = None) as [H1 H2].
    { subst o. unfold main. rewrite Ecmp, Ehist.
      destruct (history_listing (load_metrics_history file)) as [rows [[]|e]];
        destruct (load_metrics_history file) as [|h hs];
        try destruct (arg_no_plots args); split; reflexivity. }
    now apply read_only_outcome. }
  assert (o = match match arg_file args with
                    | Some f => if String.eqb f "" then find_latest_csv csv_dir
                                else Ok (Some f)
                    | None => find_latest_csv csv_dir
                    end with
              | Raise e =>
                  {| printed := []; history_after := file;
                     metrics_json := None; ended := Raise e |}
              | Ok None =>
                  {| printed := [NoCsvFound]; history_after := file;
                     metrics_json := None; ended := Ok tt |}
              | Ok (Some p) =>
                  match csv_at p with
                  | None =>
                      {| printed := [NoCsvFound]; history_after := file;
                         metrics_json := None; ended := Ok tt |}
                  | Some results =>
                      analyze py_float ENTITY_TYPES plot_metrics args now file
                        p results
                  end
              end) as Ho.
  { subst o. unfold main. now rewrite Ecmp, Ehist. }
  clearbody o.
  destruct (match arg_file args with
            | Some f => if String.eqb f "" then find_latest_csv csv_dir
                        else Ok (Some f)
            | None => find_latest_csv csv_dir
            end) as [[p|]|e];
    try (subst o; apply read_only_outcome; reflexivity).
  destruct (csv_at p) as [results|] eqn:Ep;
    [|subst o; apply read_only_outcome; reflexivity].
  subst o.
  destruct (analyze_append_only args now file p results) as (H1 & H2 & H3).
  split; [exact H1|]. split.
  - intros [[x Hx]|[Hx|Hx]]; [discriminate Hx|discriminate Hx|now apply H2].
  - intros p' d Hj. destruct (H3 p' d Hj) as (E1 & E2 & ->).
    rewrite Ep. split; [exact E1|]. split; [exact E2|]. now eexists.
Qed.

End MainFacts.

(** ** The history listing *)

Lemma py_gt_only_type_error (a b : scalar) (e : exn) :
  py_gt a b = Raise e -> e = TypeError.
Proof. destruct a, b; cbn; intros H; first [ discriminate H | now injection H ]. Qed.

Lemma py_gt_none (a : scalar) :
  py_gt a SNone = Raise TypeError /\ py_gt SNone a = Raise TypeError.
Proof. destruct a; split; reflexivity. Qed.

Lemma insert_desc_result {A : Type} (key : A -> scalar) (x : A) (l : list A) :
  match insert_desc key x l with
  | Ok l' => length l' = S (length l)
  | Raise e => e = TypeError
  end.
Proof.
  induction l as [|y l IH]; [reflexivity|].
  cbn [insert_desc]. destruct (py_gt (key y) (key x)) as [[]|e] eqn:G;
    cbn [rbind].
  - destruct (insert_desc key x l) as [l'|e]; cbn [rbind]; [|exact IH].
    cbn [length]. now rewrite IH.
  - reflexivity.
  - now apply py_gt_only_type_error in G.
Qed.

Lemma py_sorted_desc_result {A : Type} (key : A -> scalar) (xs : list A) :
  match py_sorted_desc key xs with
  | Ok l => length l = length xs
  | Raise e => e = TypeError
  end.
Proof.
  induction xs as [|x xs IH]; [reflexivity|].
  cbn [py_sorted_desc]. destruct (py_sorted_desc key xs) as [l|e];
    cbn [rbind]; [|exact IH].
  pose proof (insert_desc_result key x l) as H.
  destruct (insert_desc key x l); [|exact H].
  cbn [length]. now rewrite H, IH.
Qed.

(** A [None] among the keys of two or more items. *)
Lemma py_sorted_desc_none {A : Type} (key : A -> scalar) (xs : list A) :
  (exists x, x ∈ xs /\ key x = SNone) ->
  (2 <= length xs)%nat ->
  py_sorted_desc key xs = Raise TypeError.
Proof.
  induction xs as [|x xs IH]; intros (h & Hh & Hnone) Hlen;
    [inversion Hh|].
  cbn [py_sorted_desc].
  pose proof (py_sorted_desc_result key xs) as Hres.
  destruct (py_sorted_desc key xs) as [l|e] eqn:E; cbn [rbind];
    [|now subst e].
  cbn [length] in Hlen.
  destruct l as [|y l]; [cbn [length] in Hres; lia|].
  cbn [insert_desc].
  apply elem_of_cons in Hh as [->|Hh].
  - rewrite Hnone. now rewrite (proj1 (py_gt_none (key y))).
  - destruct xs as [|x1 [|x2 xs]].
    + inversion Hh.
    + apply list_elem_of_singleton in Hh. subst x1.
      cbn in E. injection E as <- <-.
      rewrite Hnone. now rewrite (proj2 (py_gt_none (key x))).
    + assert (Ok (y :: l) = Raise TypeError) as R.
      { apply IH; [|cbn [length]; lia].
        exists h. split; [exact Hh|exact Hnone]. }
      discriminate R.
Qed.

Lemma history_listing_null_timestamp (history : list (dict scalar)) :
  (exists h, h ∈ history /\ dict_get "timestamp" h = Some SNone) ->
  history_listing history = ([], Raise TypeError).
Proof.
  intros (h & Hh & Hnull). unfold history_listing.
  assert (timestamp_key h = SNone) as Hkey
    by (unfold timestamp_key; now rewrite Hnull).
  destruct history as [|h1 [|h2 hs]].
  - inversion Hh.
  - apply list_elem_of_singleton in Hh. subst h1.
    cbn [py_sorted_desc insert_desc rbind take map run_prints].
    unfold history_row. rewrite Hnull. reflexivity.
  - rewrite py_sorted_desc_none; [reflexivity| |cbn [length]; lia].
    exists h. split; [exact Hh|exact Hkey].
Qed.

Lemma history_rows_ok (hs : list (dict scalar)) :
  Forall listable hs ->
  exists rows, map history_row hs = map Ok rows /\ Forall2 listed hs rows.
Proof.
  induction 1 as [|h hs (Hts & Hpv & x & Hx) _ (rows & Hrows & Hf)].
  - exists []. split; [reflexivity|constructor].
  - exists (HistoryRow
              (String.substring 0 19
                 match dict_get "timestamp" h with
                 | Some (SStr s) => s
                 | _ => "N/A"
                 end)
              (default (SStr "N/A") (dict_get "prompt_version" h))
              (x * 100)%Q :: rows).
    cbn [map]. rewrite Hrows. split.
    + f_equal. unfold history_row. rewrite Hx.
      destruct Hts as [Hs|[s Hs]]; rewrite Hs; cbn [default from_option id
        py_prefix rbind];
        (destruct (dict_get "prompt_version" h) as [[]|]; [contradiction|..]);
        reflexivity.
    + constructor; [|exact Hf]. exists x. split; [exact Hx|reflexivity].
Qed.

Lemma listable_timestamp_key (h : dict scalar) :
  listable h -> timestamp_key h = SStr (timestamp_text h).
Proof.
  intros ([Hs|[s Hs]] & _); apply timestamp_key_text; unfold timestamp_key;
    rewrite Hs; eexists; reflexivity.
Qed.

Section HistoryMode.

Variable py_float : string -> option Q.
Variable ENTITY_TYPES : list string.
Variable plot_metrics : MetricsDocument -> result unit.
Variable plot_history : list (dict scalar) -> result unit.

(** X24.  [--history] lists the newest runs first.  When every record of a
    non-empty history can be shown (its timestamp is a string or absent, its
    prompt version is not null, its accuracy is a number or absent), the
    run prints the number of records and then one line for each of the
    first ten records of the history sorted by descending timestamp; the
    history plots are made afterwards unless [--no-plots] is given, and the
    history file is left as it was. *)
Theorem history_listing_newest_first
    (args : arguments) (now : string) (file : option (list (dict scalar)))
    (csv_dir : list (string * Q)) (csv_at : string -> option (list row)) :
  arg_compare args = None ->
  arg_history args = true ->
  load_metrics_history file <> [] ->
  Forall listable (load_metrics_history file) ->
  let history := load_metrics_history file in
  let o := main py_float ENTITY_TYPES plot_metrics plot_history args now file
             csv_dir csv_at in
  exists sorted_history rows,
    Permutation sorted_history history /\
    newest_first sorted_history /\
    Forall2 listed (take 10 sorted_history) rows /\
    printed o =
      HistoricalRuns (length history)
      :: rows ++ (if arg_no_plots args then [] else [PlotHistoryCalled]) /\
    ended o = (if arg_no_plots args then Ok tt else plot_history history) /\
    history_after o = file.
Proof.
  intros Ecmp Ehist Hne Hall history o.
  destruct (py_sorted_desc_strings timestamp_key timestamp_text history)
    as (l & Hl & Hperm & Hsorted).
  { intros h Hh. apply listable_timestamp_key.
    rewrite Forall_forall in Hall. now apply Hall. }
  destruct (history_rows_ok (take 10 l)) as (rows & Hrows & Hlisted).
  { apply Forall_take. now rewrite Hperm. }
  exists l, rows. split; [exact Hperm|]. split; [exact Hsorted|].
  split; [exact Hlisted|].
  assert (history_listing history = (rows, Ok tt)) as Hlist.
  { unfold history_listing. rewrite Hl.
    now rewrite (run_prints_app _ rows []). }
  subst o. unfold main. rewrite Ecmp, Ehist. fold history.
  destruct history as [|h hs] eqn:Eh; [contradiction|]. rewrite <- Eh in *.
  rewrite Hlist. destruct (arg_no_plots args); cbn [printed ended history_after];
    repeat split; try reflexivity.
  now rewrite app_nil_r.
Qed.

(** X25.  A CSV file without a completed row breaks the history.  A run
    that analyses such a file and may add to the history prints the whole
    report, appends a record whose run_id, timestamp and prompt version are
    null (when the history holds no record with a null run_id yet), and
    then raises [TypeError]: the [.metrics.json] file is not written.  From
    then on every [--history] run prints the number of records and raises
    [TypeError] before it lists a single run. *)
Theorem empty_run_breaks_history_listing
    (args1 args2 : arguments) (now1 now2 path : string)
    (file : option (list (dict scalar)))
    (csv_dir1 csv_dir2 : list (string * Q))
    (csv_at1 csv_at2 : string -> option (list row)) (results : list row) :
  arg_compare args1 = None -> arg_history args1 = false ->
  arg_file args1 = Some path -> path <> "" ->
  arg_no_history_add args1 = false ->
  (arg_no_plots args1 = true \/ forall m, plot_metrics m = Ok tt) ->
  csv_at1 path = Some results ->
  completed_rows results = [] ->
  (forall h, h ∈ load_metrics_history file -> record_get "run_id" h <> SNone) ->
  arg_compare args2 = None -> arg_history args2 = true ->
  let o1 := main py_float ENTITY_TYPES plot_metrics plot_history args1 now1
              file csv_dir1 csv_at1 in
  let o2 := main py_float ENTITY_TYPES plot_metrics plot_history args2 now2
              (history_after o1) csv_dir2 csv_at2 in
  ended o1 = Raise TypeError /\
  metrics_json o1 = None /\
  (exists r,
     history_after o1 = Some (load_metrics_history file ++ [r]) /\
     dict_get "run_id" r = Some SNone /\
     dict_get "timestamp" r = Some SNone /\
     dict_get "prompt_version" r = Some SNone) /\
  (exists lines,
     printed o1 =
       Analyzing path :: map Reported lines
       ++ (if arg_no_plots args1 then [] else [PlotMetricsCalled]) /\
     (exists doc, calculate_metrics py_float ENTITY_TYPES now1 results = Ok doc /\
                  print_metrics_report ENTITY_TYPES doc = (lines, Ok tt))) /\
  printed o2 = [HistoricalRuns (S (length (load_metrics_history file)))] /\
  ended o2 = Raise TypeError /\
  history_after o2 = history_after o1.
Proof.
  intros Ecmp1 Ehist1 Efile Hpath Eadd Hplot Hcsv Hnone Hfresh Ecmp2 Ehist2.
  destruct (calculate_metrics_total py_float ENTITY_TYPES now1 results)
    as [doc Hdoc].
  destruct (report_printed ENTITY_TYPES doc) as [lines Hlines].
  { repeat eexists. exact Hdoc. }
  assert (fields doc =
            [("total_tests", SInt (Z.of_nat (length results)));
             ("completed_tests", SInt 0);
             ("skipped_tests",
                SInt (Z.of_nat (length (filter (has_status "SKIPPED") results))));
             ("error_tests",
                SInt (Z.of_nat (length (filter (has_status "ERROR") results))));
             ("error", SStr "No completed tests to analyze")]) as Hf.
  { unfold calculate_metrics in Hdoc. rewrite Hnone in Hdoc.
    cbn [length Nat.eqb] in Hdoc. now injection Hdoc as <-. }
  assert (metrics_get doc "run_id" = SNone) as Hid
    by (unfold metrics_get; now rewrite Hf).
  assert (add_to_history doc file =
            (Some (load_metrics_history file ++ [history_record_of doc]),
             Raise TypeError)) as Hadd.
  { rewrite add_to_history_fresh; [now rewrite Hid|].
    rewrite Hid.
    destruct (in_ids SNone
                (map (record_get "run_id") (load_metrics_history file)))
      eqn:E; [|reflexivity].
    apply in_ids_run_ids in E as (h & Hh & Eh).
    exfalso. apply (Hfresh h Hh).
    destruct (record_get "run_id" h); [reflexivity|discriminate..]. }
  intros o1 o2.
  assert (o1 = {| printed :=
                    ([Analyzing path] ++ map Reported lines)
                    ++ (if arg_no_plots args1 then [] else [PlotMetricsCalled]);
                  history_after :=
                    Some (load_metrics_history file ++ [history_record_of doc]);
                  metrics_json := None;
                  ended := Raise TypeError |}) as Ho1.
  { subst o1. unfold main. rewrite Ecmp1, Ehist1, Efile.
    destruct (String.eqb_spec path "") as [->|_]; [contradiction|].
    rewrite Hcsv. unfold analyze. rewrite Hdoc, Hlines, Eadd, Hadd.
    destruct (arg_no_plots args1).
    - now rewrite app_nil_r.
    - destruct Hplot as [Hplot|Hplot]; [discriminate Hplot|].
      now rewrite Hplot. }
  subst o2. clearbody o1. subst o1.
  cbn [history_after ended metrics_json printed].
  split; [reflexivity|]. split; [reflexivity|]. split.
  { exists (history_record_of doc). split; [reflexivity|].
    unfold history_record_of, metrics_get. rewrite Hf.
    repeat split; reflexivity. }
  split.
  { exists lines. split; [reflexivity|]. exists doc. now split. }
  assert (history_listing (load_metrics_history file ++ [history_record_of doc])
          = ([], Raise TypeError)) as Hlist.
  { apply history_listing_null_timestamp. exists (history_record_of doc).
    split; [apply elem_of_app; right; apply list_elem_of_singleton; reflexivity|].
    unfold history_record_of, metrics_get. now rewrite Hf. }
  unfold main. rewrite Ecmp2, Ehist2.
  cbn [load_metrics_history default from_option id].
  rewrite Hlist.
  destruct (load_metrics_history file ++ [history_record_of doc]) eqn:E.
  { destruct (load_metrics_history file); discriminate E. }
  rewrite <- E. cbn [printed ended history_after].
  rewrite length_app, Nat.add_1_r.
  repeat split; reflexivity.
Qed.

End HistoryMode.

Lemma history_listing_newest_first_witness :
  arg_compare history_args = None /\
  arg_history history_args = true /\
  load_metrics_history (Some sample_history) <> [] /\
  Forall listable (load_metrics_history (Some sample_history)) /\
  exists sorted_history rows,
    Permutation sorted_history sample_history /\
    newest_first sorted_history /\
    Forall2 listed (take 10 sorted_history) rows /\
    printed (main decimal_float default_entity_types plots_fine plots_fine
               history_args "2024-05-01T10:00:00" (Some sample_history) []
               skipped_only)
    = HistoricalRuns 2 :: rows.
Proof.
  assert (Forall listable (load_metrics_history (Some sample_history))) as Hall.
  { repeat constructor; try discriminate;
      first [ right; eexists; reflexivity | eexists; reflexivity ]. }
  split; [reflexivity|]. split; [reflexivity|].
  split; [discriminate|]. split; [exact Hall|].
  destruct (history_listing_newest_first decimal_float default_entity_types
              plots_fine plots_fine history_args "2024-05-01T10:00:00"
              (Some sample_history) [] skipped_only eq_refl eq_refl)
    as (l & rows & Hperm & Hsorted & Hlisted & Hprinted & _);
    [discriminate|exact Hall|].
  exists l, rows. split; [exact Hperm|]. split; [exact Hsorted|].
  split; [exact Hlisted|]. rewrite Hprinted.
  cbn [arg_no_plots history_args]. now rewrite app_nil_r.
Defined.

Lemma empty_run_breaks_history_listing_witness :
  skipped_only "run.csv" = Some [skipped_row] /\
  completed_rows [skipped_row] = [] /\
  arg_file analysis_args = Some "run.csv" /\
  arg_no_history_add analysis_args = false /\
  arg_history history_args = true /\
  exists o1 o2,
    o1 = main decimal_float default_entity_types plots_fine plots_fine
           analysis_args "2024-05-01T10:00:00" None [] skipped_only /\
    o2 = main decimal_float default_entity_types plots_fine plots_fine
           history_args "2024-05-02T10:00:00" (history_after o1) []
           skipped_only /\
    ended o1 = Raise TypeError /\ metrics_json o1 = None /\
    printed o2 = [HistoricalRuns 1] /\ ended o2 = Raise TypeError.
Proof.
  repeat (split; [reflexivity|]).
  eexists. eexists. split; [reflexivity|]. split; [reflexivity|].
  destruct (empty_run_breaks_history_listing decimal_float
              default_entity_types plots_fine plots_fine
              analysis_args history_args
              "2024-05-01T10:00:00" "2024-05-02T10:00:00" "run.csv" None
              [] [] skipped_only skipped_only [skipped_row])
    as (H1 & H2 & _ & _ & H3 & H4 & _);
    try reflexivity; try discriminate.
  - now left.
  - intros h Hh. inversion Hh.
  - auto.
Defined.

(** ** The command line: an analysis *)

Lemma add_to_history_string_run_id (metrics : MetricsDocument)
    (file : option (list (dict scalar))) (s : string) :
  metrics_get metrics "run_id" = SStr s ->
  (exists r, (add_to_history metrics file).2 = Ok r) /\
  (exists h, h ∈ load_metrics_history (add_to_history metrics file).1 /\
             record_get "run_id" h = SStr s).
Proof.
  intros Hid. split.
  - destruct (in_ids (metrics_get metrics "run_id")
                (map (record_get "run_id") (load_metrics_history file))) eqn:E.
    + rewrite add_to_history_duplicate by exact E. cbn [snd].
      rewrite Hid. eexists. reflexivity.
    + rewrite add_to_history_fresh by exact E. cbn [snd].
      rewrite Hid. eexists. reflexivity.
  - destruct (add_to_history_holds_run_id metrics file) as (h & Hh & E).
    exists h. split; [exact Hh|]. rewrite Hid in E. now apply py_eqb_str.
Qed.

Section AnalysisMode.

Variable py_float : string -> option Q.
Variable ENTITY_TYPES : list string.
Variable plot_metrics : MetricsDocument -> result unit.
Variable plot_history : list (dict scalar) -> result unit.

(** X26.  The analysis of a CSV file ends normally when
    [calculate_metrics] returns a document for its rows, the run_id of the
    document is a string, and the plots can be made (or are switched off).
    Such a file has a completed row.  The run prints the name of the file,
    the whole report, and after the plots and the line of [add_to_history]
    (unless switched off) the name of the [.metrics.json] file; that file
    holds the document without the latency sample; and unless
    [--no-history-add] is given the history afterwards holds a record with
    the run_id of the document.  (The calculation raises on a completed row
    whose line in the file is too short to have a cell it lowers, and a
    first line too short to have the run_id cell gives a null run_id.) *)
Theorem analysis_of_completed_run
    (args : arguments) (now path : string)
    (file : option (list (dict scalar))) (csv_dir : list (string * Q))
    (csv_at : string -> option (list row)) (results : list row)
    (doc : MetricsDocument) (run_id : string) :
  arg_compare args = None -> arg_history args = false ->
  arg_file args = Some path -> path <> "" ->
  csv_at path = Some results ->
  calculate_metrics py_float ENTITY_TYPES now results = Ok doc ->
  metrics_get doc "run_id" = SStr run_id ->
  (arg_no_plots args = true \/ forall m, plot_metrics m = Ok tt) ->
  let o := main py_float ENTITY_TYPES plot_metrics plot_history args now file
             csv_dir csv_at in
  completed_rows results <> [] /\
  exists lines recorded,
    print_metrics_report ENTITY_TYPES doc = (lines, Ok tt) /\
    ended o = Ok tt /\
    metrics_json o = Some (path, without_latencies doc) /\
    printed o =
      Analyzing path :: map Reported lines
      ++ (if arg_no_plots args then [] else [PlotMetricsCalled])
      ++ recorded ++ [MetricsSaved path] /\
    (if arg_no_history_add args
     then recorded = [] /\ history_after o = file
     else (exists r, recorded = [Recorded r]) /\
          history_after o = (add_to_history doc file).1 /\
          exists h, h ∈ load_metrics_history (history_after o) /\
                    record_get "run_id" h = SStr run_id).
Proof.
  intros Ecmp Ehist Efile Hpath Hcsv Hdoc Hid Hplot o.
  split.
  { intros E. unfold calculate_metrics in Hdoc. rewrite E in Hdoc.
    cbn [length Nat.eqb] in Hdoc. injection Hdoc as <-.
    discriminate Hid. }
  assert (printable doc) as Hprintable.
  { destruct (calculated_printable doc) as (_ & Hkeys & Hhour).
    - repeat eexists. exact Hdoc.
    - split; [|split; assumption]. exists run_id.
      unfold metrics_get in Hid.
      destruct (dict_get "run_id" (fields doc)) as [v|];
        [cbn [default from_option id] in Hid |- *; exact Hid|discriminate Hid]. }
  assert (exists lines, print_metrics_report ENTITY_TYPES doc = (lines, Ok tt))
    as [lines Hlines].
  { apply (report_items_ok ENTITY_TYPES) in Hprintable.
    apply run_prints_ok_iff in Hprintable.
    destruct (print_metrics_report ENTITY_TYPES doc) as [lines r] eqn:E.
    unfold print_metrics_report in Hprintable, E.
    rewrite E in Hprintable. cbn [snd] in Hprintable. subst r.
    now exists lines. }
  destruct (add_to_history_string_run_id doc file _ Hid) as ([r Hr] & Hheld).
  assert (o = analyze py_float ENTITY_TYPES plot_metrics args now file path
                results) as Ho.
  { subst o. unfold main. rewrite Ecmp, Ehist, Efile.
    destruct (String.eqb_spec path "") as [->|_]; [contradiction|].
    now rewrite Hcsv. }
  clearbody o. subst o. unfold analyze. rewrite Hdoc, Hlines.
  assert ((if arg_no_plots args then (([Analyzing path] ++ map Reported lines), Ok tt)
           else (([Analyzing path] ++ map Reported lines) ++ [PlotMetricsCalled],
                 plot_metrics doc))
          = (([Analyzing path] ++ map Reported lines)
             ++ (if arg_no_plots args then [] else [PlotMetricsCalled]), Ok tt))
    as ->.
  { destruct (arg_no_plots args); [now rewrite app_nil_r|].
    destruct Hplot as [Hplot|Hplot]; [discriminate Hplot|now rewrite Hplot]. }
  exists lines.
  destruct (arg_no_history_add args).
  - exists []. cbn [printed ended metrics_json history_after].
    repeat split; try reflexivity.
    cbn [app]. now rewrite <- ?app_assoc.
  - destruct (add_to_history doc file) as [file' rep] eqn:Eadd.
    cbn [fst snd] in Hr, Hheld. subst rep.
    exists [Recorded r]. cbn [printed ended metrics_json history_after].
    repeat split; try reflexivity.
    + cbn [app]. now rewrite <- ?app_assoc.
    + now exists r.
    + exact Hheld.
Qed.

(** X27.  Without [--file] (or with an empty name) an analysis takes the
    newest CSV file of the export directory, the first of several with the
    latest modification time.  With no CSV file there, or when the chosen
    file does not exist, the run prints that no CSV file was found and
    changes nothing. *)
Theorem analysis_takes_newest_csv
    (args : arguments) (now : string)
    (file : option (list (dict scalar))) (csv_dir : list (string * Q))
    (csv_at : string -> option (list row)) :
  arg_compare args = None -> arg_history args = false ->
  arg_file args = None \/ arg_file args = Some "" ->
  let o := main py_float ENTITY_TYPES plot_metrics plot_history args now file
             csv_dir csv_at in
  let not_found :=
    {| printed := [NoCsvFound]; history_after := file; metrics_json := None;
       ended := Ok tt |} in
  match csv_dir with
  | [] => o = not_found
  | _ =>
      exists i path mtime,
        csv_dir !! i = Some (path, mtime) /\
        (forall f, f ∈ csv_dir -> (f.2 <= mtime)%Q) /\
        (forall j f, csv_dir !! j = Some f -> (j < i)%nat -> (f.2 < mtime)%Q) /\
        o = match csv_at path with
            | None => not_found
            | Some results =>
                analyze py_float ENTITY_TYPES plot_metrics args now file path
                  results
            end
  end.
Proof.
  intros Ecmp Ehist Efile o not_found.
  assert (o = match find_latest_csv csv_dir with
              | Raise e =>
                  {| printed := []; history_after := file;
                     metrics_json := None; ended := Raise e |}
              | Ok None => not_found
              | Ok (Some p) =>
                  match csv_at p with
                  | None => not_found
                  | Some results =>
                      analyze py_float ENTITY_TYPES plot_metrics args now file
                        p results
                  end
              end) as Ho.
  { subst o. unfold main. rewrite Ecmp, Ehist.
    destruct Efile as [-> | ->]; reflexivity. }
  clearbody o. subst o.
  destruct csv_dir as [|f0 rest] eqn:E; [reflexivity|].
  rewrite <- E. assert (csv_dir <> []) as Hne by (rewrite E; discriminate).
  clear E.
  destruct (py_max_floats (fun f : string * Q => SFloat f.2) snd csv_dir Hne)
    as (i & [path mtime] & M & L & G & F); [reflexivity|].
  exists i, path, mtime. split; [exact L|]. split; [exact G|].
  split; [exact F|].
  unfold find_latest_csv. destruct csv_dir as [|f1 rest1]; [contradiction|].
  rewrite M. reflexivity.
Qed.

End AnalysisMode.

Lemma analysis_of_completed_run_witness :
  let csv_at (p : string) :=
    if String.eqb p "run.csv" then Some [stamped_row] else None in
  csv_at "run.csv" = Some [stamped_row] /\
  arg_file analysis_args = Some "run.csv" /\
  exists o doc,
    calculate_metrics decimal_float default_entity_types "2024-05-01T10:00:00"
      [stamped_row] = Ok doc /\
    metrics_get doc "run_id" = SStr "a1b2c3d4e5f6" /\
    o = main decimal_float default_entity_types plots_fine plots_fine
          analysis_args "2024-05-01T10:00:00" None [] csv_at /\
    ended o = Ok tt /\
    metrics_json o = Some ("run.csv", without_latencies doc) /\
    exists h, h ∈ load_metrics_history (history_after o) /\
              record_get "run_id" h = SStr "a1b2c3d4e5f6".
Proof.
  intros csv_at.
  assert (completed_rows [stamped_row] <> []) as Hne.
  { intros E. apply (f_equal length) in E. vm_compute in E. discriminate E. }
  destruct (calculate_metrics_completed_doc decimal_float default_entity_types
              "2024-05-01T10:00:00" [stamped_row] Hne)
    as (doc & em & p50 & p95 & p99 & hour & _ & _ & _ & _ & Hdoc & Hf & _).
  assert (metrics_get doc "run_id" = SStr "a1b2c3d4e5f6") as Hid
    by (unfold metrics_get; rewrite Hf; reflexivity).
  split; [reflexivity|]. split; [reflexivity|].
  assert ("run.csv" <> "") as Hpath by discriminate.
  destruct (analysis_of_completed_run decimal_float default_entity_types
              plots_fine plots_fine analysis_args "2024-05-01T10:00:00"
              "run.csv" None [] csv_at [stamped_row] doc "a1b2c3d4e5f6"
              eq_refl eq_refl eq_refl Hpath eq_refl Hdoc Hid
              (or_introl eq_refl))
    as (_ & lines & recorded & _ & Hend & Hjson & _ & Hrec).
  cbn [arg_no_history_add analysis_args] in Hrec.
  destruct Hrec as (_ & _ & h & Hh & Hrun).
  eexists. exists doc. split; [exact Hdoc|]. split; [exact Hid|].
  split; [reflexivity|]. split; [exact Hend|].
  split; [exact Hjson|]. exists h. split; [exact Hh|exact Hrun].
Defined.

Lemma analysis_takes_newest_csv_witness :
  let args :=
    {| arg_file := None; arg_history := false; arg_compare := None;
       arg_no_plots := true; arg_no_history_add := true |} in
  let csv_dir := [("old.csv", 10%Q); ("run.csv", 30%Q); ("mid.csv", 20%Q)] in
  arg_file args = None /\
  exists i path mtime,
    csv_dir !! i = Some (path, mtime) /\
    (forall f, f ∈ csv_dir -> (f.2 <= mtime)%Q) /\
    main decimal_float default_entity_types plots_fine plots_fine args
      "2024-05-01T10:00:00" None csv_dir skipped_only
    = match skipped_only path with
      | None =>
          {| printed := [NoCsvFound]; history_after := None;
             metrics_json := None; ended := Ok tt |}
      | Some results =>
          analyze decimal_float default_entity_types plots_fine args
            "2024-05-01T10:00:00" None path results
      end.
Proof.
  intros args csv_dir. split; [reflexivity|].
  destruct (analysis_takes_newest_csv decimal_float default_entity_types
              plots_fine plots_fine args "2024-05-01T10:00:00" None csv_dir
              skipped_only eq_refl eq_refl (or_introl eq_refl))
    as (i & path & mtime & L & G & _ & E).
  exists i, path, mtime. auto.
Defined.
